(** * Resume structuring, domain classification and domain-aware ranking

    A shallow embedding of [job_recommender.py] and of the parts of
    [advanced_resume_parser.py] that segment and structure a resume.

    Conventions of the embedding.
    - Text is a [string] of 8-bit characters.  Character classes and case
      mapping are those of Python on the ASCII range; characters above 127
      are caseless and belong to no class.
    - Python floats are exact rationals ([Q]).  Every property below is
      about order, bounds and capping, which rounding preserves.
    - A posting is a Python dict, here a [gmap string value]; the postings
      handed to the ranker are references into a store of such dicts. *)

From Stdlib Require Import String Ascii List Bool Arith ZArith QArith Qminmax Qround Lia Lqa.
From Stdlib Require Import Sorting.Sorted Sorting.Permutation.
From stdpp Require Import base gmap strings.

Import ListNotations.
Local Open Scope string_scope.
Local Open Scope list_scope.

(** ** Text primitives (Python [str] methods) *)

Module Text.

Definition nl : ascii := "010"%char.

Definition code (c : ascii) : nat := nat_of_ascii c.

Definition between (lo hi : nat) (c : ascii) : bool :=
  (lo <=? code c)%nat && (code c <=? hi)%nat.

Definition is_upper (c : ascii) : bool := between 65 90 c.
Definition is_lower (c : ascii) : bool := between 97 122 c.
Definition is_digit (c : ascii) : bool := between 48 57 c.

(** [str.isspace] and the class [\s]: tab, line feed, vertical tab, form
    feed, carriage return, the four separators 28..31, and space. *)
Definition is_space (c : ascii) : bool :=
  between 9 13 c || between 28 31 c || (code c =? 32)%nat.

(** The class [\w]. *)
Definition is_word (c : ascii) : bool :=
  is_upper c || is_lower c || is_digit c || (code c =? 95)%nat.

Definition lower_char (c : ascii) : ascii :=
  if is_upper c then ascii_of_nat (code c + 32) else c.

Definition upper_char (c : ascii) : ascii :=
  if is_lower c then ascii_of_nat (code c - 32) else c.

(** [s.lower()] *)
Fixpoint lower (s : string) : string :=
  match s with
  | EmptyString => EmptyString
  | String c s' => String (lower_char c) (lower s')
  end.

(** [t.startswith(m)] *)
Fixpoint startswith (m t : string) : bool :=
  match m, t with
  | EmptyString, _ => true
  | String a m', String b t' => Ascii.eqb a b && startswith m' t'
  | String _ _, EmptyString => false
  end.

(** [m in t] on strings: [m] occurs in [t] as a contiguous run. *)
Fixpoint py_in (m t : string) : bool :=
  startswith m t ||
  match t with
  | EmptyString => false
  | String _ t' => py_in m t'
  end.

(** [s.lstrip()], [s.rstrip()], [s.strip()] *)
Fixpoint lstrip (s : string) : string :=
  match s with
  | EmptyString => EmptyString
  | String c s' => if is_space c then lstrip s' else s
  end.

Fixpoint rstrip (s : string) : string :=
  match s with
  | EmptyString => EmptyString
  | String c s' =>
      match rstrip s' with
      | EmptyString => if is_space c then EmptyString else String c EmptyString
      | r => String c r
      end
  end.

Definition strip (s : string) : string := rstrip (lstrip s).

(** [s.split(sep)] for a one-character separator: always at least one
    piece, empty pieces kept. *)
Fixpoint split (sep : ascii) (s : string) : list string :=
  match s with
  | EmptyString => [EmptyString]
  | String c s' =>
      if Ascii.eqb c sep then EmptyString :: split sep s'
      else match split sep s' with
           | [] => [String c EmptyString]
           | p :: ps => String c p :: ps
           end
  end.

(** [sep.join(parts)] *)
Fixpoint join (sep : string) (parts : list string) : string :=
  match parts with
  | [] => EmptyString
  | [p] => p
  | p :: ps => p ++ sep ++ join sep ps
  end.

(** Truthiness of a string: [if text:] *)
Definition nonempty (s : string) : bool :=
  match s with EmptyString => false | _ => true end.

(** Every character of [s] satisfies [p]. *)
Fixpoint all_chars (p : ascii -> bool) (s : string) : bool :=
  match s with
  | EmptyString => true
  | String c s' => p c && all_chars p s'
  end.

(** [c in chars] for a single character. *)
Fixpoint one_of (chars : string) (c : ascii) : bool :=
  match chars with
  | EmptyString => false
  | String d chars' => Ascii.eqb c d || one_of chars' c
  end.

(** Case-insensitive occurrence, stated on the text itself: some run of
    [t] agrees with [m] character by character once both are lowered. *)
Fixpoint prefix_ci (m t : string) : bool :=
  match m, t with
  | EmptyString, _ => true
  | String a m', String b t' =>
      Ascii.eqb (lower_char a) (lower_char b) && prefix_ci m' t'
  | String _ _, EmptyString => false
  end.

Fixpoint occurs_ci (m t : string) : bool :=
  prefix_ci m t ||
  match t with
  | EmptyString => false
  | String _ t' => occurs_ci m t'
  end.

End Text.

(** ** A backtracking matcher for the [re] patterns of the parser

    Greedy repetition, ordered alternation, capture groups, the word
    boundary and the IGNORECASE flag, explored in the order of Python's
    engine: the first way of matching that the continuation accepts wins. *)

Module Re.
Import Text.

Inductive regex : Type :=
| Eps
| Class (neg : bool) (p : ascii -> bool)
| Seq (a b : regex)
| Alt (a b : regex)
| Star (a : regex)
| Group (i : nat) (a : regex)
| WordB.

Definition Chr (c : ascii) : regex := Class false (Ascii.eqb c).
Definition Plus (a : regex) : regex := Seq a (Star a).
Definition Opt (a : regex) : regex := Alt a Eps.

(** [a{n,}] *)
Fixpoint AtLeast (n : nat) (a : regex) : regex :=
  match n with
  | O => Star a
  | S n' => Seq a (AtLeast n' a)
  end.

(** A literal word. *)
Fixpoint Lit (s : string) : regex :=
  match s with
  | EmptyString => Eps
  | String c s' => Seq (Chr c) (Lit s')
  end.

(** [w1|w2|...] *)
Fixpoint Words (ws : list string) : regex :=
  match ws with
  | [] => Class false (fun _ => false)
  | [w] => Lit w
  | w :: ws' => Alt (Lit w) (Words ws')
  end.

Definition caps : Type := list (nat * string).
Definition cont : Type := option ascii -> string -> caps -> option (string * caps).

Definition accept : cont := fun _ s cs => Some (s, cs).

Definition is_word_opt (o : option ascii) : bool :=
  match o with Some c => is_word c | None => false end.

Definition head (s : string) : option ascii :=
  match s with EmptyString => None | String c _ => Some c end.

(** The text consumed between the suffix [s] and its later suffix [s']. *)
Definition taken (s s' : string) : string :=
  substring 0 (String.length s - String.length s') s.

Section Engine.
Variable icase : bool.

Definition class_hit (neg : bool) (p : ascii -> bool) (c : ascii) : bool :=
  xorb neg (p c || (icase && (p (lower_char c) || p (upper_char c)))).

(** Greedy repetition of one [step]: take another round when it
    consumes something and the rest then matches, else go on with [k].
    [n] bounds the rounds by the length of the text. *)
Fixpoint star_loop (step : option ascii -> string -> caps -> cont ->
                           option (string * caps))
         (k : cont) (n : nat) (prev : option ascii) (s : string) (cs : caps)
  : option (string * caps) :=
  match n with
  | O => k prev s cs
  | S n' =>
      match step prev s cs
                 (fun prev' s' cs' =>
                    if (String.length s' <? String.length s)%nat
                    then star_loop step k n' prev' s' cs' else None) with
      | Some res => Some res
      | None => k prev s cs
      end
  end.

(** [run r prev s cs k]: match [r] at the front of [s], [prev] being the
    character just before; [k] receives what is left. *)
Fixpoint run (r : regex) (prev : option ascii) (s : string) (cs : caps)
         (k : cont) {struct r} : option (string * caps) :=
  match r with
  | Eps => k prev s cs
  | Class neg p =>
      match s with
      | String c s' => if class_hit neg p c then k (Some c) s' cs else None
      | EmptyString => None
      end
  | Seq a b => run a prev s cs (fun prev' s' cs' => run b prev' s' cs' k)
  | Alt a b =>
      match run a prev s cs k with
      | Some res => Some res
      | None => run b prev s cs k
      end
  | Star a => star_loop (run a) k (String.length s) prev s cs
  | Group i a =>
      run a prev s cs (fun prev' s' cs' => k prev' s' ((i, taken s s') :: cs'))
  | WordB =>
      if xorb (is_word_opt prev) (is_word_opt (head s)) then k prev s cs
      else None
  end.

(** A match object: [group()] and the numbered groups. *)
Record re_match : Type := { group0 : string; groups : caps }.

Definition group (m : re_match) (i : nat) : option string :=
  snd <$> List.find (fun g => (fst g =? i)%nat) (groups m).

Definition match_at (r : regex) (prev : option ascii) (s : string)
  : option (re_match * nat) :=
  match run r prev s [] accept with
  | Some (rest, cs) =>
      Some ({| group0 := taken s rest; groups := cs |},
            String.length s - String.length rest)
  | None => None
  end.

(** [re.search(r, s)]: the leftmost position where [r] matches. *)
Fixpoint search_from (r : regex) (prev : option ascii) (s : string)
  : option re_match :=
  match match_at r prev s with
  | Some (m, _) => Some m
  | None =>
      match s with
      | EmptyString => None
      | String c s' => search_from r (Some c) s'
      end
  end.

Definition search (r : regex) (s : string) : option re_match :=
  search_from r None s.

(** [re.sub(r, repl, s)] for a literal replacement.  [skip] counts the
    characters still covered by the match found last. *)
Fixpoint sub_go (r : regex) (repl : string) (skip : nat)
         (prev : option ascii) (s : string) : string :=
  match s with
  | EmptyString =>
      match match_at r prev s with Some _ => repl | None => EmptyString end
  | String c s' =>
      match skip with
      | S n => sub_go r repl n (Some c) s'
      | O =>
          match match_at r prev s with
          | Some (_, O) => repl ++ String c (sub_go r repl 0 (Some c) s')
          | Some (_, S n) => repl ++ sub_go r repl n (Some c) s'
          | None => String c (sub_go r repl 0 (Some c) s')
          end
      end
  end.

Definition sub (r : regex) (repl s : string) : string :=
  sub_go r repl 0 None s.

(** [re.findall(r, s)] for a pattern without capture groups. *)
Fixpoint findall_go (r : regex) (skip : nat) (prev : option ascii)
         (s : string) : list string :=
  match s with
  | EmptyString =>
      match match_at r prev s with Some (m, _) => [group0 m] | None => [] end
  | String c s' =>
      match skip with
      | S n => findall_go r n (Some c) s'
      | O =>
          match match_at r prev s with
          | Some (m, O) => group0 m :: findall_go r 0 (Some c) s'
          | Some (m, S n) => group0 m :: findall_go r n (Some c) s'
          | None => findall_go r 0 (Some c) s'
          end
      end
  end.

Definition findall (r : regex) (s : string) : list string :=
  findall_go r 0 None s.

End Engine.

End Re.

(** ** advanced_resume_parser.py *)

Module Parser.
Import Text Re.

Record ContactInfo : Type := {
  contact_name : option string;
  contact_email : option string;
  contact_phone : option string;
  contact_location : option string;
  contact_linkedin : option string;
  contact_github : option string;
  contact_portfolio : option string
}.

Record Education : Type := {
  edu_degree : string;
  edu_institution : string;
  edu_year : option string;
  edu_gpa : option string;
  edu_relevant_courses : option (list string)
}.

Record Experience : Type := {
  exp_title : string;
  exp_company : string;
  exp_duration : string;
  exp_description : list string;
  exp_technologies : list string;
  exp_achievements : list string
}.

Record Project : Type := {
  proj_name : string;
  proj_description : string;
  proj_technologies : list string;
  proj_url : option string;
  proj_highlights : option (list string)
}.

Record Certification : Type := {
  cert_name : string;
  cert_issuer : string;
  cert_year : option string;
  cert_expiry : option string
}.

Record ParsedResume : Type := {
  contact_info : ContactInfo;
  skills : list (string * list string);
  experience : list Experience;
  education : list Education;
  projects : list Project;
  certifications : list Certification;
  languages : list string;
  raw_text : string;
  parsed_sections : gmap string string;
  summary : option string
}.

(** [self.section_patterns], in declaration order.  Each pattern is one
    group of alternative words, matched with IGNORECASE. *)
Definition section_patterns : list (string * regex) :=
  [ ("contact", Group 1 (Words ["contact"; "personal"; "info"; "details"]));
    ("summary", Group 1 (Words ["summary"; "objective"; "profile"; "about"]));
    ("experience",
      Group 1 (Words ["experience"; "work"; "employment"; "career"; "professional"]));
    ("education",
      Group 1 (Words ["education"; "academic"; "qualification"; "degree"]));
    ("skills",
      Group 1 (Words ["skills"; "technologies"; "tools"; "languages"; "competencies"]));
    ("projects", Group 1 (Words ["projects"; "portfolio"; "works"; "applications"]));
    ("certifications",
      Group 1 (Words ["certifications"; "certificates"; "credentials"]));
    ("languages", Group 1 (Words ["languages"; "spoken"; "fluent"]));
    ("achievements", Group 1 (Words ["achievements"; "awards"; "recognition"])) ].

(** [self.skill_categories], in declaration order. *)
Definition skill_categories : list (string * list string) :=
  [ ("programming_languages",
      ["python"; "javascript"; "java"; "c++"; "c#"; "php"; "ruby"; "go"; "rust";
       "swift"; "kotlin"; "scala"; "r"; "matlab"; "perl"; "bash"; "powershell";
       "typescript"]);
    ("frameworks",
      ["react"; "angular"; "vue"; "node.js"; "express"; "django"; "flask";
       "spring"; "laravel"; "asp.net"; "tensorflow"; "pytorch"; "scikit-learn";
       "pandas"; "numpy"]);
    ("databases",
      ["mysql"; "postgresql"; "mongodb"; "redis"; "oracle"; "sql server";
       "sqlite"; "cassandra"; "dynamodb"; "elasticsearch"; "neo4j"]);
    ("cloud_platforms",
      ["aws"; "azure"; "gcp"; "heroku"; "digitalocean"; "vercel"; "netlify";
       "firebase"]);
    ("devops_tools",
      ["docker"; "kubernetes"; "jenkins"; "gitlab"; "github actions";
       "terraform"; "ansible"; "chef"; "puppet"; "vagrant"]);
    ("security_tools",
      ["wireshark"; "nmap"; "metasploit"; "burp suite"; "nessus"; "kali linux";
       "splunk"; "elk stack"; "qradar"; "fireeye"]);
    ("testing_tools",
      ["selenium"; "cypress"; "jest"; "mocha"; "junit"; "pytest"; "postman";
       "soapui"]) ].

(** The characters [_preprocess_text] keeps: [\w], [\s] and the listed
    punctuation. *)
Definition kept_char (c : ascii) : bool :=
  is_word c || is_space c || one_of "-.,;:!?()[]{}@#$%&*+=|/\" c.

Definition _preprocess_text (text : string) : string :=
  let text := sub false (Plus (Class false is_space)) " " text in
  let text := sub false (Class true kept_char) "" text in
  strip text.

(** The first section whose pattern is found in [line], if any. *)
Definition header_of (line : string) : option string :=
  fst <$> List.find (fun sp => bool_decide (is_Some (search true (snd sp) line)))
                    section_patterns.

(** State of the loop of [_extract_sections]. *)
Record seg_state : Type := {
  sections : gmap string string;
  current_section : string;
  current_content : list string
}.

Definition newline : string := String nl EmptyString.

Definition seg_step (st : seg_state) (line : string) : seg_state :=
  let line := strip line in
  if negb (nonempty line) then st
  else
    match header_of line with
    | Some section_name =>
        {| sections :=
             if negb (String.eqb (current_section st) "general")
             then <[current_section st := join newline (current_content st)]>
                    (sections st)
             else sections st;
           current_section := section_name;
           current_content := [] |}
    | None =>
        {| sections := sections st;
           current_section := current_section st;
           current_content := current_content st ++ [line] |}
    end.

Definition _extract_sections (text : string) : gmap string string :=
  let lines := split nl text in
  let st := fold_left seg_step lines
              {| sections := ∅; current_section := "general";
                 current_content := [] |} in
  match current_content st with
  | [] => sections st
  | _ => <[current_section st := join newline (current_content st)]> (sections st)
  end.

(** [sections.get(key, '')] *)
Definition section_text (secs : gmap string string) (key : string) : string :=
  default "" (secs !! key).

(** *** Contact information *)

Fixpoint seqs (rs : list regex) : regex :=
  match rs with
  | [] => Eps
  | [r] => r
  | r :: rs' => Seq r (seqs rs')
  end.

Definition alnum (c : ascii) : bool := is_upper c || is_lower c || is_digit c.

(** [\b[A-Za-z0-9._%+-]+@[A-Za-z0-9.-]+\.[A-Z|a-z]{2,}\b] *)
Definition email_pattern : regex :=
  seqs [ WordB;
         Plus (Class false (fun c => alnum c || one_of "._%+-" c));
         Chr "@";
         Plus (Class false (fun c => alnum c || one_of ".-" c));
         Chr ".";
         AtLeast 2 (Class false (fun c => is_upper c || one_of "|" c || is_lower c));
         WordB ].

(** [(\+?[\d\s\-\(\)]{10,})] *)
Definition phone_pattern : regex :=
  Group 1 (Seq (Opt (Chr "+"))
               (AtLeast 10 (Class false (fun c => is_digit c || is_space c
                                                  || one_of "-()" c)))).

(** [(?:site\.com|site)[\s\:]*([^\s\n]+)] *)
Definition handle_pattern (site : string) : regex :=
  seqs [ Words [(site ++ ".com")%string; site];
         Star (Class false (fun c => is_space c || one_of ":" c));
         Group 1 (Plus (Class true (fun c => is_space c || Ascii.eqb c nl))) ].

Definition linkedin_pattern : regex := handle_pattern "linkedin".
Definition github_pattern : regex := handle_pattern "github".

(** [[A-Z][a-z]+] *)
Definition capitalized : regex :=
  Seq (Class false is_upper) (Plus (Class false is_lower)).

(** [[A-Z][a-z]+(?:[\s,]+[A-Z][a-z]+)*,\s*] *)
Definition place_prefix : regex :=
  seqs [ capitalized;
         Star (Seq (Plus (Class false (fun c => is_space c || one_of "," c)))
                   capitalized);
         Chr ",";
         Star (Class false is_space) ].

Definition location_patterns : list regex :=
  [ seqs [ Words ["location"; "address"; "city"; "state"];
           Star (Class false (fun c => is_space c || one_of ":" c));
           Group 1 (Plus (Class true (fun c => Ascii.eqb c nl))) ];
    Group 1 (Seq place_prefix (Seq (Class false is_upper) (Class false is_upper)));
    Group 1 (Seq place_prefix capitalized) ].

(** The loop over [location_patterns]: the first pattern found decides. *)
Fixpoint first_location (patterns : list regex) (text : string) : option string :=
  match patterns with
  | [] => None
  | pattern :: rest =>
      match search true pattern text with
      | Some location_match => strip <$> group location_match 1
      | None => first_location rest text
      end
  end.

Definition _parse_contact_info (text : string) : ContactInfo :=
  {| contact_name := None;
     contact_email := group0 <$> search false email_pattern text;
     contact_phone := (fun m => strip (group0 m)) <$> search false phone_pattern text;
     contact_location := first_location location_patterns text;
     contact_linkedin := search true linkedin_pattern text ≫= (fun m => group m 1);
     contact_github := search true github_pattern text ≫= (fun m => group m 1);
     contact_portfolio := None |}.

(** *** Summary *)

Definition _parse_summary (text : string) : option string :=
  if negb (nonempty text) then None
  else
    match split "." text with
    | [] => None
    | (first :: _) as sentences =>
        Some (if (20 <? String.length first)%nat then first
              else join ". " (firstn 2 sentences))
    end.

(** *** Skills *)

(** [\b[A-Z][a-z]+(?:\s+[A-Z][a-z]+)*\b] *)
Definition additional_skill_pattern : regex :=
  seqs [ WordB; capitalized;
         Star (Seq (Plus (Class false is_space)) capitalized);
         WordB ].

Definition _parse_skills (skills_text full_text : string)
  : list (string * list string) :=
  let search_text := (skills_text ++ " " ++ full_text)%string in
  let search_text_lower := lower search_text in
  let by_category :=
    map (fun '(category, skill_list) =>
           (category,
            List.filter (fun skill => py_in (lower skill) search_text_lower)
                        skill_list))
        skill_categories in
  let additional_skills := findall false additional_skill_pattern search_text in
  let other :=
    fold_left
      (fun other skill =>
         if (2 <? String.length skill)%nat
            && negb (existsb (String.eqb (lower skill))
                             (map lower (concat (map snd by_category) ++ other)))
         then other ++ [skill] else other)
      additional_skills [] in
  List.filter (fun kv => match snd kv with [] => false | _ => true end)
              (by_category ++ [("other", other)]).

(** *** The entry parsers and the whole resume

    Experience, education, projects, certifications and languages return
    the empty list on an empty section; what they do on a non-empty one
    is driven by patterns that no property below depends on, so it stays
    a parameter here. *)

Section Resume.
Variable experience_entries : string -> list Experience.
Variable education_entries : string -> list Education.
Variable project_entries : string -> list Project.
Variable certification_lines : string -> list Certification.
Variable language_matches : string -> list string.

Definition _parse_experience (text : string) : list Experience :=
  if negb (nonempty text) then [] else experience_entries text.

Definition _parse_education (text : string) : list Education :=
  if negb (nonempty text) then [] else education_entries text.

Definition _parse_projects (text : string) : list Project :=
  if negb (nonempty text) then [] else project_entries text.

Definition _parse_certifications (text : string) : list Certification :=
  if negb (nonempty text) then [] else certification_lines text.

Definition _parse_languages (text : string) : list string :=
  if negb (nonempty text) then [] else language_matches text.

Definition parse_resume (text : string) : ParsedResume :=
  let text := _preprocess_text text in
  let sections := _extract_sections text in
  {| contact_info := _parse_contact_info (section_text sections "contact");
     summary := _parse_summary (section_text sections "summary");
     skills := _parse_skills (section_text sections "skills") text;
     experience := _parse_experience (section_text sections "experience");
     education := _parse_education (section_text sections "education");
     projects := _parse_projects (section_text sections "projects");
     certifications :=
       _parse_certifications (section_text sections "certifications");
     languages := _parse_languages (section_text sections "languages");
     raw_text := text;
     parsed_sections := sections |}.
End Resume.

End Parser.

(** ** job_recommender.py: the domain classifier *)

Module Recommender.
Import Text.

(** One entry of [domain_keywords]: the five term buckets of a domain. *)
Record DomainTerms : Type := {
  keywords : list string;
  tools : list string;
  frameworks : list string;
  databases : list string;
  cloud : list string
}.

Definition domain_keywords : list (string * DomainTerms) :=
  [ ("javascript_fullstack",
     {| keywords :=
          ["javascript"; "js"; "es6"; "es6+"; "typescript"; "ts"; "node.js"; "nodejs";
           "react"; "react.js"; "angular"; "vue"; "vue.js"; "next.js"; "nuxt.js";
           "express.js"; "express"; "mern"; "mean"; "full stack"; "fullstack";
           "frontend"; "backend"; "web development"; "web developer";
           "frontend developer"; "backend developer"; "full stack developer";
           "fullstack developer"];
        tools := ["npm"; "yarn"; "webpack"; "babel"; "eslint"; "prettier"; "jest"; "mocha"];
        frameworks :=
          ["react"; "angular"; "vue"; "express"; "fastify"; "koa"; "next.js"; "nuxt.js"];
        databases := ["mongodb"; "mysql"; "postgresql"; "firebase"; "redis"];
        cloud := ["aws"; "vercel"; "netlify"; "heroku"; "digitalocean"] |});
    ("python_development",
     {| keywords :=
          ["python"; "django"; "flask"; "fastapi"; "pyramid"; "bottle"; "cherrypy";
           "python developer"; "django developer"; "flask developer";
           "backend developer"; "api developer"; "python engineer";
           "software engineer python"];
        tools := ["pip"; "virtualenv"; "conda"; "pytest"; "unittest"; "black"; "flake8"];
        frameworks := ["django"; "flask"; "fastapi"; "pyramid"; "bottle"];
        databases := ["postgresql"; "mysql"; "sqlite"; "mongodb"; "redis"];
        cloud := ["aws"; "azure"; "gcp"; "heroku"; "digitalocean"] |});
    ("java_development",
     {| keywords :=
          ["java"; "spring"; "spring boot"; "spring framework"; "hibernate"; "maven";
           "gradle"; "java developer"; "spring developer"; "backend developer";
           "java engineer"; "software engineer java"; "enterprise java"];
        tools := ["maven"; "gradle"; "ant"; "junit"; "mockito"; "intellij"; "eclipse"];
        frameworks := ["spring"; "spring boot"; "spring mvc"; "hibernate"; "struts"];
        databases := ["oracle"; "mysql"; "postgresql"; "mongodb"; "redis"];
        cloud := ["aws"; "azure"; "gcp"; "openshift"; "kubernetes"] |});
    ("cybersecurity",
     {| keywords :=
          ["security"; "cybersecurity"; "cyber security"; "penetration";
           "ethical hacker"; "vulnerability"; "threat"; "incident response"; "soc";
           "siem"; "firewall"; "ids"; "ips"; "malware"; "forensics"; "compliance";
           "audit"; "risk"];
        tools := ["wireshark"; "nmap"; "metasploit"; "burp suite"; "nessus"; "owasp"];
        frameworks := ["owasp"; "nist"; "iso 27001"; "pci dss"];
        databases := ["splunk"; "elk"; "qradar"; "fireeye"];
        cloud := ["aws security"; "azure defender"; "gcp security"] |});
    ("data_science",
     {| keywords :=
          ["data scientist"; "data analyst"; "machine learning"; "ml"; "deep learning";
           "ai"; "artificial intelligence"; "statistics"; "predictive modeling";
           "data visualization"; "nlp"; "computer vision"; "big data"];
        tools :=
          ["python"; "r"; "sql"; "pandas"; "numpy"; "scikit-learn"; "tensorflow";
           "pytorch"];
        frameworks := ["scikit-learn"; "tensorflow"; "pytorch"; "keras"; "spark"];
        databases := ["postgresql"; "mysql"; "mongodb"; "hadoop"; "spark"];
        cloud := ["aws"; "azure"; "gcp"; "databricks"; "sagemaker"] |});
    ("devops",
     {| keywords :=
          ["devops"; "ci/cd"; "continuous integration"; "continuous deployment";
           "infrastructure"; "automation"; "monitoring"; "logging"; "deployment"];
        tools :=
          ["docker"; "kubernetes"; "jenkins"; "gitlab"; "github actions"; "terraform";
           "ansible"];
        frameworks := ["kubernetes"; "docker swarm"; "jenkins"; "gitlab ci"];
        databases := ["prometheus"; "grafana"; "elk"; "splunk"];
        cloud := ["aws"; "azure"; "gcp"; "digitalocean"; "linode"] |});
    ("cloud_engineering",
     {| keywords :=
          ["cloud engineer"; "cloud architect"; "aws engineer"; "azure engineer";
           "gcp engineer"; "cloud developer"; "infrastructure engineer"];
        tools := ["terraform"; "cloudformation"; "ansible"; "docker"; "kubernetes"];
        frameworks := ["aws"; "azure"; "gcp"; "kubernetes"; "docker"];
        databases := ["rds"; "dynamodb"; "cosmos db"; "firestore"];
        cloud := ["aws"; "azure"; "gcp"; "digitalocean"; "linode"] |}) ].

(** The value stored per domain in [domain_scores]. *)
Record DomainScore : Type := {
  score : Q;
  keyword_matches : list string;
  tool_matches : list string;
  framework_matches : list string;
  database_matches : list string;
  cloud_matches : list string;
  total_keywords : nat;
  total_tools : nat;
  total_frameworks : nat;
  total_databases : nat;
  total_cloud : nat
}.

(** The dict returned by [analyze_resume_type].  [subdomain] is the one
    key its readers fetch with [.get]. *)
Record ResumeAnalysis : Type := {
  primary_domain : string;
  primary_score : Q;
  subdomain : option string;
  all_domains : list (string * DomainScore);
  top_domains : list (string * DomainScore);
  resume_text_length : nat;
  is_strong_focus : bool;
  has_multiple_skills : bool;
  is_specialized : bool
}.

(** [[t for t in terms if t.lower() in resume_text.lower()]] *)
Definition matches (terms : list string) (resume_text : string) : list string :=
  List.filter (fun t => py_in (lower t) (lower resume_text)) terms.

(** [len(found) / len(terms) * weight] *)
Definition bucket_score (found terms : list string) (weight : Q) : Q :=
  (inject_Z (Z.of_nat (List.length found)) / inject_Z (Z.of_nat (List.length terms))
   * weight)%Q.

Definition total_score (data : DomainTerms) (resume_text : string) : Q :=
  (bucket_score (matches (keywords data) resume_text) (keywords data) 40
   + bucket_score (matches (tools data) resume_text) (tools data) 25
   + bucket_score (matches (frameworks data) resume_text) (frameworks data) 20
   + bucket_score (matches (databases data) resume_text) (databases data) 10
   + bucket_score (matches (cloud data) resume_text) (cloud data) 5)%Q.

(** [round(x, 1)]: the nearest multiple of one tenth, a tie going to the
    even one. *)
Definition round1 (x : Q) : Q :=
  let t := (x * 10)%Q in
  let n := Qfloor t in
  let up := match (t - inject_Z n ?= 1 # 2)%Q with
            | Lt => false
            | Gt => true
            | Eq => Z.odd n
            end in
  (inject_Z (if up then n + 1 else n) / 10)%Q.

Definition score_domain (data : DomainTerms) (resume_text : string) : DomainScore :=
  {| score := round1 (total_score data resume_text);
     keyword_matches := matches (keywords data) resume_text;
     tool_matches := matches (tools data) resume_text;
     framework_matches := matches (frameworks data) resume_text;
     database_matches := matches (databases data) resume_text;
     cloud_matches := matches (cloud data) resume_text;
     total_keywords := List.length (keywords data);
     total_tools := List.length (tools data);
     total_frameworks := List.length (frameworks data);
     total_databases := List.length (databases data);
     total_cloud := List.length (cloud data) |}.

Definition Qlt_bool (a b : Q) : bool := negb (Qle_bool b a).

(** [max(items, key=key)]: the first item whose key no other exceeds.
    [dflt] stands for the error Python raises on an empty sequence. *)
Definition pick {A : Type} (key : A -> Q) (best y : A) : A :=
  if Qlt_bool (key best) (key y) then y else best.

Definition py_max {A : Type} (key : A -> Q) (dflt : A) (items : list A) : A :=
  match items with
  | [] => dflt
  | x :: xs => fold_left (pick key) xs x
  end.

(** [sorted(items, key=key, reverse=True)] and [list.sort(key=key,
    reverse=True)]: descending, and stable. *)
Fixpoint insert_desc {A : Type} (key : A -> Q) (x : A) (l : list A) : list A :=
  match l with
  | [] => [x]
  | y :: l' =>
      if Qle_bool (key y) (key x) then x :: y :: l'
      else y :: insert_desc key x l'
  end.

Fixpoint sort_desc {A : Type} (key : A -> Q) (l : list A) : list A :=
  match l with
  | [] => []
  | x :: l' => insert_desc key x (sort_desc key l')
  end.

Definition detect_subdomain (resume_text primary_domain : string) : string :=
  let resume_lower := lower resume_text in
  if String.eqb primary_domain "javascript_fullstack" then
    if py_in "frontend" resume_lower && py_in "backend" resume_lower then "full_stack"
    else if py_in "frontend" resume_lower then "frontend"
    else if py_in "backend" resume_lower then "backend"
    else if py_in "mern" resume_lower || py_in "mean" resume_lower then "mern_stack"
    else "javascript_developer"
  else if String.eqb primary_domain "python_development" then
    if py_in "django" resume_lower then "django_developer"
    else if py_in "flask" resume_lower then "flask_developer"
    else if py_in "fastapi" resume_lower then "fastapi_developer"
    else "python_developer"
  else if String.eqb primary_domain "java_development" then
    if py_in "spring" resume_lower then "spring_developer"
    else if py_in "hibernate" resume_lower then "hibernate_developer"
    else "java_developer"
  else if String.eqb primary_domain "cybersecurity" then
    if py_in "penetration" resume_lower || py_in "ethical hacker" resume_lower
    then "penetration_tester"
    else if py_in "incident response" resume_lower then "incident_response"
    else if py_in "soc" resume_lower then "soc_analyst"
    else "security_analyst"
  else if String.eqb primary_domain "data_science" then
    if py_in "machine learning" resume_lower || py_in "ml" resume_lower
    then "ml_engineer"
    else if py_in "nlp" resume_lower then "nlp_engineer"
    else if py_in "computer vision" resume_lower then "computer_vision_engineer"
    else "data_scientist"
  else if String.eqb primary_domain "devops" then
    if py_in "ci/cd" resume_lower then "ci_cd_engineer"
    else if py_in "kubernetes" resume_lower then "kubernetes_engineer"
    else if py_in "terraform" resume_lower then "infrastructure_engineer"
    else "devops_engineer"
  else if String.eqb primary_domain "cloud_engineering" then
    if py_in "aws" resume_lower then "aws_engineer"
    else if py_in "azure" resume_lower then "azure_engineer"
    else if py_in "gcp" resume_lower then "gcp_engineer"
    else "cloud_engineer"
  else "general".

Definition empty_score : DomainScore :=
  {| score := 0; keyword_matches := []; tool_matches := []; framework_matches := [];
     database_matches := []; cloud_matches := []; total_keywords := 0;
     total_tools := 0; total_frameworks := 0; total_databases := 0;
     total_cloud := 0 |}.

Definition item_score (item : string * DomainScore) : Q := score (snd item).

(** The three locals of [analyze_resume_type]: the score of every domain,
    the item [max] selects, and the three best. *)
Definition domain_scores (resume_text : string) : list (string * DomainScore) :=
  map (fun kd => (fst kd, score_domain (snd kd) resume_text)) domain_keywords.

Definition primary_item (resume_text : string) : string * DomainScore :=
  py_max item_score ("", empty_score) (domain_scores resume_text).

Definition top_items (resume_text : string) : list (string * DomainScore) :=
  firstn 3 (sort_desc item_score (domain_scores resume_text)).

Definition analyze_resume_type (resume_text : string) : ResumeAnalysis :=
  {| primary_domain := fst (primary_item resume_text);
     primary_score := item_score (primary_item resume_text);
     subdomain := Some (detect_subdomain resume_text (fst (primary_item resume_text)));
     all_domains := domain_scores resume_text;
     top_domains := top_items resume_text;
     resume_text_length := String.length resume_text;
     is_strong_focus := Qlt_bool 30 (item_score (primary_item resume_text));
     has_multiple_skills :=
       (1 <? List.length (List.filter (fun d => Qlt_bool 20 (item_score d))
                                      (domain_scores resume_text)))%nat;
     is_specialized := Qlt_bool 50 (item_score (primary_item resume_text)) |}.

(** *** The query synthesizer *)

(** Outcome of code that indexes a dict: a value, or the [KeyError] raised
    for a missing key. *)
Inductive result (A : Type) : Type :=
| Ok (a : A)
| KeyError (key : string).
Arguments Ok {A} a.
Arguments KeyError {A} key.

(** [d[key]] on a dict kept as an association list. *)
Definition dict_get {V : Type} (d : list (string * V)) (key : string) : result V :=
  match List.find (fun kv => String.eqb (fst kv) key) d with
  | Some kv => Ok (snd kv)
  | None => KeyError key
  end.

(** Truthiness of a list: [if frameworks:] *)
Definition some {A : Type} (l : list A) : bool :=
  match l with [] => false | _ => true end.

Definition spaced (words : list string) : string := join " " words.

Definition generate_javascript_query (primary_data : DomainScore)
           (subdomain location : string) : string :=
  let frameworks := firstn 3 (framework_matches primary_data) in
  let tools := firstn 2 (tool_matches primary_data) in
  let databases := firstn 2 (database_matches primary_data) in
  if String.eqb subdomain "full_stack" then
    if some frameworks && some databases
    then "Full Stack Developer " ++ spaced frameworks ++ " " ++ spaced databases
         ++ " " ++ location ++ " jobs"
    else "Full Stack Developer JavaScript React Node.js " ++ location ++ " jobs"
  else if String.eqb subdomain "mern_stack" then
    "MERN Stack Developer MongoDB Express React Node.js " ++ location ++ " jobs"
  else if String.eqb subdomain "frontend" then
    if some frameworks
    then "Frontend Developer " ++ spaced frameworks ++ " " ++ location ++ " jobs"
    else "Frontend Developer JavaScript React " ++ location ++ " jobs"
  else if String.eqb subdomain "backend" then
    if some frameworks && some databases
    then "Backend Developer " ++ spaced frameworks ++ " " ++ spaced databases
         ++ " " ++ location ++ " jobs"
    else "Backend Developer Node.js Express " ++ location ++ " jobs"
  else
    if some frameworks
    then "JavaScript Developer " ++ spaced frameworks ++ " " ++ location ++ " jobs"
    else "JavaScript Developer " ++ location ++ " jobs".

Definition generate_python_query (primary_data : DomainScore)
           (subdomain location : string) : string :=
  let frameworks := firstn 2 (framework_matches primary_data) in
  if String.eqb subdomain "django_developer" then
    "Django Developer Python " ++ location ++ " jobs"
  else if String.eqb subdomain "flask_developer" then
    "Flask Developer Python " ++ location ++ " jobs"
  else if String.eqb subdomain "fastapi_developer" then
    "FastAPI Developer Python " ++ location ++ " jobs"
  else
    if some frameworks
    then "Python Developer " ++ spaced frameworks ++ " " ++ location ++ " jobs"
    else "Python Developer " ++ location ++ " jobs".

Definition generate_java_query (primary_data : DomainScore)
           (subdomain location : string) : string :=
  let frameworks := firstn 2 (framework_matches primary_data) in
  if String.eqb subdomain "spring_developer" then
    "Spring Developer Java " ++ location ++ " jobs"
  else if String.eqb subdomain "hibernate_developer" then
    "Hibernate Developer Java " ++ location ++ " jobs"
  else
    if some frameworks
    then "Java Developer " ++ spaced frameworks ++ " " ++ location ++ " jobs"
    else "Java Developer " ++ location ++ " jobs".

Definition generate_cybersecurity_query (primary_data : DomainScore)
           (subdomain location : string) : string :=
  let tools := firstn 2 (tool_matches primary_data) in
  if String.eqb subdomain "penetration_tester" then
    "Penetration Tester Ethical Hacker " ++ location ++ " jobs"
  else if String.eqb subdomain "incident_response" then
    "Incident Response Analyst " ++ location ++ " jobs"
  else if String.eqb subdomain "soc_analyst" then
    "SOC Analyst Security Operations " ++ location ++ " jobs"
  else
    if some tools
    then "Cybersecurity Engineer " ++ spaced tools ++ " " ++ location ++ " jobs"
    else "Cybersecurity Engineer " ++ location ++ " jobs".

Definition generate_data_science_query (primary_data : DomainScore)
           (subdomain location : string) : string :=
  let tools := firstn 2 (tool_matches primary_data) in
  if String.eqb subdomain "ml_engineer" then
    "Machine Learning Engineer Python " ++ location ++ " jobs"
  else if String.eqb subdomain "nlp_engineer" then
    "NLP Engineer Natural Language Processing " ++ location ++ " jobs"
  else if String.eqb subdomain "computer_vision_engineer" then
    "Computer Vision Engineer Python " ++ location ++ " jobs"
  else
    if some tools
    then "Data Scientist " ++ spaced tools ++ " " ++ location ++ " jobs"
    else "Data Scientist " ++ location ++ " jobs".

Definition generate_devops_query (primary_data : DomainScore)
           (subdomain location : string) : string :=
  let tools := firstn 2 (tool_matches primary_data) in
  if String.eqb subdomain "ci_cd_engineer" then
    "CI/CD Engineer Jenkins GitLab " ++ location ++ " jobs"
  else if String.eqb subdomain "kubernetes_engineer" then
    "Kubernetes Engineer DevOps " ++ location ++ " jobs"
  else if String.eqb subdomain "infrastructure_engineer" then
    "Infrastructure Engineer Terraform " ++ location ++ " jobs"
  else
    if some tools
    then "DevOps Engineer " ++ spaced tools ++ " " ++ location ++ " jobs"
    else "DevOps Engineer " ++ location ++ " jobs".

Definition generate_cloud_query (primary_data : DomainScore)
           (subdomain location : string) : string :=
  let cloud_platforms := firstn 2 (cloud_matches primary_data) in
  if String.eqb subdomain "aws_engineer" then
    "AWS Engineer Cloud " ++ location ++ " jobs"
  else if String.eqb subdomain "azure_engineer" then
    "Azure Engineer Cloud " ++ location ++ " jobs"
  else if String.eqb subdomain "gcp_engineer" then
    "GCP Engineer Cloud " ++ location ++ " jobs"
  else
    if some cloud_platforms
    then "Cloud Engineer " ++ spaced cloud_platforms ++ " " ++ location ++ " jobs"
    else "Cloud Engineer " ++ location ++ " jobs".

Definition generate_smart_query (resume_analysis : ResumeAnalysis)
           (location : string) : result string :=
  let primary_domain := primary_domain resume_analysis in
  let subdomain := default "" (subdomain resume_analysis) in
  match dict_get (all_domains resume_analysis) primary_domain with
  | KeyError key => KeyError key
  | Ok primary_data =>
      if String.eqb primary_domain "javascript_fullstack" then
        Ok (generate_javascript_query primary_data subdomain location)
      else if String.eqb primary_domain "python_development" then
        Ok (generate_python_query primary_data subdomain location)
      else if String.eqb primary_domain "java_development" then
        Ok (generate_java_query primary_data subdomain location)
      else if String.eqb primary_domain "cybersecurity" then
        Ok (generate_cybersecurity_query primary_data subdomain location)
      else if String.eqb primary_domain "data_science" then
        Ok (generate_data_science_query primary_data subdomain location)
      else if String.eqb primary_domain "devops" then
        Ok (generate_devops_query primary_data subdomain location)
      else if String.eqb primary_domain "cloud_engineering" then
        Ok (generate_cloud_query primary_data subdomain location)
      else Ok ("Software Developer " ++ location ++ " jobs")%string
  end.

(** *** The domain boost *)

Inductive level : Type := high | medium | low.

(** [{"high": 0.15, "medium": 0.10, "low": 0.05}[level]] *)
Definition level_boost (l : level) : Q :=
  match l with high => 0.15 | medium => 0.10 | low => 0.05 end.

(** The loop closing every calculator: each keyword of each level found
    in the posting adds the boost of its level. *)
Definition keyword_boost (table : list (level * list string)) (job_text : string)
           (boost : Q) : Q :=
  fold_left
    (fun boost '(lvl, kws) =>
       fold_left (fun boost keyword =>
                    if py_in keyword job_text then (boost + level_boost lvl)%Q
                    else boost)
                 kws boost)
    table boost.

(** [if cond: boost += amount] *)
Definition add_if (cond : bool) (amount boost : Q) : Q :=
  if cond then (boost + amount)%Q else boost.

Definition js_keywords : list (level * list string) :=
  [ (high, ["javascript"; "js"; "typescript"; "ts"; "react"; "angular"; "vue";
            "node.js"; "nodejs"]);
    (medium, ["express"; "mongodb"; "mysql"; "firebase"; "full stack"; "fullstack";
              "mern"; "mean"]);
    (low, ["npm"; "yarn"; "webpack"; "babel"; "eslint"; "jest"; "mocha";
           "tailwindcss"; "html5"; "css3"]) ].

Definition calculate_javascript_boost (job_text subdomain : string)
           (resume_analysis : ResumeAnalysis) : Q :=
  let boost := 0%Q in
  let boost :=
    if String.eqb subdomain "full_stack" then
      let boost :=
        add_if (py_in "full stack" job_text || py_in "fullstack" job_text) 0.3 boost in
      add_if (py_in "frontend" job_text && py_in "backend" job_text) 0.2 boost
    else if String.eqb subdomain "mern_stack" then
      add_if (py_in "mern" job_text
              || (py_in "mongodb" job_text && py_in "express" job_text
                  && py_in "react" job_text && py_in "node" job_text)) 0.4 boost
    else if String.eqb subdomain "frontend" then
      let boost :=
        add_if (py_in "frontend" job_text || py_in "front-end" job_text) 0.3 boost in
      add_if (py_in "react" job_text || py_in "angular" job_text
              || py_in "vue" job_text) 0.2 boost
    else if String.eqb subdomain "backend" then
      let boost :=
        add_if (py_in "backend" job_text || py_in "back-end" job_text) 0.3 boost in
      add_if (py_in "node.js" job_text || py_in "express" job_text) 0.2 boost
    else boost in
  keyword_boost js_keywords job_text boost.

Definition python_keywords : list (level * list string) :=
  [ (high, ["python"; "django"; "flask"; "fastapi"]);
    (medium, ["pyramid"; "bottle"; "cherrypy"; "api developer"; "backend developer"]);
    (low, ["pip"; "virtualenv"; "conda"; "pytest"; "unittest"]) ].

Definition calculate_python_boost (job_text subdomain : string)
           (resume_analysis : ResumeAnalysis) : Q :=
  let boost := 0%Q in
  let boost :=
    if String.eqb subdomain "django_developer" && py_in "django" job_text
    then (boost + 0.3)%Q
    else if String.eqb subdomain "flask_developer" && py_in "flask" job_text
    then (boost + 0.3)%Q
    else if String.eqb subdomain "fastapi_developer" && py_in "fastapi" job_text
    then (boost + 0.3)%Q
    else boost in
  keyword_boost python_keywords job_text boost.

Definition java_keywords : list (level * list string) :=
  [ (high, ["java"; "spring"; "spring boot"; "hibernate"]);
    (medium, ["maven"; "gradle"; "junit"; "mockito"]);
    (low, ["ant"; "intellij"; "eclipse"; "enterprise java"]) ].

Definition calculate_java_boost (job_text subdomain : string)
           (resume_analysis : ResumeAnalysis) : Q :=
  let boost := 0%Q in
  let boost :=
    if String.eqb subdomain "spring_developer" && py_in "spring" job_text
    then (boost + 0.3)%Q
    else if String.eqb subdomain "hibernate_developer" && py_in "hibernate" job_text
    then (boost + 0.3)%Q
    else boost in
  keyword_boost java_keywords job_text boost.

Definition security_keywords : list (level * list string) :=
  [ (high, ["security"; "cybersecurity"; "penetration"; "ethical hacker";
            "vulnerability"]);
    (medium, ["incident response"; "soc"; "siem"; "firewall"; "ids"; "ips"]);
    (low, ["forensics"; "compliance"; "audit"; "risk"; "wireshark"; "nmap"]) ].

Definition calculate_cybersecurity_boost (job_text subdomain : string)
           (resume_analysis : ResumeAnalysis) : Q :=
  let boost := 0%Q in
  let boost :=
    if String.eqb subdomain "penetration_tester"
       && (py_in "penetration" job_text || py_in "ethical hacker" job_text)
    then (boost + 0.3)%Q
    else if String.eqb subdomain "incident_response"
            && py_in "incident response" job_text
    then (boost + 0.3)%Q
    else if String.eqb subdomain "soc_analyst" && py_in "soc" job_text
    then (boost + 0.3)%Q
    else boost in
  keyword_boost security_keywords job_text boost.

Definition ds_keywords : list (level * list string) :=
  [ (high, ["data scientist"; "machine learning"; "ml"; "deep learning"; "ai"]);
    (medium, ["analytics"; "statistics"; "predictive modeling"; "data visualization"]);
    (low, ["python"; "r"; "sql"; "pandas"; "numpy"; "scikit-learn"]) ].

Definition calculate_data_science_boost (job_text subdomain : string)
           (resume_analysis : ResumeAnalysis) : Q :=
  let boost := 0%Q in
  let boost :=
    if String.eqb subdomain "ml_engineer"
       && (py_in "machine learning" job_text || py_in "ml" job_text)
    then (boost + 0.3)%Q
    else if String.eqb subdomain "nlp_engineer" && py_in "nlp" job_text
    then (boost + 0.3)%Q
    else if String.eqb subdomain "computer_vision_engineer"
            && py_in "computer vision" job_text
    then (boost + 0.3)%Q
    else boost in
  keyword_boost ds_keywords job_text boost.

Definition devops_keywords : list (level * list string) :=
  [ (high, ["devops"; "ci/cd"; "continuous integration"; "continuous deployment"]);
    (medium, ["docker"; "kubernetes"; "jenkins"; "gitlab"; "terraform"]);
    (low, ["monitoring"; "logging"; "prometheus"; "grafana"; "ansible"]) ].

Definition calculate_devops_boost (job_text subdomain : string)
           (resume_analysis : ResumeAnalysis) : Q :=
  let boost := 0%Q in
  let boost :=
    if String.eqb subdomain "ci_cd_engineer"
       && (py_in "ci/cd" job_text || py_in "continuous" job_text)
    then (boost + 0.3)%Q
    else if String.eqb subdomain "kubernetes_engineer" && py_in "kubernetes" job_text
    then (boost + 0.3)%Q
    else if String.eqb subdomain "infrastructure_engineer"
            && py_in "terraform" job_text
    then (boost + 0.3)%Q
    else boost in
  keyword_boost devops_keywords job_text boost.

Definition cloud_keywords : list (level * list string) :=
  [ (high, ["cloud engineer"; "cloud architect"; "aws engineer"; "azure engineer"]);
    (medium, ["ec2"; "s3"; "lambda"; "rds"; "vpc"; "iam"; "cloudformation"]);
    (low, ["serverless"; "microservices"; "kubernetes"; "docker"]) ].

Definition calculate_cloud_boost (job_text subdomain : string)
           (resume_analysis : ResumeAnalysis) : Q :=
  let boost := 0%Q in
  let boost :=
    if String.eqb subdomain "aws_engineer" && py_in "aws" job_text
    then (boost + 0.3)%Q
    else if String.eqb subdomain "azure_engineer" && py_in "azure" job_text
    then (boost + 0.3)%Q
    else if String.eqb subdomain "gcp_engineer" && py_in "gcp" job_text
    then (boost + 0.3)%Q
    else boost in
  keyword_boost cloud_keywords job_text boost.

Definition calculate_advanced_domain_boost (job_text primary_domain subdomain : string)
           (resume_analysis : ResumeAnalysis) : Q :=
  let job_lower := lower job_text in
  let boost :=
    if String.eqb primary_domain "javascript_fullstack" then
      calculate_javascript_boost job_lower subdomain resume_analysis
    else if String.eqb primary_domain "python_development" then
      calculate_python_boost job_lower subdomain resume_analysis
    else if String.eqb primary_domain "java_development" then
      calculate_java_boost job_lower subdomain resume_analysis
    else if String.eqb primary_domain "cybersecurity" then
      calculate_cybersecurity_boost job_lower subdomain resume_analysis
    else if String.eqb primary_domain "data_science" then
      calculate_data_science_boost job_lower subdomain resume_analysis
    else if String.eqb primary_domain "devops" then
      calculate_devops_boost job_lower subdomain resume_analysis
    else if String.eqb primary_domain "cloud_engineering" then
      calculate_cloud_boost job_lower subdomain resume_analysis
    else 0%Q in
  Qmin boost 0.5.

(** *** The ranker

    A posting is a dict from field names to strings or numbers.  [jobs]
    is a list of references into [store]; ranking writes five fields into
    every posting it visits and returns the same references, reordered. *)

Inductive value : Type :=
| VStr (s : string)
| VNum (x : Q).

Section Ranker.
(** The embedding model: [model.encode] and [util.cos_sim]. *)
Variable vec : Type.
Variable encode : string -> vec.
Variable cos_sim : vec -> vec -> Q.
(** [str] of a float, for a number met inside an f-string. *)
Variable float_str : Q -> string.

(** [f"{job.get(key, '')}"] *)
Definition field_text (job : gmap string value) (key : string) : string :=
  match job !! key with
  | Some (VStr s) => s
  | Some (VNum x) => float_str x
  | None => ""
  end.

Definition job_text_of (job : gmap string value) : string :=
  field_text job "title" ++ " " ++ field_text job "company_name" ++ " "
  ++ field_text job "description".

(** One turn of the loop body, on the posting itself. *)
Definition score_job (resume_emb : vec) (primary_domain subdomain : string)
           (resume_analysis : ResumeAnalysis) (job : gmap string value)
  : gmap string value :=
  let job_text := job_text_of job in
  let job_emb := encode job_text in
  let base_sim := cos_sim resume_emb job_emb in
  let domain_boost :=
    calculate_advanced_domain_boost job_text primary_domain subdomain
                                    resume_analysis in
  let final_similarity := Qmin (base_sim + domain_boost) 1.0 in
  <["subdomain" := VStr subdomain]>
    (<["primary_domain" := VStr primary_domain]>
       (<["domain_boost" := VNum domain_boost]>
          (<["base_similarity" := VNum base_sim]>
             (<["similarity" := VNum final_similarity]> job)))).

(** [x["similarity"]], the sort key.  Every ranked posting holds a
    number there; [0] stands for the error raised otherwise. *)
Definition similarity_of (store : gmap nat (gmap string value)) (ref : nat) : Q :=
  match (store !!! ref) !! "similarity" with
  | Some (VNum x) => x
  | _ => 0%Q
  end.

(** The body of [for job in jobs]: score the posting in place and
    append its reference to [ranked]. *)
Definition rank_step (resume_emb : vec) (primary_domain subdomain : string)
           (resume_analysis : ResumeAnalysis)
           (acc : gmap nat (gmap string value) * list nat) (job : nat)
  : gmap nat (gmap string value) * list nat :=
  let '(store, ranked) := acc in
  (<[job := score_job resume_emb primary_domain subdomain resume_analysis
                      (store !!! job)]> store,
   ranked ++ [job]).

Definition rank_jobs_domain_aware (resume_text : string) (jobs : list nat)
           (resume_analysis : ResumeAnalysis)
           (store : gmap nat (gmap string value))
  : gmap nat (gmap string value) * list nat :=
  let resume_emb := encode resume_text in
  let primary_domain := primary_domain resume_analysis in
  let subdomain := default "" (subdomain resume_analysis) in
  let '(store, ranked) :=
    fold_left (rank_step resume_emb primary_domain subdomain resume_analysis)
              jobs (store, []) in
  (store, sort_desc (similarity_of store) ranked).
End Ranker.

End Recommender.

(** ** Vocabulary of the properties

    The enumerations and readings that the statements below use: they
    describe what is expected of the code and are not part of it. *)

Module Props.
Import Text Parser Recommender.

(** The seven domain tags, in declaration order. *)
Definition domain_tags : list string := map fst domain_keywords.

Definition known_domain (domain : string) : bool :=
  existsb (String.eqb domain) domain_tags.

(** The specializations each domain can report. *)
Definition subdomains_of (domain : string) : list string :=
  if String.eqb domain "javascript_fullstack" then
    ["full_stack"; "frontend"; "backend"; "mern_stack"; "javascript_developer"]
  else if String.eqb domain "python_development" then
    ["django_developer"; "flask_developer"; "fastapi_developer"; "python_developer"]
  else if String.eqb domain "java_development" then
    ["spring_developer"; "hibernate_developer"; "java_developer"]
  else if String.eqb domain "cybersecurity" then
    ["penetration_tester"; "incident_response"; "soc_analyst"; "security_analyst"]
  else if String.eqb domain "data_science" then
    ["ml_engineer"; "nlp_engineer"; "computer_vision_engineer"; "data_scientist"]
  else if String.eqb domain "devops" then
    ["ci_cd_engineer"; "kubernetes_engineer"; "infrastructure_engineer";
     "devops_engineer"]
  else if String.eqb domain "cloud_engineering" then
    ["aws_engineer"; "azure_engineer"; "gcp_engineer"; "cloud_engineer"]
  else [].

(** The decision tree of the javascript_fullstack domain, read on the
    resume text itself with case-insensitive occurrence. *)
Definition javascript_tree (resume_text : string) : string :=
  if occurs_ci "frontend" resume_text && occurs_ci "backend" resume_text
  then "full_stack"
  else if occurs_ci "frontend" resume_text then "frontend"
  else if occurs_ci "backend" resume_text then "backend"
  else if occurs_ci "mern" resume_text || occurs_ci "mean" resume_text
  then "mern_stack"
  else "javascript_developer".

Definition not_newline (c : ascii) : bool := negb (Ascii.eqb c nl).

(** No line of [text] is a section header. *)
Definition no_header_line (text : string) : bool :=
  forallb (fun line => negb (bool_decide (is_Some (header_of (strip line)))))
          (split nl text).

(** The fields the ranker writes into a posting. *)
Definition score_fields : list string :=
  ["similarity"; "base_similarity"; "domain_boost"; "primary_domain"; "subdomain"].

(** [s.endswith(suffix)] *)
Definition ends_with (suffix s : string) : Prop :=
  exists front : string, s = (front ++ suffix)%string.

(** The parse of a resume in which nothing was found. *)
Definition empty_contact : ContactInfo :=
  {| contact_name := None; contact_email := None; contact_phone := None;
     contact_location := None; contact_linkedin := None; contact_github := None;
     contact_portfolio := None |}.

Definition empty_resume : ParsedResume :=
  {| contact_info := empty_contact; skills := []; experience := [];
     education := []; projects := []; certifications := []; languages := [];
     raw_text := ""; parsed_sections := ∅; summary := None |}.

(** An analysis naming a domain outside the seven, over the score map
    that the classifier builds. *)
Definition unrecognized_analysis : ResumeAnalysis :=
  let ra := analyze_resume_type "Android and iOS developer, Kotlin and Swift" in
  {| primary_domain := "mobile_development";
     primary_score := primary_score ra;
     subdomain := Some (detect_subdomain "Android and iOS developer" "mobile_development");
     all_domains := all_domains ra;
     top_domains := top_domains ra;
     resume_text_length := resume_text_length ra;
     is_strong_focus := is_strong_focus ra;
     has_multiple_skills := has_multiple_skills ra;
     is_specialized := is_specialized ra |}.

(** An analysis naming a domain outside the seven that has an entry of
    its own in the score map. *)
Definition foreign_analysis : ResumeAnalysis :=
  {| primary_domain := "mobile_development";
     primary_score := 0;
     subdomain := Some "general";
     all_domains := [("mobile_development", empty_score)];
     top_domains := [("mobile_development", empty_score)];
     resume_text_length := 25;
     is_strong_focus := false;
     has_multiple_skills := false;
     is_specialized := false |}.

(** A small ranking request: two postings, ranked for a Django resume
    under an embedding model that rates every pair [sim]. *)
Definition sample_resume : string := "Python developer, Django and Flask".

Definition sample_analysis : ResumeAnalysis := analyze_resume_type sample_resume.

Definition sample_store : gmap nat (gmap string value) :=
  {[ 0%nat := {[ "title" := VStr "Django REST API developer, 3 years Python";
                 "company_name" := VStr "Acme" ]};
     1%nat := {[ "title" := VStr "Accountant";
                 "company_name" := VStr "Ledger Ltd";
                 "description" := VStr "Bookkeeping" ]} ]}.

Definition sample_ranking (sim : Q) : gmap nat (gmap string value) * list nat :=
  rank_jobs_domain_aware unit (fun _ => tt) (fun _ _ => sim) (fun _ => "")
                         sample_resume [0%nat; 1%nat] sample_analysis sample_store.
End Props.

(** ** Further vocabulary: lines and headers of a text *)

Module Notions.
Import Text Parser.

(** [line] is taken for a section header. *)
Definition is_header (line : string) : bool :=
  bool_decide (is_Some (header_of line)).

(** The lines the segmenter looks at: stripped, blank ones left out. *)
Definition content_lines (text : string) : list string :=
  List.filter nonempty (map strip (split nl text)).

(** The nine section tags. *)
Definition section_names : list string := map fst section_patterns.
End Notions.

(** ** advanced_resume_parser.py: the summary of a parsed resume *)

Module ParserSummary.
Import Text Re Parser Recommender.

(** [int(s)] on a string of decimal digits. *)
Definition int_of (s : string) : Z :=
  fold_left (fun acc c => (acc * 10 + Z.of_nat (code c - 48))%Z) (list_ascii_of_string s) 0%Z.

(** [\d{4}] *)
Definition year_pattern : regex :=
  seqs [Class false is_digit; Class false is_digit; Class false is_digit;
        Class false is_digit].

(** The body of the loop of [_calculate_experience_years]. *)
Definition add_experience (total_years : Z) (exp : Experience) : Z :=
  if py_in "present" (lower (exp_duration exp)) then (total_years + 2)%Z
  else
    match findall false year_pattern (exp_duration exp) with
    | first :: second :: _ => (total_years + (int_of second - int_of first))%Z
    | _ => total_years
    end.

Definition _calculate_experience_years (experiences : list Experience) : Z :=
  fold_left add_experience experiences 0%Z.

(** [skill_counts[skill] = skill_counts.get(skill, 0) + 1] on a dict kept
    in insertion order. *)
Fixpoint bump (skill : string) (counts : list (string * nat)) : list (string * nat) :=
  match counts with
  | [] => [(skill, 1%nat)]
  | (s, n) :: rest =>
      if String.eqb s skill then (s, S n) :: rest else (s, n) :: bump skill rest
  end.

Definition count_key (item : string * nat) : Q := inject_Z (Z.of_nat (snd item)).

Definition _get_top_skills (skills : list (string * list string)) : list string :=
  let all_skills := concat (map snd skills) in
  let skill_counts := fold_left (fun counts skill => bump skill counts) all_skills [] in
  let sorted_skills := sort_desc count_key skill_counts in
  map fst (firstn 10 sorted_skills).

(** The dict built by [get_parsed_summary]. *)
Record ContactSummary : Type := {
  sum_name : option string;
  sum_email : option string;
  sum_phone : option string;
  sum_location : option string;
  sum_linkedin : option string;
  sum_github : option string
}.

Record ResumeSummary : Type := {
  sum_contact_info : ContactSummary;
  sum_summary : option string;
  total_experience_years : Z;
  skills_summary : list (string * nat);
  top_skills : list string;
  experience_count : nat;
  project_count : nat;
  certification_count : nat;
  education_count : nat;
  sum_languages : list string
}.

Definition get_parsed_summary (parsed_resume : ParsedResume) : ResumeSummary :=
  {| sum_contact_info :=
       {| sum_name := contact_name (contact_info parsed_resume);
          sum_email := contact_email (contact_info parsed_resume);
          sum_phone := contact_phone (contact_info parsed_resume);
          sum_location := contact_location (contact_info parsed_resume);
          sum_linkedin := contact_linkedin (contact_info parsed_resume);
          sum_github := contact_github (contact_info parsed_resume) |};
     sum_summary := summary parsed_resume;
     total_experience_years := _calculate_experience_years (experience parsed_resume);
     skills_summary :=
       map (fun kv => (fst kv, List.length (snd kv))) (skills parsed_resume);
     top_skills := _get_top_skills (skills parsed_resume);
     experience_count := List.length (experience parsed_resume);
     project_count := List.length (projects parsed_resume);
     certification_count := List.length (certifications parsed_resume);
     education_count := List.length (education parsed_resume);
     sum_languages := languages parsed_resume |}.

(** How often [c] occurs in [s]. *)
Fixpoint count_char (c : ascii) (s : string) : nat :=
  match s with
  | EmptyString => 0
  | String d s' => (if Ascii.eqb d c then 1 else 0) + count_char c s'
  end.

(** The skills a parse lists, all categories together. *)
Definition all_skills_of (skills : list (string * list string)) : list string :=
  concat (map snd skills).

(** The text [_parse_skills] searches. *)
Definition skills_search_text (skills_text full_text : string) : string :=
  (skills_text ++ " " ++ full_text)%string.

(** The two locals of [_parse_skills]: the taxonomy skills found, category
    by category, and the capitalized phrases kept as "other". *)
Definition categorized_skills (skills_text full_text : string)
  : list (string * list string) :=
  map (fun '(category, skill_list) =>
         (category,
          List.filter (fun skill =>
                         py_in (lower skill)
                               (lower (skills_search_text skills_text full_text)))
                      skill_list))
      skill_categories.

Definition other_step (known : list string) (other : list string) (skill : string)
  : list string :=
  if (2 <? String.length skill)%nat
     && negb (existsb (String.eqb (lower skill)) (map lower (known ++ other)))
  then other ++ [skill] else other.

Definition other_skills (skills_text full_text : string) : list string :=
  fold_left (other_step (concat (map snd (categorized_skills skills_text full_text))))
            (findall false additional_skill_pattern
                     (skills_search_text skills_text full_text))
            [].
End ParserSummary.

(** ** job_recommender.py: filtering, links and the CSV rows *)

Module Jobs.
Import Text Recommender.

(** [j.get("via", "").lower()]; a number has no [lower] and raises. *)
Definition via_lower (job : gmap string value) : option string :=
  match job !! "via" with
  | Some (VStr s) => Some (lower s)
  | Some (VNum _) => None
  | None => Some (lower "")
  end.

(** [[j for j in jobs if "linkedin" in j.get("via", "").lower()]];
    [None] stands for the AttributeError of a posting whose source is no
    string. *)
Fixpoint filter_linkedin (store : gmap nat (gmap string value)) (jobs : list nat)
  : option (list nat) :=
  match jobs with
  | [] => Some []
  | j :: rest =>
      match via_lower (store !!! j) with
      | None => None
      | Some source =>
          match filter_linkedin store rest with
          | None => None
          | Some kept => Some (if py_in "linkedin" source then j :: kept else kept)
          end
      end
  end.

(** Truth value of what [dict.get] returns. *)
Definition truthy (v : option value) : bool :=
  match v with
  | Some (VStr s) => nonempty s
  | Some (VNum x) => negb (Qeq_bool x 0)
  | None => false
  end.

(** [job.get("share_link") or job.get("link") or ""] *)
Definition extract_job_link (job : gmap string value) : value :=
  match job !! "share_link" with
  | Some v =>
      if truthy (Some v) then v
      else match job !! "link" with
           | Some w => if truthy (Some w) then w else VStr ""
           | None => VStr ""
           end
  | None =>
      match job !! "link" with
      | Some w => if truthy (Some w) then w else VStr ""
      | None => VStr ""
      end
  end.

(** [round(x, ndigits)]: the nearest multiple of 10^-ndigits, a tie going
    to the even one. *)
Definition py_round (ndigits : nat) (x : Q) : Q :=
  let scale := inject_Z (10 ^ Z.of_nat ndigits) in
  let t := (x * scale)%Q in
  let n := Qfloor t in
  let up := match (t - inject_Z n ?= 1 # 2)%Q with
            | Lt => false
            | Gt => true
            | Eq => Z.odd n
            end in
  (inject_Z (if up then n + 1 else n) / scale)%Q.

(** [s.replace(old, new)] for single characters. *)
Fixpoint replace_char (old new : ascii) (s : string) : string :=
  match s with
  | EmptyString => EmptyString
  | String c s' => String (if Ascii.eqb c old then new else c) (replace_char old new s')
  end.

(** [s.title()]: a letter is put in upper case when it follows a character
    that is no letter, in lower case otherwise. *)
Fixpoint title_from (after_letter : bool) (s : string) : string :=
  match s with
  | EmptyString => EmptyString
  | String c s' =>
      let letter := is_upper c || is_lower c in
      String (if letter then (if after_letter then lower_char c else upper_char c) else c)
             (title_from letter s')
  end.

Definition title (s : string) : string := title_from false s.

(** [job.get(key, "").replace("_", " ").title()]; fails on a number. *)
Definition display_name (job : gmap string value) (key : string) : option string :=
  match job !! key with
  | Some (VStr s) => Some (title (replace_char "_" " " s))
  | Some (VNum _) => None
  | None => Some (title (replace_char "_" " " ""))
  end.

(** [round(job.get(key, 0.0) * 100, 2)]; fails on a string, which [* 100]
    repeats and [round] rejects. *)
Definition percent (job : gmap string value) (key : string) : option Q :=
  match job !! key with
  | Some (VNum x) => Some (py_round 2 (x * 100))
  | Some (VStr _) => None
  | None => Some (py_round 2 (0.0 * 100))
  end.

(** [job.get(key, "")] *)
Definition field_or_empty (job : gmap string value) (key : string) : value :=
  default (VStr "") (job !! key).

(** One row of [csv_data]. *)
Record csv_row : Type := {
  col_title : value;
  col_company : value;
  col_location : value;
  col_source : value;
  col_primary_domain : string;
  col_subdomain : string;
  col_base_match : Q;
  col_domain_boost : Q;
  col_final_match : Q;
  col_apply_link : value
}.

Definition make_row (job : gmap string value) : option csv_row :=
  match display_name job "primary_domain" with
  | None => None
  | Some primary =>
      match (if truthy (job !! "subdomain") then display_name job "subdomain"
             else Some "N/A") with
      | None => None
      | Some sub =>
          match percent job "base_similarity" with
          | None => None
          | Some base =>
              match percent job "domain_boost" with
              | None => None
              | Some boost =>
                  match percent job "similarity" with
                  | None => None
                  | Some final =>
                      Some {| col_title := field_or_empty job "title";
                              col_company := field_or_empty job "company_name";
                              col_location := field_or_empty job "location";
                              col_source := field_or_empty job "via";
                              col_primary_domain := primary;
                              col_subdomain := sub;
                              col_base_match := base;
                              col_domain_boost := boost;
                              col_final_match := final;
                              col_apply_link := extract_job_link job |}
                  end
              end
          end
      end
  end.

(** The rows [save_to_csv] hands to the data frame, or [None] when
    building one of them raises. *)
Fixpoint save_to_csv (store : gmap nat (gmap string value)) (jobs : list nat)
  : option (list csv_row) :=
  match jobs with
  | [] => Some []
  | j :: rest =>
      match make_row (store !!! j) with
      | None => None
      | Some row =>
          match save_to_csv store rest with
          | None => None
          | Some rows => Some (row :: rows)
          end
      end
  end.
End Jobs.

(** ** app.py: upload checks, the fallback ranking and the top results *)

Module App.
Import Text Recommender.

Definition ALLOWED_EXTENSIONS : list string := ["pdf"; "docx"; "txt"].

(** [s.rsplit(sep, 1)[1]]: what follows the last separator; [None] stands
    for the IndexError when there is none. *)
Fixpoint after_last (sep : ascii) (s : string) : option string :=
  match s with
  | EmptyString => None
  | String c s' =>
      match after_last sep s' with
      | Some tail => Some tail
      | None => if Ascii.eqb c sep then Some s' else None
      end
  end.

Definition allowed_file (filename : string) : bool :=
  py_in "." filename
  && match after_last "." filename with
     | Some extension => existsb (String.eqb (lower extension)) ALLOWED_EXTENSIONS
     | None => false
     end.

(** The body of the fallback loop: neutral scores written in place. *)
Definition fallback_job (resume_analysis : ResumeAnalysis) (job : gmap string value)
  : gmap string value :=
  <["subdomain" := VStr (default "" (subdomain resume_analysis))]>
    (<["primary_domain" := VStr (primary_domain resume_analysis)]>
       (<["domain_boost" := VNum 0.0]>
          (<["base_similarity" := VNum 0.5]>
             (<["similarity" := VNum 0.5]> job)))).

(** [ranked_jobs = jobs] and the loop over it, taken when ranking raised. *)
Definition fallback_ranking (resume_analysis : ResumeAnalysis) (jobs : list nat)
           (store : gmap nat (gmap string value))
  : gmap nat (gmap string value) * list nat :=
  (fold_left (fun store job => <[job := fallback_job resume_analysis (store !!! job)]> store)
             jobs store,
   jobs).

(** [ranked_jobs[:DEFAULT_TOP_RESULTS]], for a count that is not negative *)
Definition top_jobs (top : nat) (ranked_jobs : list nat) : list nat :=
  firstn top ranked_jobs.
End App.

(** ** Vocabulary for the postings around the ranker *)

Module JobNotions.
Import Text Recommender Jobs App.

(** The source of the posting is a string, or is missing. *)
Definition source_ok (store : gmap nat (gmap string value)) (job : nat) : bool :=
  match via_lower (store !!! job) with
  | Some _ => true
  | None => false
  end.

(** The source of the posting names LinkedIn, in any letter case. *)
Definition from_linkedin (store : gmap nat (gmap string value)) (job : nat) : bool :=
  match via_lower (store !!! job) with
  | Some source => py_in "linkedin" source
  | None => false
  end.

(** Four postings, the second and the last one found on LinkedIn. *)
Definition sample_postings : gmap nat (gmap string value) :=
  {[ 0%nat := {[ "title" := VStr "Django developer"; "via" := VStr "Indeed" ]};
     1%nat := {[ "title" := VStr "Python engineer"; "via" := VStr "via LinkedIn";
                 "share_link" := VStr "https://example.org/1" ]};
     2%nat := {[ "title" := VStr "Accountant" ]};
     3%nat := {[ "title" := VStr "Flask developer"; "via" := VStr "LINKEDIN";
                 "link" := VStr "https://example.org/3" ]} ]}.
(** What a CSV row says about the posting it was built from. *)
Definition row_describes (analysis : ResumeAnalysis) (posting : gmap string value)
           (row : csv_row) : Prop :=
  col_title row = field_or_empty posting "title"
  /\ col_company row = field_or_empty posting "company_name"
  /\ col_location row = field_or_empty posting "location"
  /\ col_source row = field_or_empty posting "via"
  /\ col_apply_link row = extract_job_link posting
  /\ col_primary_domain row
     = title (replace_char "_" " " (primary_domain analysis))
  /\ (0 <= col_domain_boost row <= 50)%Q
  /\ (col_final_match row <= 100)%Q.
End JobNotions.

(** * Properties *)

(** ** Text *)

Module TextFacts.
Import Text.

Lemma startswith_lower (m t : string) :
  lower m = m -> startswith m (lower t) = prefix_ci m t.
Proof.
  revert t; induction m as [|a m IH]; intros t Hm; [reflexivity|].
  destruct t as [|b t]; [reflexivity|].
  simpl in Hm; injection Hm as Ha Hm'.
  simpl; rewrite Ha, (IH t Hm'); reflexivity.
Qed.

Lemma py_in_lower (m t : string) :
  lower m = m -> py_in m (lower t) = occurs_ci m t.
Proof.
  intros Hm; induction t as [|b t IH].
  - simpl. change EmptyString with (lower EmptyString) at 1.
    rewrite (startswith_lower m EmptyString Hm); reflexivity.
  - change (lower (String b t)) with (String (lower_char b) (lower t)).
    cbn [py_in occurs_ci].
    change (String (lower_char b) (lower t)) with (lower (String b t)).
    rewrite (startswith_lower m (String b t) Hm), IH; reflexivity.
Qed.

Lemma all_chars_app (p : ascii -> bool) (s t : string) :
  all_chars p (s ++ t) = all_chars p s && all_chars p t.
Proof.
  induction s as [|c s IH]; simpl; [reflexivity|].
  rewrite IH, andb_assoc; reflexivity.
Qed.

Lemma all_chars_lstrip (p : ascii -> bool) (s : string) :
  all_chars p s = true -> all_chars p (lstrip s) = true.
Proof.
  induction s as [|c s IH]; simpl; [easy|].
  intros H; apply andb_prop in H as [Hc Hs].
  destruct (is_space c); [auto|]. simpl; rewrite Hc, Hs; reflexivity.
Qed.

Lemma all_chars_rstrip (p : ascii -> bool) (s : string) :
  all_chars p s = true -> all_chars p (rstrip s) = true.
Proof.
  induction s as [|c s IH]; simpl; [easy|].
  intros H; apply andb_prop in H as [Hc Hs]. specialize (IH Hs).
  destruct (rstrip s) as [|d r].
  - destruct (is_space c); simpl; [reflexivity|rewrite Hc; reflexivity].
  - cbn [all_chars] in *. rewrite Hc, IH; reflexivity.
Qed.

Lemma all_chars_strip (p : ascii -> bool) (s : string) :
  all_chars p s = true -> all_chars p (strip s) = true.
Proof. intros H; apply all_chars_rstrip, all_chars_lstrip, H. Qed.

Lemma rstrip_idem (s : string) : rstrip (rstrip s) = rstrip s.
Proof.
  induction s as [|c s IH]; [reflexivity|].
  simpl. destruct (rstrip s) as [|d r] eqn:E.
  - destruct (is_space c) eqn:Ec; [reflexivity|]. simpl; rewrite Ec; reflexivity.
  - cbn [rstrip]. cbn [rstrip] in IH. rewrite IH. reflexivity.
Qed.

(** A stripped text neither starts nor ends with white space. *)
Lemma lstrip_head (s : string) :
  match lstrip s with
  | EmptyString => True
  | String c _ => is_space c = false
  end.
Proof.
  induction s as [|c s IH]; simpl; [exact I|].
  destruct (is_space c) eqn:E; [exact IH|exact E].
Qed.

Lemma lstrip_rstrip (s : string) :
  match s with EmptyString => True | String c _ => is_space c = false end ->
  lstrip (rstrip s) = rstrip s.
Proof.
  destruct s as [|c s]; [reflexivity|]. intros Hc.
  simpl. destruct (rstrip s); [rewrite Hc|]; simpl; rewrite Hc; reflexivity.
Qed.

Lemma strip_idem (s : string) : strip (strip s) = strip s.
Proof.
  unfold strip. rewrite (lstrip_rstrip (lstrip s) (lstrip_head s)).
  apply rstrip_idem.
Qed.

Lemma strip_nonempty_head (s : string) :
  match strip s with EmptyString => True | String c _ => is_space c = false end.
Proof.
  unfold strip. pose proof (lstrip_head s) as H.
  destruct (lstrip s) as [|c r]; [exact I|].
  simpl. destruct (rstrip r); [rewrite H|]; exact H.
Qed.

(** A text without the separator is a single piece. *)
Lemma split_single (sep : ascii) (s : string) :
  all_chars (fun c => negb (Ascii.eqb c sep)) s = true -> split sep s = [s].
Proof.
  induction s as [|c s IH]; simpl; [reflexivity|].
  intros H; apply andb_prop in H as [Hc Hs].
  destruct (Ascii.eqb c sep); [discriminate|]. rewrite (IH Hs); reflexivity.
Qed.
End TextFacts.

(** ** The matcher on the patterns of [_preprocess_text] *)

Module ReFacts.
Import Text Re TextFacts.

(** Repeating a character class under the accepting continuation always
    succeeds, and never hands back more text than it was given. *)
Lemma star_class_accept (icase neg : bool) (p : ascii -> bool) (n : nat) :
  forall prev s cs, exists rest cs',
    star_loop (run icase (Class neg p)) accept n prev s cs = Some (rest, cs')
    /\ (String.length rest <= String.length s)%nat.
Proof.
  set (step := run icase (Class neg p)).
  assert (Hstep : forall prev s cs k,
             step prev s cs k =
             match s with
             | String c s' => if class_hit icase neg p c then k (Some c) s' cs else None
             | EmptyString => None
             end) by reflexivity.
  clearbody step.
  induction n as [|n IH]; intros prev s cs.
  - exists s, cs; split; [reflexivity|lia].
  - cbn [star_loop]. rewrite Hstep. destruct s as [|c s'].
    + exists EmptyString, cs; split; [reflexivity|lia].
    + destruct (class_hit icase neg p c).
      * assert (Hlt : (String.length s' <? String.length (String c s'))%nat = true)
          by (apply Nat.ltb_lt; simpl; lia).
        rewrite Hlt. destruct (IH (Some c) s' cs) as (rest & cs' & Hrun & Hlen).
        rewrite Hrun. exists rest, cs'; split; [reflexivity|simpl; lia].
      * exists (String c s'), cs; split; [reflexivity|lia].
Qed.

(** [\s+] matches at least one character wherever white space starts. *)
Lemma space_run_matches (prev : option ascii) (c : ascii) (s' : string) :
  is_space c = true ->
  exists m n,
    match_at false (Plus (Class false is_space)) prev (String c s') = Some (m, S n).
Proof.
  intros Hc. unfold match_at, Plus.
  change (run false (Seq (Class false is_space) (Star (Class false is_space)))
              prev (String c s') [] accept)
    with (if class_hit false false is_space c
          then star_loop (run false (Class false is_space)) accept
                         (String.length s') (Some c) s' []
          else None).
  assert (Hhit : class_hit false false is_space c = true).
  { unfold class_hit. rewrite Hc. reflexivity. }
  rewrite Hhit.
  destruct (star_class_accept false false is_space (String.length s') (Some c) s' [])
    as (rest & cs' & Hrun & Hlen).
  rewrite Hrun. eexists; exists (String.length s' - String.length rest)%nat.
  f_equal. f_equal. simpl. lia.
Qed.

(** Characters that [sub] lets through are those where the pattern found
    nothing to replace. *)
Lemma sub_go_all_chars (icase : bool) (r : regex) (repl : string)
      (P : ascii -> bool) :
  all_chars P repl = true ->
  (forall prev c s', P c = false ->
     exists m n, match_at icase r prev (String c s') = Some (m, S n)) ->
  forall s skip prev, all_chars P (sub_go icase r repl skip prev s) = true.
Proof.
  intros Hrepl Hmatch. induction s as [|c s IH]; intros skip prev.
  - simpl. destruct (match_at icase r prev EmptyString); [exact Hrepl|reflexivity].
  - cbn [sub_go]. destruct skip as [|k]; [|apply IH].
    assert (Hc : forall m, match_at icase r prev (String c s) <> Some (m, S 0%nat) ->
                 (forall m' k', match_at icase r prev (String c s) <> Some (m', S k')) ->
                 P c = true).
    { intros m _ Hno. destruct (P c) eqn:E; [reflexivity|].
      destruct (Hmatch prev c s E) as (m' & k' & Hm). exfalso; exact (Hno _ _ Hm). }
    destruct (match_at icase r prev (String c s)) as [[m [|k]]|] eqn:E.
    + rewrite all_chars_app, Hrepl. cbn [all_chars andb]. rewrite IH, andb_true_r.
      apply (Hc m); congruence.
    + rewrite all_chars_app, Hrepl, IH. reflexivity.
    + cbn [all_chars]. rewrite IH, andb_true_r.
      apply (Hc {| group0 := EmptyString; groups := [] |}); congruence.
Qed.

(** [sub] adds nothing but the replacement. *)
Lemma sub_go_keeps (icase : bool) (r : regex) (repl : string) (P : ascii -> bool) :
  all_chars P repl = true ->
  forall s skip prev,
    all_chars P s = true -> all_chars P (sub_go icase r repl skip prev s) = true.
Proof.
  intros Hrepl. induction s as [|c s IH]; intros skip prev Hs.
  - simpl. destruct (match_at icase r prev EmptyString); [exact Hrepl|reflexivity].
  - cbn [all_chars] in Hs. apply andb_prop in Hs as [Hc Hs].
    cbn [sub_go]. destruct skip as [|k]; [|apply IH, Hs].
    destruct (match_at icase r prev (String c s)) as [[m [|k]]|].
    + rewrite all_chars_app, Hrepl. cbn [all_chars andb]. rewrite Hc, IH; auto.
    + rewrite all_chars_app, Hrepl, IH; auto.
    + cbn [all_chars]. rewrite Hc, IH; auto.
Qed.
End ReFacts.

(** ** The section segmenter *)

Module SegmenterFacts.
Import Text Re Parser Props TextFacts ReFacts.

(** Normalized text is a single line ... *)
Lemma preprocess_single_line (text : string) :
  all_chars not_newline (_preprocess_text text) = true.
Proof.
  unfold _preprocess_text. apply all_chars_strip.
  apply sub_go_keeps; [reflexivity|].
  apply sub_go_all_chars; [reflexivity|].
  intros prev c s' Hc. apply space_run_matches.
  unfold not_newline in Hc. apply negb_false_iff, Ascii.eqb_eq in Hc.
  subst c; reflexivity.
Qed.

(** ... without white space at either end. *)
Lemma preprocess_stripped (text : string) :
  strip (_preprocess_text text) = _preprocess_text text.
Proof. unfold _preprocess_text. apply strip_idem. Qed.

(** The segmenter on one clean line that is no header. *)
Lemma extract_single_line (t : string) :
  all_chars not_newline t = true ->
  strip t = t ->
  t <> EmptyString ->
  header_of t = None ->
  _extract_sections t = {["general" := t]}.
Proof.
  intros Hnl Hstrip Hne Hhdr.
  unfold _extract_sections. rewrite (split_single nl t Hnl).
  cbn [fold_left]. unfold seg_step. rewrite Hstrip.
  destruct t as [|c t']; [congruence|].
  cbn [nonempty negb]. rewrite Hhdr. cbn.
  apply insert_empty.
Qed.

(** C9 (as amended): for every input text whose normalized form is not
    empty and has no line matching one of the nine section header
    patterns, the segmenter yields exactly one section, tagged "general",
    whose content is the full normalized input. *)
Theorem headerless_text_is_one_general_section (text : string) :
  _preprocess_text text <> EmptyString ->
  no_header_line (_preprocess_text text) = true ->
  _extract_sections (_preprocess_text text)
  = {["general" := _preprocess_text text]}.
Proof.
  intros Hne Hhdr.
  pose proof (preprocess_single_line text) as Hnl.
  pose proof (preprocess_stripped text) as Hstrip.
  apply extract_single_line; try assumption.
  unfold no_header_line in Hhdr.
  rewrite (split_single nl _ Hnl) in Hhdr. cbn [forallb] in Hhdr.
  rewrite Hstrip, andb_true_r in Hhdr. apply negb_true_iff in Hhdr.
  destruct (header_of (_preprocess_text text)) as [name|]; [|reflexivity].
  exfalso. rewrite bool_decide_eq_false in Hhdr. apply Hhdr. eauto.
Qed.

Lemma headerless_text_witness :
  _preprocess_text "  John   Doe, engineer  " <> EmptyString
  /\ no_header_line (_preprocess_text "  John   Doe, engineer  ") = true
  /\ _extract_sections (_preprocess_text "  John   Doe, engineer  ")
     = {["general" := _preprocess_text "  John   Doe, engineer  "]}.
Proof.
  assert (Hne : _preprocess_text "  John   Doe, engineer  " <> EmptyString)
    by (vm_compute; discriminate).
  assert (Hhdr : no_header_line (_preprocess_text "  John   Doe, engineer  ") = true)
    by (vm_compute; reflexivity).
  exact (conj Hne (conj Hhdr
           (headerless_text_is_one_general_section _ Hne Hhdr))).
Defined.

(** C9 as stated fails on the empty text: no line is a header, yet the
    segmenter yields no section at all. *)
Lemma empty_text_has_no_section :
  no_header_line (_preprocess_text "") = true
  /\ _extract_sections (_preprocess_text "") = ∅
  /\ _extract_sections (_preprocess_text "") <> {["general" := _preprocess_text ""]}.
Proof.
  split; [vm_compute; reflexivity|].
  split; [vm_compute; reflexivity|].
  intros H. apply (f_equal (fun m => m !! "general")) in H.
  vm_compute in H. discriminate H.
Qed.
End SegmenterFacts.

(** ** The domain classifier *)

Module ClassifierFacts.
Import Text Recommender Props TextFacts.
Local Open Scope Q_scope.

Lemma matches_length (terms : list string) (resume_text : string) :
  (List.length (matches terms resume_text) <= List.length terms)%nat.
Proof.
  unfold matches. induction terms as [|t terms IH]; simpl; [lia|].
  destruct (py_in (lower t) (lower resume_text)); simpl; lia.
Qed.

(** A bucket contributes between nothing and its whole weight. *)
Lemma bucket_score_bounds (found terms : list string) (weight : Q) :
  (List.length found <= List.length terms)%nat -> 0 <= weight ->
  0 <= bucket_score found terms weight <= weight.
Proof.
  intros Hlen Hw. unfold bucket_score.
  set (m := Z.of_nat (List.length found)).
  set (n := Z.of_nat (List.length terms)).
  assert (Hm : (0 <= m <= n)%Z) by (subst m n; lia).
  assert (Hratio : 0 <= inject_Z m / inject_Z n <= 1).
  { destruct (Z.eq_dec n 0%Z) as [Hn|Hn].
    - assert (m = 0%Z) by lia. rewrite Hn, H. split; [apply Qle_refl|discriminate].
    - assert (Hpos : 0 < inject_Z n).
      { change 0 with (inject_Z 0). rewrite <- Zlt_Qlt. lia. }
      split.
      + apply Qle_shift_div_l; [exact Hpos|]. rewrite Qmult_0_l.
        change 0 with (inject_Z 0). rewrite <- Zle_Qle. lia.
      + apply Qle_shift_div_r; [exact Hpos|]. rewrite Qmult_1_l.
        rewrite <- Zle_Qle. lia. }
  destruct Hratio as [H0 H1]. split.
  - apply Qmult_le_0_compat; assumption.
  - rewrite <- (Qmult_1_l weight) at 2. apply Qmult_le_compat_r; assumption.
Qed.

Lemma total_score_bounds (data : DomainTerms) (resume_text : string) :
  0 <= total_score data resume_text <= 100.
Proof.
  unfold total_score.
  pose proof (bucket_score_bounds _ _ 40 (matches_length (keywords data) resume_text)).
  pose proof (bucket_score_bounds _ _ 25 (matches_length (tools data) resume_text)).
  pose proof (bucket_score_bounds _ _ 20 (matches_length (frameworks data) resume_text)).
  pose proof (bucket_score_bounds _ _ 10 (matches_length (databases data) resume_text)).
  pose proof (bucket_score_bounds _ _ 5 (matches_length (cloud data) resume_text)).
  assert (0 <= 40) by discriminate. assert (0 <= 25) by discriminate.
  assert (0 <= 20) by discriminate. assert (0 <= 10) by discriminate.
  assert (0 <= 5) by discriminate.
  split; lra.
Qed.

(** Rounding to one decimal stays within [0, 100]. *)
Lemma round1_bounds (x : Q) : 0 <= x <= 100 -> 0 <= round1 x <= 100.
Proof.
  intros [Hx0 Hx1]. unfold round1.
  set (t := x * 10). set (n := Qfloor t).
  assert (Ht : 0 <= t <= 1000) by (subst t; split; lra).
  assert (Hn0 : (0 <= n)%Z).
  { change 0%Z with (Qfloor 0). apply Qfloor_resp_le, Ht. }
  assert (Hfl : inject_Z n <= t) by apply Qfloor_le.
  assert (Hn1 : (n <= 1000)%Z).
  { rewrite Zle_Qle. apply Qle_trans with t; [exact Hfl|apply Ht]. }
  assert (Hup : 0 < t - inject_Z n -> (n + 1 <= 1000)%Z).
  { intros Hfrac. assert (Hlt : inject_Z n < inject_Z 1000).
    { change (inject_Z 1000) with 1000. lra. }
    rewrite <- Zlt_Qlt in Hlt. lia. }
  assert (Hz : forall z : Z, (0 <= z <= 1000)%Z -> 0 <= inject_Z z / 10 <= 100).
  { intros z [Hz0 Hz1]. rewrite Zle_Qle in Hz0, Hz1.
    change (inject_Z 0) with 0 in Hz0. change (inject_Z 1000) with 1000 in Hz1.
    split.
    - apply Qle_shift_div_l; [reflexivity|]. lra.
    - apply Qle_shift_div_r; [reflexivity|]. lra. }
  apply Hz.
  destruct (Qcompare_spec (t - inject_Z n) (1 # 2)) as [Heq|Hlt|Hgt].
  - destruct (Z.odd n); [|lia]. split; [lia|]. apply Hup. rewrite Heq. reflexivity.
  - lia.
  - split; [lia|]. apply Hup. apply Qlt_trans with (1 # 2); [reflexivity|exact Hgt].
Qed.

Lemma Qlt_bool_true (a b : Q) : Qlt_bool a b = true -> a < b.
Proof.
  unfold Qlt_bool. intros H. apply negb_true_iff in H.
  apply Qnot_le_lt. intros Hle. apply Qle_bool_iff in Hle. congruence.
Qed.

Lemma Qlt_bool_false (a b : Q) : Qlt_bool a b = false -> b <= a.
Proof.
  unfold Qlt_bool. intros H. apply negb_false_iff in H.
  apply Qle_bool_iff, H.
Qed.

Section Maximum.
Context {A : Type} (key : A -> Q).

Lemma pick_upper (x y : A) : key x <= key (pick key x y) /\ key y <= key (pick key x y).
Proof.
  unfold pick. destruct (Qlt_bool (key x) (key y)) eqn:E.
  - apply Qlt_bool_true in E. split; [apply Qlt_le_weak, E|apply Qle_refl].
  - apply Qlt_bool_false in E. split; [apply Qle_refl|exact E].
Qed.

(** The running maximum dominates its start and everything scanned. *)
Lemma fold_pick_upper (xs : list A) :
  forall x, key x <= key (fold_left (pick key) xs x)
            /\ Forall (fun y => key y <= key (fold_left (pick key) xs x)) xs.
Proof.
  induction xs as [|y xs IH]; intros x; simpl.
  - split; [apply Qle_refl|constructor].
  - destruct (IH (pick key x y)) as [Hp Hall].
    destruct (pick_upper x y) as [Hx Hy].
    split; [eapply Qle_trans; eassumption|].
    constructor; [eapply Qle_trans; eassumption|exact Hall].
Qed.

Lemma pick_cases (x y : A) :
  (pick key x y = y /\ key x < key y) \/ (pick key x y = x /\ key y <= key x).
Proof.
  unfold pick. destruct (Qlt_bool (key x) (key y)) eqn:E.
  - left. split; [reflexivity|apply Qlt_bool_true, E].
  - right. split; [reflexivity|apply Qlt_bool_false, E].
Qed.

(** It is the first of the items reaching the maximum. *)
Lemma fold_pick_first (xs : list A) :
  forall x, exists before after,
    x :: xs = before ++ fold_left (pick key) xs x :: after
    /\ Forall (fun y => key y < key (fold_left (pick key) xs x)) before.
Proof.
  induction xs as [|y xs IH]; intros x; simpl.
  - exists [], []. split; [reflexivity|constructor].
  - destruct (IH (pick key x y)) as (before & after & Heq & Hlt).
    destruct (fold_pick_upper xs (pick key x y)) as [Hp _].
    destruct (pick_cases x y) as [[Hpk E]|[Hpk E]]; rewrite Hpk in *.
    + exists (x :: before), after. split; [simpl; rewrite Heq; reflexivity|].
      constructor; [eapply Qlt_le_trans; eassumption|exact Hlt].
    + destruct before as [|b before].
      * simpl in Heq. injection Heq as Hb Hafter.
        exists [], (y :: xs). split; [simpl; rewrite <- Hb; reflexivity|constructor].
      * simpl in Heq. injection Heq as Hb Hxs. subst b.
        exists (x :: y :: before), after.
        split; [simpl; rewrite <- Hxs; reflexivity|].
        inversion Hlt as [|? ? Hx Hrest]; subst.
        constructor; [exact Hx|].
        constructor; [eapply Qle_lt_trans; eassumption|exact Hrest].
Qed.

Lemma py_max_upper (dflt : A) (items : list A) :
  Forall (fun y => key y <= key (py_max key dflt items)) items.
Proof.
  destruct items as [|x xs]; [constructor|].
  destruct (fold_pick_upper xs x) as [Hx Hall].
  constructor; assumption.
Qed.

Lemma py_max_first (dflt x : A) (xs : list A) :
  exists before after,
    x :: xs = before ++ py_max key dflt (x :: xs) :: after
    /\ Forall (fun y => key y < key (py_max key dflt (x :: xs))) before.
Proof. apply fold_pick_first. Qed.
End Maximum.

Lemma all_domains_unfold (resume_text : string) :
  all_domains (analyze_resume_type resume_text) = domain_scores resume_text.
Proof. reflexivity. Qed.

Lemma primary_domain_unfold (resume_text : string) :
  primary_domain (analyze_resume_type resume_text) = fst (primary_item resume_text).
Proof. reflexivity. Qed.

Lemma primary_score_unfold (resume_text : string) :
  primary_score (analyze_resume_type resume_text)
  = item_score (primary_item resume_text).
Proof. reflexivity. Qed.

Lemma subdomain_unfold (resume_text : string) :
  subdomain (analyze_resume_type resume_text)
  = Some (detect_subdomain resume_text (fst (primary_item resume_text))).
Proof. reflexivity. Qed.

Lemma Forall2_map_self {A B : Type} (R : A -> B -> Prop) (f : A -> B) (l : list A) :
  (forall x, R x (f x)) -> Forall2 R l (map f l).
Proof. intros H; induction l; simpl; constructor; auto. Qed.

(** The primary entry is one of the seven, the first among those with the
    highest score. *)
Lemma primary_first_maximum (resume_text : string) :
  exists before entry after,
    all_domains (analyze_resume_type resume_text)
    = before ++ (primary_domain (analyze_resume_type resume_text), entry) :: after
    /\ score entry = primary_score (analyze_resume_type resume_text)
    /\ Forall (fun d => score (snd d) < score entry) before.
Proof.
  rewrite all_domains_unfold, primary_domain_unfold, primary_score_unfold.
  unfold primary_item.
  assert (Hshape : exists x xs, domain_scores resume_text = x :: xs)
    by (eexists; eexists; reflexivity).
  destruct Hshape as (x & xs & Hshape). rewrite Hshape.
  destruct (py_max_first item_score ("", empty_score) x xs)
    as (before & after & Heq & Hlt).
  exists before, (snd (py_max item_score ("", empty_score) (x :: xs))), after.
  split; [|split].
  - rewrite Heq at 1. rewrite <- surjective_pairing. reflexivity.
  - reflexivity.
  - exact Hlt.
Qed.

(** C4: for every resume text, each of the seven domain scores is the sum
    over the five buckets of matched-term-count / bucket-size times the
    weight 40/25/20/10/5 (rounded to one decimal), lies in [0, 100], and the
    primary domain's score is greater than or equal to every domain's. *)
Theorem domain_scores_bounded_primary_maximal (resume_text : string) :
  Forall2 (fun kd d =>
             fst d = fst kd
             /\ score (snd d) = round1 (total_score (snd kd) resume_text)
             /\ 0 <= total_score (snd kd) resume_text <= 100)
          domain_keywords (all_domains (analyze_resume_type resume_text))
  /\ List.length (all_domains (analyze_resume_type resume_text)) = 7%nat
  /\ Forall (fun d => 0 <= score (snd d) <= 100)
            (all_domains (analyze_resume_type resume_text))
  /\ (exists entry,
        In (primary_domain (analyze_resume_type resume_text), entry)
           (all_domains (analyze_resume_type resume_text))
        /\ score entry = primary_score (analyze_resume_type resume_text))
  /\ Forall (fun d => score (snd d) <= primary_score (analyze_resume_type resume_text))
            (all_domains (analyze_resume_type resume_text)).
Proof.
  split; [|split; [|split; [|split]]].
  - rewrite all_domains_unfold. apply Forall2_map_self.
    intros kd. split; [reflexivity|]. split; [reflexivity|].
    apply total_score_bounds.
  - rewrite all_domains_unfold. unfold domain_scores. rewrite length_map. reflexivity.
  - rewrite all_domains_unfold. apply Forall_map, Forall_forall.
    intros kd _. apply round1_bounds, total_score_bounds.
  - destruct (primary_first_maximum resume_text) as (before & entry & after & Heq & Hs & _).
    exists entry. split; [|exact Hs].
    rewrite Heq. apply in_or_app. right. left. reflexivity.
  - rewrite primary_score_unfold, all_domains_unfold.
    apply (py_max_upper item_score).
Qed.

Lemma known_domain_unfold (domain : string) :
  known_domain domain
  = (String.eqb domain "javascript_fullstack"
     || (String.eqb domain "python_development"
     || (String.eqb domain "java_development"
     || (String.eqb domain "cybersecurity"
     || (String.eqb domain "data_science"
     || (String.eqb domain "devops"
     || (String.eqb domain "cloud_engineering" || false))))))).
Proof. reflexivity. Qed.

(** An item picked by [max] is one of the items. *)
Lemma primary_domain_known (resume_text : string) :
  known_domain (primary_domain (analyze_resume_type resume_text)) = true.
Proof.
  destruct (primary_first_maximum resume_text)
    as (before & entry & after & Heq & _ & _).
  rewrite all_domains_unfold in Heq.
  assert (Hin : In (primary_domain (analyze_resume_type resume_text))
                   (map fst (domain_scores resume_text))).
  { rewrite Heq, map_app. apply in_or_app. right. left. reflexivity. }
  unfold domain_scores in Hin. rewrite map_map in Hin. cbn [fst] in Hin.
  unfold known_domain, domain_tags. apply existsb_exists.
  exists (primary_domain (analyze_resume_type resume_text)).
  split; [exact Hin|apply String.eqb_refl].
Qed.

Ltac split_conditions :=
  repeat match goal with
         | |- context [py_in ?m ?t] => destruct (py_in m t)
         end.

Ltac pick_member :=
  cbn [In andb orb]; repeat (first [left; reflexivity | right]).

(** What [detect_subdomain] answers, domain by domain. *)
Lemma detect_subdomain_member (resume_text domain : string) :
  (known_domain domain = true
   /\ In (detect_subdomain resume_text domain) (subdomains_of domain)
   /\ String.eqb (detect_subdomain resume_text domain) "general" = false)
  \/ (known_domain domain = false
      /\ detect_subdomain resume_text domain = "general").
Proof.
  rewrite known_domain_unfold. unfold detect_subdomain, subdomains_of.
  destruct (String.eqb domain "javascript_fullstack");
    [left; split; [reflexivity|]; split_conditions; (split; [pick_member|reflexivity])|].
  destruct (String.eqb domain "python_development");
    [left; split; [reflexivity|]; split_conditions; (split; [pick_member|reflexivity])|].
  destruct (String.eqb domain "java_development");
    [left; split; [reflexivity|]; split_conditions; (split; [pick_member|reflexivity])|].
  destruct (String.eqb domain "cybersecurity");
    [left; split; [reflexivity|]; split_conditions; (split; [pick_member|reflexivity])|].
  destruct (String.eqb domain "data_science");
    [left; split; [reflexivity|]; split_conditions; (split; [pick_member|reflexivity])|].
  destruct (String.eqb domain "devops");
    [left; split; [reflexivity|]; split_conditions; (split; [pick_member|reflexivity])|].
  destruct (String.eqb domain "cloud_engineering");
    [left; split; [reflexivity|]; split_conditions; (split; [pick_member|reflexivity])|].
  right. split; reflexivity.
Qed.

(** C5: for every resume text, the subdomain reported by the classification
    belongs to the enumerated subdomains of the chosen primary domain; the
    detector answers "general" exactly for a domain outside the seven,
    which the classifier never chooses. *)
Theorem subdomain_belongs_to_primary_domain (resume_text domain : string) :
  (exists sub,
     subdomain (analyze_resume_type resume_text) = Some sub
     /\ known_domain (primary_domain (analyze_resume_type resume_text)) = true
     /\ In sub (subdomains_of (primary_domain (analyze_resume_type resume_text)))
     /\ String.eqb sub "general" = false)
  /\ (In (detect_subdomain resume_text domain) (subdomains_of domain)
      \/ detect_subdomain resume_text domain = "general")
  /\ String.eqb (detect_subdomain resume_text domain) "general"
     = negb (known_domain domain).
Proof.
  split; [|split].
  - exists (detect_subdomain resume_text (fst (primary_item resume_text))).
    split; [apply subdomain_unfold|].
    pose proof (primary_domain_known resume_text) as Hk.
    rewrite primary_domain_unfold in *. split; [exact Hk|].
    destruct (detect_subdomain_member resume_text (fst (primary_item resume_text)))
      as [(_ & Hin & Hne)|(Hk' & _)]; [split; assumption|congruence].
  - destruct (detect_subdomain_member resume_text domain)
      as [(_ & Hin & _)|(_ & Hg)]; [left|right]; assumption.
  - destruct (detect_subdomain_member resume_text domain)
      as [(Hk & _ & Hne)|(Hk & Hg)]; rewrite Hk; [exact Hne|].
    rewrite Hg. reflexivity.
Qed.

(** C6: for every resume text whose primary domain is javascript_fullstack
    the subdomain follows the ordered tree: "frontend" and "backend" both
    occurring (case-insensitively) give full_stack; else "frontend" gives
    frontend; else "backend" gives backend; else "mern" or "mean" gives
    mern_stack; else javascript_developer. *)
Theorem javascript_subdomain_tree (resume_text : string) :
  primary_domain (analyze_resume_type resume_text) = "javascript_fullstack" ->
  subdomain (analyze_resume_type resume_text) = Some (javascript_tree resume_text).
Proof.
  intros Hp. rewrite subdomain_unfold. rewrite primary_domain_unfold in Hp.
  rewrite Hp. f_equal.
  unfold detect_subdomain, javascript_tree.
  rewrite !py_in_lower by reflexivity. reflexivity.
Qed.

Lemma javascript_subdomain_tree_witness :
  primary_domain
    (analyze_resume_type "Built the FrontEnd in React and the BACKEND in Node.js")
  = "javascript_fullstack"
  /\ subdomain
       (analyze_resume_type "Built the FrontEnd in React and the BACKEND in Node.js")
     = Some "full_stack".
Proof.
  assert (Hp : primary_domain
                 (analyze_resume_type
                    "Built the FrontEnd in React and the BACKEND in Node.js")
               = "javascript_fullstack") by (vm_compute; reflexivity).
  exact (conj Hp (javascript_subdomain_tree _ Hp)).
Defined.
End ClassifierFacts.

(** ** Stable descending sort *)

Module SortFacts.
Import Recommender ClassifierFacts.
Local Open Scope Q_scope.

Section Sort.
Context {A : Type} (key : A -> Q).

Lemma insert_desc_perm (x : A) (l : list A) :
  Permutation (insert_desc key x l) (x :: l).
Proof.
  induction l as [|y l IH]; simpl; [reflexivity|].
  destruct (Qle_bool (key y) (key x)); [reflexivity|].
  rewrite IH. apply perm_swap.
Qed.

Lemma sort_desc_perm (l : list A) : Permutation (sort_desc key l) l.
Proof.
  induction l as [|x l IH]; simpl; [reflexivity|].
  rewrite insert_desc_perm, IH. reflexivity.
Qed.

Lemma insert_desc_sorted (x : A) (l : list A) :
  StronglySorted (fun a b => key b <= key a) l ->
  StronglySorted (fun a b => key b <= key a) (insert_desc key x l).
Proof.
  induction l as [|y l IH]; intros Hs; simpl.
  - constructor; constructor.
  - inversion Hs as [|? ? Hl Hy]; subst.
    destruct (Qle_bool (key y) (key x)) eqn:E.
    + apply Qle_bool_iff in E. constructor; [exact Hs|].
      constructor; [exact E|].
      eapply Forall_impl; [exact Hy|]. intros z Hz. simpl in Hz.
      eapply Qle_trans; eassumption.
    + constructor; [apply IH, Hl|].
      eapply Permutation_Forall; [symmetry; apply insert_desc_perm|].
      constructor; [|exact Hy].
      apply Qlt_le_weak, Qnot_le_lt. intros Hle.
      apply Qle_bool_iff in Hle. congruence.
Qed.

Lemma sort_desc_sorted (l : list A) :
  StronglySorted (fun a b => key b <= key a) (sort_desc key l).
Proof.
  induction l as [|x l IH]; simpl; [constructor|].
  apply insert_desc_sorted, IH.
Qed.

(** Among items of one key, insertion keeps the new item in front. *)
Lemma insert_desc_stable (q : Q) (x : A) (l : list A) :
  List.filter (fun a => Qeq_bool (key a) q) (insert_desc key x l)
  = List.filter (fun a => Qeq_bool (key a) q) (x :: l).
Proof.
  induction l as [|y l IH]; [reflexivity|].
  cbn [insert_desc]. destruct (Qle_bool (key y) (key x)) eqn:E; [reflexivity|].
  cbn [List.filter] in *. rewrite IH.
  destruct (Qeq_bool (key x) q) eqn:Ex; destruct (Qeq_bool (key y) q) eqn:Ey;
    try reflexivity.
  exfalso. apply Qeq_bool_iff in Ex, Ey.
  assert (Hle : key y <= key x) by (rewrite Ex, Ey; apply Qle_refl).
  apply Qle_bool_iff in Hle. congruence.
Qed.

Lemma sort_desc_stable (q : Q) (l : list A) :
  List.filter (fun a => Qeq_bool (key a) q) (sort_desc key l)
  = List.filter (fun a => Qeq_bool (key a) q) l.
Proof.
  induction l as [|x l IH]; [reflexivity|].
  cbn [sort_desc]. rewrite insert_desc_stable. cbn [List.filter]. rewrite IH.
  reflexivity.
Qed.
End Sort.
End SortFacts.

(** ** The domain boost and the ranker *)

Module RankerFacts.
Import Text Recommender Props ClassifierFacts SortFacts.
Local Open Scope Q_scope.

Lemma level_boost_nonneg (lvl : level) : 0 <= level_boost lvl.
Proof. destruct lvl; discriminate. Qed.

Lemma keyword_boost_nonneg (table : list (level * list string)) (job_text : string) :
  forall boost, 0 <= boost -> 0 <= keyword_boost table job_text boost.
Proof.
  unfold keyword_boost.
  induction table as [|[lvl kws] table IH]; intros boost Hb; simpl; [exact Hb|].
  apply IH. clear IH. revert boost Hb.
  induction kws as [|kw kws IHk]; intros boost Hb; simpl; [exact Hb|].
  apply IHk. destruct (py_in kw job_text); [|exact Hb].
  pose proof (level_boost_nonneg lvl). lra.
Qed.

Lemma add_if_nonneg (cond : bool) (amount boost : Q) :
  0 <= amount -> 0 <= boost -> 0 <= add_if cond amount boost.
Proof. intros Ha Hb. unfold add_if. destruct cond; lra. Qed.

Ltac boost_nonneg :=
  apply keyword_boost_nonneg;
  repeat match goal with
         | |- context [if ?c then _ else _] => destruct c
         end;
  repeat apply add_if_nonneg; lra.

Lemma calculate_javascript_boost_nonneg job_text subdomain ra :
  0 <= calculate_javascript_boost job_text subdomain ra.
Proof. unfold calculate_javascript_boost. boost_nonneg. Qed.

Lemma calculate_python_boost_nonneg job_text subdomain ra :
  0 <= calculate_python_boost job_text subdomain ra.
Proof. unfold calculate_python_boost. boost_nonneg. Qed.

Lemma calculate_java_boost_nonneg job_text subdomain ra :
  0 <= calculate_java_boost job_text subdomain ra.
Proof. unfold calculate_java_boost. boost_nonneg. Qed.

Lemma calculate_cybersecurity_boost_nonneg job_text subdomain ra :
  0 <= calculate_cybersecurity_boost job_text subdomain ra.
Proof. unfold calculate_cybersecurity_boost. boost_nonneg. Qed.

Lemma calculate_data_science_boost_nonneg job_text subdomain ra :
  0 <= calculate_data_science_boost job_text subdomain ra.
Proof. unfold calculate_data_science_boost. boost_nonneg. Qed.

Lemma calculate_devops_boost_nonneg job_text subdomain ra :
  0 <= calculate_devops_boost job_text subdomain ra.
Proof. unfold calculate_devops_boost. boost_nonneg. Qed.

Lemma calculate_cloud_boost_nonneg job_text subdomain ra :
  0 <= calculate_cloud_boost job_text subdomain ra.
Proof. unfold calculate_cloud_boost. boost_nonneg. Qed.

(** The capped boost lies in [0, 0.5], whatever the domain and the posting. *)
Lemma domain_boost_bounds (job_text primary_domain subdomain : string)
      (ra : ResumeAnalysis) :
  0 <= calculate_advanced_domain_boost job_text primary_domain subdomain ra <= 0.5.
Proof.
  unfold calculate_advanced_domain_boost. split; [|apply Q.le_min_r].
  apply Q.min_glb; [|discriminate].
  repeat match goal with
         | |- context [if String.eqb ?a ?b then _ else _] => destruct (String.eqb a b)
         end;
    first [ apply calculate_javascript_boost_nonneg
          | apply calculate_python_boost_nonneg
          | apply calculate_java_boost_nonneg
          | apply calculate_cybersecurity_boost_nonneg
          | apply calculate_data_science_boost_nonneg
          | apply calculate_devops_boost_nonneg
          | apply calculate_cloud_boost_nonneg
          | apply Qle_refl ].
Qed.

Section Scoring.
Context (vec : Type) (encode : string -> vec) (cos_sim : vec -> vec -> Q)
        (float_str : Q -> string).
Context (resume_emb : vec) (primary_domain subdomain : string) (ra : ResumeAnalysis).

Lemma score_job_unfold (job : gmap string value) :
  score_job vec encode cos_sim float_str resume_emb primary_domain subdomain ra job
  = <["subdomain" := VStr subdomain]>
      (<["primary_domain" := VStr primary_domain]>
         (<["domain_boost" :=
              VNum (calculate_advanced_domain_boost (job_text_of float_str job)
                      primary_domain subdomain ra)]>
            (<["base_similarity" :=
                 VNum (cos_sim resume_emb (encode (job_text_of float_str job)))]>
               (<["similarity" :=
                    VNum (Qmin (cos_sim resume_emb (encode (job_text_of float_str job))
                                + calculate_advanced_domain_boost
                                    (job_text_of float_str job)
                                    primary_domain subdomain ra) 1.0)]> job)))).
Proof. reflexivity. Qed.

(** The five fields a scored posting carries. *)
Lemma score_job_fields (job : gmap string value) :
  let scored :=
    score_job vec encode cos_sim float_str resume_emb primary_domain subdomain ra job in
  let base := cos_sim resume_emb (encode (job_text_of float_str job)) in
  let boost :=
    calculate_advanced_domain_boost (job_text_of float_str job)
                                    primary_domain subdomain ra in
  scored !! "similarity" = Some (VNum (Qmin (base + boost) 1.0))
  /\ scored !! "base_similarity" = Some (VNum base)
  /\ scored !! "domain_boost" = Some (VNum boost)
  /\ scored !! "primary_domain" = Some (VStr primary_domain)
  /\ scored !! "subdomain" = Some (VStr subdomain).
Proof.
  cbv zeta. rewrite score_job_unfold.
  repeat split;
    rewrite ?lookup_insert_ne by discriminate; apply lookup_insert_eq.
Qed.

(** Every other field is left as it was. *)
Lemma score_job_frame (job : gmap string value) (key : string) :
  ~ In key score_fields ->
  score_job vec encode cos_sim float_str resume_emb primary_domain subdomain ra job
    !! key = job !! key.
Proof.
  intros Hkey. rewrite score_job_unfold.
  rewrite !lookup_insert_ne; [reflexivity|..];
    intros <-; apply Hkey; unfold score_fields; cbn [In];
    repeat (first [left; reflexivity | right]).
Qed.

Lemma job_text_of_score_job (job : gmap string value) :
  job_text_of float_str
    (score_job vec encode cos_sim float_str resume_emb primary_domain subdomain ra job)
  = job_text_of float_str job.
Proof.
  unfold job_text_of, field_text.
  rewrite !score_job_frame; [reflexivity|..];
    unfold score_fields; cbn [In]; intros H;
    repeat (destruct H as [H|H]; [discriminate H|]); exact H.
Qed.

(** Scoring a posting a second time changes nothing. *)
Lemma score_job_idem (job : gmap string value) :
  score_job vec encode cos_sim float_str resume_emb primary_domain subdomain ra
    (score_job vec encode cos_sim float_str resume_emb primary_domain subdomain ra job)
  = score_job vec encode cos_sim float_str resume_emb primary_domain subdomain ra job.
Proof.
  rewrite (score_job_unfold (score_job _ _ _ _ _ _ _ _ job)).
  rewrite job_text_of_score_job.
  destruct (score_job_fields job) as (Hsim & Hbase & Hboost & Hpd & Hsd).
  cbv zeta in *.
  rewrite (insert_id _ "similarity" _ Hsim).
  rewrite (insert_id _ "base_similarity" _ Hbase).
  rewrite (insert_id _ "domain_boost" _ Hboost).
  rewrite (insert_id _ "primary_domain" _ Hpd).
  apply (insert_id _ "subdomain" _ Hsd).
Qed.

Lemma rank_step_pair (store : gmap nat (gmap string value)) (ranked : list nat)
      (job : nat) :
  rank_step vec encode cos_sim float_str resume_emb primary_domain subdomain ra
            (store, ranked) job
  = (<[job := score_job vec encode cos_sim float_str resume_emb primary_domain
                        subdomain ra (store !!! job)]> store,
     ranked ++ [job]).
Proof. reflexivity. Qed.

(** The loop visits the postings in order; a posting met once or more ends
    as the scored form of what it was, any other is untouched. *)
Lemma rank_loop_spec (jobs : list nat) :
  forall (store : gmap nat (gmap string value)) (ranked : list nat),
    snd (fold_left (rank_step vec encode cos_sim float_str resume_emb primary_domain
                              subdomain ra) jobs (store, ranked))
    = ranked ++ jobs
    /\ forall ref,
        fst (fold_left (rank_step vec encode cos_sim float_str resume_emb
                                  primary_domain subdomain ra) jobs (store, ranked))
          !! ref
        = if decide (ref ∈ jobs)
          then Some (score_job vec encode cos_sim float_str resume_emb primary_domain
                               subdomain ra (store !!! ref))
          else store !! ref.
Proof.
  induction jobs as [|job jobs IH]; intros store ranked; cbn [fold_left].
  - split; [rewrite app_nil_r; reflexivity|].
    intros ref. rewrite decide_False by apply not_elem_of_nil. reflexivity.
  - rewrite rank_step_pair.
    destruct (IH (<[job := score_job vec encode cos_sim float_str resume_emb
                                     primary_domain subdomain ra (store !!! job)]> store)
                 (ranked ++ [job])) as [Hranked Hstore].
    split; [rewrite Hranked, <- app_assoc; reflexivity|].
    intros ref. rewrite Hstore.
    destruct (decide (ref = job)) as [->|Hne].
    + rewrite (decide_True (P := job ∈ job :: jobs)) by (apply elem_of_cons; left; reflexivity).
      rewrite lookup_total_insert_eq, lookup_insert_eq, score_job_idem.
      destruct (decide (job ∈ jobs)); reflexivity.
    + rewrite lookup_total_insert_ne, lookup_insert_ne by congruence.
      destruct (decide (ref ∈ jobs)) as [Hin|Hnin].
      * rewrite decide_True by (apply elem_of_cons; right; exact Hin). reflexivity.
      * rewrite decide_False; [reflexivity|].
        intros Hin. apply elem_of_cons in Hin as [?|?]; contradiction.
Qed.

End Scoring.

Section Ranking.
Context (vec : Type) (encode : string -> vec) (cos_sim : vec -> vec -> Q)
        (float_str : Q -> string).

(** The store the ranker leaves: a posting of the list is the scored form
    of what it was, any other posting is untouched. *)
Lemma rank_jobs_store (resume_text : string) (jobs : list nat)
      (analysis : ResumeAnalysis) (store : gmap nat (gmap string value)) (ref : nat) :
  fst (rank_jobs_domain_aware vec encode cos_sim float_str resume_text jobs
                              analysis store) !! ref
  = if decide (ref ∈ jobs)
    then Some (score_job vec encode cos_sim float_str (encode resume_text)
                         (primary_domain analysis) (default "" (subdomain analysis))
                         analysis (store !!! ref))
    else store !! ref.
Proof.
  unfold rank_jobs_domain_aware.
  pose proof (rank_loop_spec vec encode cos_sim float_str (encode resume_text)
                (primary_domain analysis) (default "" (subdomain analysis)) analysis
                jobs store []) as [_ Hstore].
  specialize (Hstore ref).
  destruct (fold_left _ jobs (store, [])) as [store' ranked]. exact Hstore.
Qed.

(** The order it returns: the references it was given, sorted on the
    similarity it has just written. *)
Lemma rank_jobs_order (resume_text : string) (jobs : list nat)
      (analysis : ResumeAnalysis) (store : gmap nat (gmap string value)) :
  snd (rank_jobs_domain_aware vec encode cos_sim float_str resume_text jobs
                              analysis store)
  = sort_desc
      (similarity_of
         (fst (rank_jobs_domain_aware vec encode cos_sim float_str resume_text jobs
                                      analysis store)))
      jobs.
Proof.
  unfold rank_jobs_domain_aware.
  pose proof (rank_loop_spec vec encode cos_sim float_str (encode resume_text)
                (primary_domain analysis) (default "" (subdomain analysis)) analysis
                jobs store []) as [Hranked _].
  destruct (fold_left _ jobs (store, [])) as [store' ranked].
  cbn [fst snd] in *. rewrite Hranked. reflexivity.
Qed.

Lemma rank_jobs_scored (resume_text : string) (jobs : list nat)
      (analysis : ResumeAnalysis) (store : gmap nat (gmap string value)) (ref : nat) :
  In ref jobs ->
  fst (rank_jobs_domain_aware vec encode cos_sim float_str resume_text jobs
                              analysis store) !!! ref
  = score_job vec encode cos_sim float_str (encode resume_text)
              (primary_domain analysis) (default "" (subdomain analysis))
              analysis (store !!! ref).
Proof.
  intros Hin. apply lookup_total_correct. rewrite rank_jobs_store.
  rewrite decide_True by (apply list_elem_of_In, Hin). reflexivity.
Qed.

Lemma rank_jobs_untouched (resume_text : string) (jobs : list nat)
      (analysis : ResumeAnalysis) (store : gmap nat (gmap string value)) (ref : nat) :
  ~ In ref jobs ->
  fst (rank_jobs_domain_aware vec encode cos_sim float_str resume_text jobs
                              analysis store) !! ref
  = store !! ref.
Proof.
  intros Hnin. rewrite rank_jobs_store.
  rewrite decide_False; [reflexivity|]. rewrite list_elem_of_In. exact Hnin.
Qed.

Lemma rank_jobs_members (resume_text : string) (jobs : list nat)
      (analysis : ResumeAnalysis) (store : gmap nat (gmap string value)) (ref : nat) :
  In ref (snd (rank_jobs_domain_aware vec encode cos_sim float_str resume_text jobs
                                      analysis store))
  -> In ref jobs.
Proof.
  rewrite rank_jobs_order. apply Permutation_in, sort_desc_perm.
Qed.

(** The similarity of a ranked posting, in terms of the posting as it was. *)
Lemma rank_jobs_similarity (resume_text : string) (jobs : list nat)
      (analysis : ResumeAnalysis) (store : gmap nat (gmap string value)) (ref : nat) :
  In ref jobs ->
  similarity_of
    (fst (rank_jobs_domain_aware vec encode cos_sim float_str resume_text jobs
                                 analysis store)) ref
  = Qmin (cos_sim (encode resume_text)
                  (encode (job_text_of float_str (store !!! ref)))
          + calculate_advanced_domain_boost
              (job_text_of float_str (store !!! ref))
              (primary_domain analysis) (default "" (subdomain analysis)) analysis)
         1.0.
Proof.
  intros Hin. unfold similarity_of. rewrite (rank_jobs_scored _ _ _ _ _ Hin).
  destruct (score_job_fields vec encode cos_sim float_str (encode resume_text)
              (primary_domain analysis) (default "" (subdomain analysis)) analysis
              (store !!! ref)) as (Hsim & _).
  cbv zeta in Hsim. rewrite Hsim. reflexivity.
Qed.

(** C1: for every resume analysis and posting text the domain boost lies
    in [0, 0.5], and every ranked posting carries a final similarity equal
    to min(base similarity + domain boost, 1.0), base and boost being those
    computed from the posting's own text. *)
Theorem boost_capped_final_is_min (job_text primary_domain subdomain : string)
        (ra : ResumeAnalysis) (resume_text : string) (jobs : list nat)
        (analysis : ResumeAnalysis) (store : gmap nat (gmap string value)) :
  0 <= calculate_advanced_domain_boost job_text primary_domain subdomain ra <= 0.5
  /\ Forall
       (fun ref =>
          exists base boost,
            let posting :=
              fst (rank_jobs_domain_aware vec encode cos_sim float_str resume_text
                                          jobs analysis store) !!! ref in
            posting !! "base_similarity" = Some (VNum base)
            /\ posting !! "domain_boost" = Some (VNum boost)
            /\ posting !! "similarity" = Some (VNum (Qmin (base + boost) 1.0))
            /\ base = cos_sim (encode resume_text)
                              (encode (job_text_of float_str (store !!! ref)))
            /\ boost = calculate_advanced_domain_boost
                         (job_text_of float_str (store !!! ref))
                         (Recommender.primary_domain analysis)
                         (default "" (Recommender.subdomain analysis)) analysis
            /\ 0 <= boost <= 0.5)
       (snd (rank_jobs_domain_aware vec encode cos_sim float_str resume_text jobs
                                    analysis store)).
Proof.
  split; [apply domain_boost_bounds|].
  apply List.Forall_forall. intros ref Hin. apply rank_jobs_members in Hin.
  eexists; eexists. cbv zeta. rewrite (rank_jobs_scored _ _ _ _ _ Hin).
  destruct (score_job_fields vec encode cos_sim float_str (encode resume_text)
              (Recommender.primary_domain analysis)
              (default "" (Recommender.subdomain analysis)) analysis
              (store !!! ref)) as (Hsim & Hbase & Hboost & _).
  cbv zeta in *.
  split; [exact Hbase|]. split; [exact Hboost|]. split; [exact Hsim|].
  split; [reflexivity|]. split; [reflexivity|]. apply domain_boost_bounds.
Qed.

(** C2 (as amended): for every posting list and every value of the
    external similarity signal, the final similarity of each ranked posting
    is at most 1, and it is at least 0 whenever the posting's base
    similarity is at least 0. *)
Theorem final_similarity_bounds (resume_text : string) (jobs : list nat)
        (analysis : ResumeAnalysis) (store : gmap nat (gmap string value))
        (ref : nat) (base : Q) :
  In ref (snd (rank_jobs_domain_aware vec encode cos_sim float_str resume_text jobs
                                      analysis store)) ->
  (fst (rank_jobs_domain_aware vec encode cos_sim float_str resume_text jobs
                               analysis store) !!! ref) !! "base_similarity"
  = Some (VNum base) ->
  similarity_of (fst (rank_jobs_domain_aware vec encode cos_sim float_str resume_text
                                             jobs analysis store)) ref <= 1
  /\ (0 <= base ->
      0 <= similarity_of (fst (rank_jobs_domain_aware vec encode cos_sim float_str
                                                      resume_text jobs analysis store))
                         ref).
Proof.
  intros Hin Hfield. apply rank_jobs_members in Hin.
  rewrite (rank_jobs_similarity _ _ _ _ _ Hin).
  rewrite (rank_jobs_scored _ _ _ _ _ Hin) in Hfield.
  destruct (score_job_fields vec encode cos_sim float_str (encode resume_text)
              (primary_domain analysis) (default "" (subdomain analysis)) analysis
              (store !!! ref)) as (_ & Hbase & _).
  cbv zeta in Hbase. rewrite Hbase in Hfield. injection Hfield as Hfield.
  rewrite Hfield.
  pose proof (domain_boost_bounds (job_text_of float_str (store !!! ref))
                (primary_domain analysis) (default "" (subdomain analysis)) analysis)
    as [Hb0 _].
  split.
  - eapply Qle_trans; [apply Q.le_min_r|discriminate].
  - intros Hbase0. apply Q.min_glb; [lra|discriminate].
Qed.

(** C3: for every input posting list the ranking returns a permutation of
    the input postings, sorted non-increasing by final similarity, in which
    postings of equal final similarity keep their input order. *)
Theorem ranking_sorted_stable_permutation (resume_text : string) (jobs : list nat)
        (analysis : ResumeAnalysis) (store : gmap nat (gmap string value)) :
  Permutation (snd (rank_jobs_domain_aware vec encode cos_sim float_str resume_text
                                           jobs analysis store)) jobs
  /\ StronglySorted
       (fun a b =>
          similarity_of (fst (rank_jobs_domain_aware vec encode cos_sim float_str
                                                     resume_text jobs analysis store)) b
          <= similarity_of (fst (rank_jobs_domain_aware vec encode cos_sim float_str
                                                        resume_text jobs analysis store))
                           a)
       (snd (rank_jobs_domain_aware vec encode cos_sim float_str resume_text jobs
                                    analysis store))
  /\ forall q : Q,
       List.filter
         (fun ref =>
            Qeq_bool (similarity_of
                        (fst (rank_jobs_domain_aware vec encode cos_sim float_str
                                                     resume_text jobs analysis store))
                        ref) q)
         (snd (rank_jobs_domain_aware vec encode cos_sim float_str resume_text jobs
                                      analysis store))
       = List.filter
           (fun ref =>
              Qeq_bool (similarity_of
                          (fst (rank_jobs_domain_aware vec encode cos_sim float_str
                                                       resume_text jobs analysis store))
                          ref) q)
           jobs.
Proof.
  rewrite rank_jobs_order. split; [|split].
  - apply sort_desc_perm.
  - apply sort_desc_sorted.
  - intros q. apply sort_desc_stable.
Qed.

(** C10 (as amended): ranking works in place.  It returns the input
    postings themselves, reordered; into each of them it has written the
    five score fields; every other field of every posting, and every
    posting outside the list, is the same as before the call. *)
Theorem ranking_augments_in_place (resume_text : string) (jobs : list nat)
        (analysis : ResumeAnalysis) (store : gmap nat (gmap string value))
        (ref : nat) (key : string) :
  ~ In key score_fields ->
  (fst (rank_jobs_domain_aware vec encode cos_sim float_str resume_text jobs
                               analysis store) !!! ref) !! key
  = (store !!! ref) !! key
  /\ Permutation (snd (rank_jobs_domain_aware vec encode cos_sim float_str
                                              resume_text jobs analysis store)) jobs
  /\ (In ref jobs ->
      Forall (fun field =>
                is_Some ((fst (rank_jobs_domain_aware vec encode cos_sim float_str
                                                      resume_text jobs analysis store)
                          !!! ref) !! field))
             score_fields)
  /\ (~ In ref jobs ->
      fst (rank_jobs_domain_aware vec encode cos_sim float_str resume_text jobs
                                  analysis store) !! ref
      = store !! ref).
Proof.
  intros Hkey. split; [|split; [|split]].
  - destruct (in_dec Nat.eq_dec ref jobs) as [Hin|Hnin].
    + rewrite (rank_jobs_scored _ _ _ _ _ Hin). apply score_job_frame, Hkey.
    + rewrite !lookup_total_alt, (rank_jobs_untouched _ _ _ _ _ Hnin). reflexivity.
  - rewrite rank_jobs_order. apply sort_desc_perm.
  - intros Hin. rewrite (rank_jobs_scored _ _ _ _ _ Hin).
    destruct (score_job_fields vec encode cos_sim float_str (encode resume_text)
                (primary_domain analysis) (default "" (subdomain analysis)) analysis
                (store !!! ref)) as (Hsim & Hbase & Hboost & Hpd & Hsd).
    cbv zeta in *. unfold score_fields.
    repeat constructor; eexists; eassumption.
  - apply rank_jobs_untouched.
Qed.
End Ranking.

Lemma final_similarity_bounds_witness :
  In 1%nat (snd (sample_ranking 0.2))
  /\ (fst (sample_ranking 0.2) !!! 1%nat) !! "base_similarity" = Some (VNum 0.2)
  /\ similarity_of (fst (sample_ranking 0.2)) 1%nat <= 1
  /\ (0 <= 0.2 -> 0 <= similarity_of (fst (sample_ranking 0.2)) 1%nat).
Proof.
  assert (Hin : In 1%nat (snd (sample_ranking 0.2)))
    by (vm_compute; right; left; reflexivity).
  assert (Hfield : (fst (sample_ranking 0.2) !!! 1%nat) !! "base_similarity"
                   = Some (VNum 0.2)) by (vm_compute; reflexivity).
  exact (conj Hin (conj Hfield
           (final_similarity_bounds unit (fun _ => tt) (fun _ _ => 0.2) (fun _ => "")
              sample_resume [0%nat; 1%nat] sample_analysis sample_store 1%nat 0.2
              Hin Hfield))).
Defined.

(** C2 as stated fails: cosine similarity can be negative and the ranker
    clamps from above only.  Rated -0.2 and earning no boost, the second
    sample posting ends with a negative final similarity. *)
Lemma negative_final_similarity :
  In 1%nat (snd (sample_ranking (-0.2)))
  /\ similarity_of (fst (sample_ranking (-0.2))) 1%nat == -0.2
  /\ ~ (0 <= similarity_of (fst (sample_ranking (-0.2))) 1%nat <= 1).
Proof.
  split; [vm_compute; right; left; reflexivity|].
  split; [vm_compute; reflexivity|].
  intros [H0 _]. vm_compute in H0. apply H0. reflexivity.
Qed.

Lemma ranking_augments_in_place_witness :
  ~ In "title" score_fields
  /\ (fst (sample_ranking 0.2) !!! 1%nat) !! "title"
     = (sample_store !!! 1%nat) !! "title".
Proof.
  assert (Hkey : ~ In "title" score_fields).
  { unfold score_fields. cbn [In]. intros H.
    repeat (destruct H as [H|H]; [discriminate H|]). exact H. }
  exact (conj Hkey
           (proj1 (ranking_augments_in_place unit (fun _ => tt) (fun _ _ => 0.2)
                     (fun _ => "") sample_resume [0%nat; 1%nat] sample_analysis
                     sample_store 1%nat "title" Hkey))).
Defined.

(** C10 as stated fails: the posting handed in has no similarity field
    before the call and has one after it, so the input record changed. *)
Lemma ranking_mutates_input_posting :
  (sample_store !!! 1%nat) !! "similarity" = None
  /\ is_Some ((fst (sample_ranking 0.2) !!! 1%nat) !! "similarity")
  /\ fst (sample_ranking 0.2) !!! 1%nat <> sample_store !!! 1%nat.
Proof.
  split; [vm_compute; reflexivity|].
  split; [eexists; vm_compute; reflexivity|].
  intros H. apply (f_equal (fun posting => posting !! "similarity")) in H.
  vm_compute in H. discriminate H.
Qed.
End RankerFacts.

(** ** The query synthesizer *)

Module QueryFacts.
Import Text Recommender Props ClassifierFacts.

Lemma ends_with_refl (s : string) : ends_with s s.
Proof. exists EmptyString. reflexivity. Qed.

Lemma ends_with_cons (suffix s : string) (c : ascii) :
  ends_with suffix s -> ends_with suffix (String c s).
Proof. intros [front ->]. exists (String c front). reflexivity. Qed.

Lemma ends_with_app (suffix s t : string) :
  ends_with suffix s -> ends_with suffix (t ++ s)%string.
Proof.
  intros Hs. induction t as [|c t IH]; [exact Hs|].
  apply ends_with_cons, IH.
Qed.

Ltac suffix_found :=
  cbn [append];
  repeat first [ apply ends_with_refl | apply ends_with_cons | apply ends_with_app ].

Ltac query_shape :=
  repeat match goal with
         | |- context [if ?c then _ else _] => destruct c
         end;
  (split; [suffix_found | cbn [append]; discriminate]).

Lemma javascript_query_shape data sub location :
  ends_with (" " ++ location ++ " jobs") (generate_javascript_query data sub location)
  /\ generate_javascript_query data sub location <> EmptyString.
Proof. unfold generate_javascript_query. query_shape. Qed.

Lemma python_query_shape data sub location :
  ends_with (" " ++ location ++ " jobs") (generate_python_query data sub location)
  /\ generate_python_query data sub location <> EmptyString.
Proof. unfold generate_python_query. query_shape. Qed.

Lemma java_query_shape data sub location :
  ends_with (" " ++ location ++ " jobs") (generate_java_query data sub location)
  /\ generate_java_query data sub location <> EmptyString.
Proof. unfold generate_java_query. query_shape. Qed.

Lemma cybersecurity_query_shape data sub location :
  ends_with (" " ++ location ++ " jobs")
            (generate_cybersecurity_query data sub location)
  /\ generate_cybersecurity_query data sub location <> EmptyString.
Proof. unfold generate_cybersecurity_query. query_shape. Qed.

Lemma data_science_query_shape data sub location :
  ends_with (" " ++ location ++ " jobs")
            (generate_data_science_query data sub location)
  /\ generate_data_science_query data sub location <> EmptyString.
Proof. unfold generate_data_science_query. query_shape. Qed.

Lemma devops_query_shape data sub location :
  ends_with (" " ++ location ++ " jobs") (generate_devops_query data sub location)
  /\ generate_devops_query data sub location <> EmptyString.
Proof. unfold generate_devops_query. query_shape. Qed.

Lemma cloud_query_shape data sub location :
  ends_with (" " ++ location ++ " jobs") (generate_cloud_query data sub location)
  /\ generate_cloud_query data sub location <> EmptyString.
Proof. unfold generate_cloud_query. query_shape. Qed.

(** Once the primary domain has an entry in the score map, synthesis
    returns a non-empty query ending with " <location> jobs". *)
Lemma smart_query_shape (ra : ResumeAnalysis) (location : string) (data : DomainScore) :
  dict_get (all_domains ra) (primary_domain ra) = Ok data ->
  exists query,
    generate_smart_query ra location = Ok query
    /\ ends_with (" " ++ location ++ " jobs") query
    /\ query <> EmptyString.
Proof.
  intros Hdata. unfold generate_smart_query. rewrite Hdata.
  repeat match goal with
         | |- context [if String.eqb ?a ?b then _ else _] => destruct (String.eqb a b)
         end;
    eexists; (split; [reflexivity|]);
    first [ apply javascript_query_shape | apply python_query_shape
          | apply java_query_shape | apply cybersecurity_query_shape
          | apply data_science_query_shape | apply devops_query_shape
          | apply cloud_query_shape
          | split; [suffix_found | cbn [append]; discriminate] ].
Qed.

(** The fallback is taken for a domain outside the seven, provided the
    score map has an entry under that very name. *)
Lemma smart_query_fallback (ra : ResumeAnalysis) (location : string)
      (data : DomainScore) :
  known_domain (primary_domain ra) = false ->
  dict_get (all_domains ra) (primary_domain ra) = Ok data ->
  generate_smart_query ra location
  = Ok ("Software Developer " ++ location ++ " jobs")%string.
Proof.
  intros Hk Hdata. unfold generate_smart_query. rewrite Hdata.
  rewrite known_domain_unfold in Hk.
  repeat match goal with
         | |- context [if String.eqb ?a ?b then _ else _] =>
             destruct (String.eqb a b); [discriminate Hk|]
         end.
  reflexivity.
Qed.

(** A key that occurs in a dict can be looked up. *)
Lemma dict_get_member {V : Type} (d : list (string * V)) (key : string) (v : V) :
  In (key, v) d -> exists v', dict_get d key = Ok v'.
Proof.
  intros Hin. unfold dict_get.
  destruct (List.find (fun kv => String.eqb (fst kv) key) d) as [kv|] eqn:Hfind;
    [exists (snd kv); reflexivity|].
  exfalso. pose proof (find_none _ _ Hfind _ Hin) as Hno.
  cbn [fst] in Hno. rewrite String.eqb_refl in Hno. discriminate Hno.
Qed.

(** The analysis the classifier returns always has that entry. *)
Lemma classified_primary_has_entry (resume_text : string) :
  exists data,
    dict_get (all_domains (analyze_resume_type resume_text))
             (primary_domain (analyze_resume_type resume_text)) = Ok data.
Proof.
  destruct (primary_first_maximum resume_text)
    as (before & entry & after & Heq & _ & _).
  apply (dict_get_member _ _ entry).
  rewrite Heq. apply in_or_app. right. left. reflexivity.
Qed.

Lemma classified_query_shape (resume_text location : string) :
  exists query,
    generate_smart_query (analyze_resume_type resume_text) location = Ok query
    /\ ends_with (" " ++ location ++ " jobs") query
    /\ query <> EmptyString.
Proof.
  destruct (classified_primary_has_entry resume_text) as [data Hdata].
  exact (smart_query_shape _ location data Hdata).
Qed.

(** C8: for every analysis whose score map has an entry for its primary
    domain, and every location, query synthesis does not fail and returns
    a non-empty query ending with " <location> jobs"; when the primary
    domain is none of the seven, the query is exactly
    "Software Developer <location> jobs". *)
Theorem well_formed_analysis_query (ra : ResumeAnalysis) (location : string)
        (data : DomainScore) :
  dict_get (all_domains ra) (primary_domain ra) = Ok data ->
  exists query,
    generate_smart_query ra location = Ok query
    /\ ends_with (" " ++ location ++ " jobs") query
    /\ query <> EmptyString
    /\ (known_domain (primary_domain ra) = false ->
        query = ("Software Developer " ++ location ++ " jobs")%string).
Proof.
  intros Hdata.
  destruct (smart_query_shape ra location data Hdata)
    as (query & Hquery & Hend & Hne).
  exists query. repeat (split; [assumption|]).
  intros Hk. rewrite (smart_query_fallback ra location data Hk Hdata) in Hquery.
  injection Hquery as <-. reflexivity.
Qed.

Lemma well_formed_analysis_query_witness :
  known_domain (primary_domain foreign_analysis) = false
  /\ exists query,
       generate_smart_query foreign_analysis "Pune" = Ok query
       /\ ends_with " Pune jobs" query
       /\ query <> EmptyString
       /\ (known_domain (primary_domain foreign_analysis) = false ->
           query = "Software Developer Pune jobs").
Proof.
  split; [vm_compute; reflexivity|].
  apply (well_formed_analysis_query foreign_analysis "Pune" empty_score).
  vm_compute. reflexivity.
Defined.

(** The entry is needed.  An analysis that names a domain outside the
    seven over the classifier's own seven-entry score map has no entry for
    it: the lookup raises KeyError before any query is built. *)
Lemma unrecognized_domain_raises_key_error :
  known_domain (primary_domain unrecognized_analysis) = false
  /\ List.length (all_domains unrecognized_analysis) = 7%nat
  /\ generate_smart_query unrecognized_analysis "Pune" = KeyError "mobile_development".
Proof.
  split; [vm_compute; reflexivity|].
  split; vm_compute; reflexivity.
Qed.
End QueryFacts.

(** ** The empty resume *)

Module EmptyTextFacts.
Import Text Parser Recommender Props ClassifierFacts.
Local Open Scope Q_scope.

Section EmptyText.
Context (experience_entries : string -> list Experience)
        (education_entries : string -> list Education)
        (project_entries : string -> list Project)
        (certification_lines : string -> list Certification)
        (language_matches : string -> list string).

(** C7: for the empty resume text every one of the seven domain scores is
    0, the primary domain is the first of the declared enumeration (the
    primary entry always being the first of those with the highest score),
    and the parsed resume is empty: all lists empty, all optional fields
    absent. *)
Theorem empty_text_zero_scores_empty_parse :
  Forall (fun d => score (snd d) == 0) (all_domains (analyze_resume_type ""))
  /\ List.length (all_domains (analyze_resume_type "")) = 7%nat
  /\ Some (primary_domain (analyze_resume_type "")) = hd_error domain_tags
  /\ (forall resume_text, exists before entry after,
        all_domains (analyze_resume_type resume_text)
        = before ++ (primary_domain (analyze_resume_type resume_text), entry) :: after
        /\ score entry = primary_score (analyze_resume_type resume_text)
        /\ Forall (fun d => score (snd d) < score entry) before)
  /\ parse_resume experience_entries education_entries project_entries
                  certification_lines language_matches ""
     = empty_resume.
Proof.
  split; [|split; [|split; [|split]]].
  - apply List.Forall_forall. intros d Hd.
    assert (Hall : forallb (fun d => Qeq_bool (score (snd d)) 0)
                           (all_domains (analyze_resume_type "")) = true)
      by (vm_compute; reflexivity).
    rewrite forallb_forall in Hall. apply Qeq_bool_iff, Hall, Hd.
  - vm_compute; reflexivity.
  - vm_compute; reflexivity.
  - apply primary_first_maximum.
  - vm_compute; reflexivity.
Qed.
End EmptyText.
End EmptyTextFacts.

(** ** The segmenter on arbitrary text, and the parse it feeds *)

Module SegmentationFacts.
Import Text Re Parser Props Notions TextFacts ReFacts SegmenterFacts.

(** Blank lines are skipped and the others are met stripped, so the loop
    runs over the content lines. *)
Lemma fold_seg_step_content (lines : list string) :
  forall st,
    fold_left seg_step lines st
    = fold_left seg_step (List.filter nonempty (map strip lines)) st.
Proof.
  induction lines as [|line lines IH]; intros st; [reflexivity|].
  cbn [fold_left map List.filter].
  destruct (nonempty (strip line)) eqn:Hne.
  - cbn [fold_left]. rewrite <- IH. f_equal.
    unfold seg_step. rewrite strip_idem. reflexivity.
  - rewrite <- IH. f_equal. unfold seg_step. rewrite Hne. reflexivity.
Qed.

Lemma content_line_stripped (lines : list string) (line : string) :
  In line (List.filter nonempty (map strip lines)) ->
  strip line = line /\ nonempty line = true.
Proof.
  intros Hin. apply filter_In in Hin as [Hin Hne]. split; [|exact Hne].
  apply in_map_iff in Hin as (raw & <- & _). apply strip_idem.
Qed.

(** One step on a content line. *)
Lemma seg_step_plain (st : seg_state) (line : string) :
  strip line = line -> nonempty line = true -> header_of line = None ->
  seg_step st line
  = {| sections := sections st; current_section := current_section st;
       current_content := current_content st ++ [line] |}.
Proof.
  intros Hs Hne Hh. unfold seg_step. rewrite Hs, Hne, Hh. reflexivity.
Qed.

Lemma seg_step_header (st : seg_state) (line name : string) :
  strip line = line -> nonempty line = true -> header_of line = Some name ->
  seg_step st line
  = {| sections :=
         if negb (String.eqb (current_section st) "general")
         then <[current_section st := join newline (current_content st)]> (sections st)
         else sections st;
       current_section := name;
       current_content := [] |}.
Proof.
  intros Hs Hne Hh. unfold seg_step. rewrite Hs, Hne, Hh. reflexivity.
Qed.

Lemma is_header_false (line : string) : is_header line = false -> header_of line = None.
Proof.
  unfold is_header. intros H. apply bool_decide_eq_false in H.
  destruct (header_of line); [exfalso; apply H; eauto|reflexivity].
Qed.

Lemma is_header_true (line : string) :
  is_header line = true -> exists name, header_of line = Some name /\ In name section_names.
Proof.
  unfold is_header, header_of. intros H. apply bool_decide_eq_true in H.
  destruct (List.find _ section_patterns) as [sp|] eqn:Hfind;
    [|destruct H as [? H]; discriminate H].
  exists (fst sp). split; [reflexivity|].
  apply find_some in Hfind as [Hin _]. unfold section_names. apply in_map, Hin.
Qed.

(** Lines that are no headers only pile up in the buffer. *)
Lemma fold_seg_step_plain (lines : list string) :
  Forall (fun line => strip line = line /\ nonempty line = true
                      /\ is_header line = false) lines ->
  forall st,
    fold_left seg_step lines st
    = {| sections := sections st; current_section := current_section st;
         current_content := current_content st ++ lines |}.
Proof.
  induction 1 as [|line lines (Hs & Hne & Hh) _ IH]; intros st; cbn [fold_left].
  - rewrite app_nil_r. destruct st; reflexivity.
  - rewrite IH, (seg_step_plain st line Hs Hne (is_header_false _ Hh)).
    cbn. rewrite <- app_assoc. reflexivity.
Qed.

Lemma extract_sections_unfold (text : string) :
  _extract_sections text
  = let st := fold_left seg_step (content_lines text)
                {| sections := ∅; current_section := "general";
                   current_content := [] |} in
    match current_content st with
    | [] => sections st
    | _ => <[current_section st := join newline (current_content st)]> (sections st)
    end.
Proof.
  unfold _extract_sections, content_lines. cbv zeta.
  rewrite fold_seg_step_content. reflexivity.
Qed.

Lemma content_lines_Forall (text : string) :
  Forall (fun line => strip line = line /\ nonempty line = true) (content_lines text).
Proof.
  apply List.Forall_forall. intros line Hin.
  exact (content_line_stripped _ _ Hin).
Qed.

(** X2: a text none of whose lines is a header yields no section when it
    has no non-blank line, and otherwise the single section "general"
    holding its non-blank lines, stripped and joined by line feeds. *)
Theorem headerless_text_sections (text : string) :
  forallb (fun line => negb (is_header line)) (content_lines text) = true ->
  _extract_sections text
  = match content_lines text with
    | [] => ∅
    | _ => {["general" := join newline (content_lines text)]}
    end.
Proof.
  intros Hno. rewrite extract_sections_unfold. cbv zeta.
  rewrite fold_seg_step_plain.
  - cbn [current_content sections current_section app].
    destruct (content_lines text); [reflexivity|apply insert_empty].
  - pose proof (content_lines_Forall text) as Hall.
    rewrite forallb_forall in Hno. rewrite List.Forall_forall in Hall |- *.
    intros line Hin. destruct (Hall line Hin) as [Hs Hne].
    split; [exact Hs|]. split; [exact Hne|].
    apply negb_true_iff, Hno, Hin.
Qed.

Lemma headerless_text_sections_witness :
  forallb (fun line => negb (is_header line))
          (content_lines ("  John Doe " ++ newline ++ newline ++ " Pune, India")) = true
  /\ _extract_sections ("  John Doe " ++ newline ++ newline ++ " Pune, India")
     = {["general" := ("John Doe" ++ newline ++ "Pune, India")%string]}.
Proof.
  assert (Hno : forallb (fun line => negb (is_header line))
                  (content_lines ("  John Doe " ++ newline ++ newline ++ " Pune, India"))
                = true) by (vm_compute; reflexivity).
  exact (conj Hno (headerless_text_sections _ Hno)).
Defined.

Lemma general_is_no_section_name : ~ In "general" section_names.
Proof.
  unfold section_names, section_patterns. cbn [map fst In]. intros H.
  repeat (destruct H as [H|H]; [discriminate H|]). exact H.
Qed.

(** What the loop keeps true of its state: nothing is ever stored under
    "general" before the end, and every tag in use is one of the nine. *)
Lemma seg_step_keys (st : seg_state) (line : string) :
  sections st !! "general" = None ->
  (forall key, is_Some (sections st !! key) -> In key section_names) ->
  current_section st = "general" \/ In (current_section st) section_names ->
  sections (seg_step st line) !! "general" = None
  /\ (forall key, is_Some (sections (seg_step st line) !! key) -> In key section_names)
  /\ (current_section (seg_step st line) = "general"
      \/ In (current_section (seg_step st line)) section_names)
  /\ (In (current_section st) section_names \/ is_header (strip line) = true ->
      nonempty (strip line) = true \/ In (current_section st) section_names ->
      In (current_section (seg_step st line)) section_names).
Proof.
  intros Hgen Hkeys Hcur. unfold seg_step.
  destruct (nonempty (strip line)) eqn:Hne; cbn [negb].
  2:{ split; [exact Hgen|]. split; [exact Hkeys|]. split; [exact Hcur|].
      intros Hseen [Hf|Hin]; [discriminate Hf|exact Hin]. }
  destruct (header_of (strip line)) as [name|] eqn:Hh.
  - assert (Hname : In name section_names).
    { destruct (is_header_true (strip line)) as (name' & Hh' & Hin).
      - unfold is_header. rewrite Hh. apply bool_decide_eq_true. eauto.
      - rewrite Hh in Hh'. injection Hh' as <-. exact Hin. }
    cbn [sections current_section].
    destruct (String.eqb (current_section st) "general") eqn:Hg; cbn [negb].
    + split; [exact Hgen|]. split; [exact Hkeys|]. split; [right; exact Hname|].
      intros _ _. exact Hname.
    + apply String.eqb_neq in Hg. destruct Hcur as [Hcur|Hcur]; [contradiction|].
      split; [rewrite lookup_insert_ne by congruence; exact Hgen|].
      split; [|split; [right; exact Hname|intros _ _; exact Hname]].
      intros key Hsome. destruct (decide (current_section st = key)) as [<-|Hk].
      * exact Hcur.
      * rewrite lookup_insert_ne in Hsome by exact Hk. apply Hkeys, Hsome.
  - cbn [sections current_section].
    split; [exact Hgen|]. split; [exact Hkeys|]. split; [exact Hcur|].
    intros [Hin|Hhdr] _; [exact Hin|].
    unfold is_header in Hhdr. rewrite Hh in Hhdr.
    apply bool_decide_eq_true in Hhdr as [? Hhdr]. discriminate Hhdr.
Qed.

Lemma fold_seg_step_keys (lines : list string) :
  Forall (fun line => strip line = line /\ nonempty line = true) lines ->
  forall st,
    sections st !! "general" = None ->
    (forall key, is_Some (sections st !! key) -> In key section_names) ->
    current_section st = "general" \/ In (current_section st) section_names ->
    sections (fold_left seg_step lines st) !! "general" = None
    /\ (forall key, is_Some (sections (fold_left seg_step lines st) !! key) ->
        In key section_names)
    /\ (In (current_section st) section_names \/ existsb is_header lines = true ->
        In (current_section (fold_left seg_step lines st)) section_names).
Proof.
  induction 1 as [|line lines (Hs & Hne) _ IH]; intros st Hgen Hkeys Hcur;
    cbn [fold_left existsb].
  - split; [exact Hgen|]. split; [exact Hkeys|].
    intros [Hin|Hf]; [exact Hin|discriminate Hf].
  - destruct (seg_step_keys st line Hgen Hkeys Hcur) as (Hgen' & Hkeys' & Hcur' & Hseen').
    rewrite Hs in Hseen'.
    destruct (IH _ Hgen' Hkeys' Hcur') as (Hgen'' & Hkeys'' & Hseen'').
    split; [exact Hgen''|]. split; [exact Hkeys''|].
    intros Hseen. apply Hseen''.
    destruct Hseen as [Hin|Hex].
    + left. apply Hseen'; [left; exact Hin|left; exact Hne].
    + apply orb_prop in Hex as [Hh|Hex]; [|right; exact Hex].
      left. apply Hseen'; [right; exact Hh|left; exact Hne].
Qed.

(** X3: when some line of the text is a section header, the result has no
    "general" entry (whatever precedes the first header is discarded) and
    every tag in it is one of the nine section names. *)
Theorem header_discards_general (text : string) :
  existsb is_header (content_lines text) = true ->
  _extract_sections text !! "general" = None
  /\ forall key, is_Some (_extract_sections text !! key) -> In key section_names.
Proof.
  intros Hex. rewrite extract_sections_unfold. cbv zeta.
  destruct (fold_seg_step_keys (content_lines text) (content_lines_Forall text)
              {| sections := ∅; current_section := "general"; current_content := [] |})
    as (Hgen & Hkeys & Hseen).
  - apply lookup_empty.
  - intros key [? Hsome]. cbn [sections] in Hsome.
    rewrite lookup_empty in Hsome. discriminate Hsome.
  - left. reflexivity.
  - specialize (Hseen (or_intror Hex)).
    destruct (current_content _) as [|l ls]; [split; assumption|].
    split.
    + rewrite lookup_insert_ne; [exact Hgen|].
      intros Heq. apply general_is_no_section_name. rewrite <- Heq. exact Hseen.
    + intros key Hsome.
      match type of Hsome with
      | is_Some (<[?cur := _]> _ !! _) =>
          destruct (decide (cur = key)) as [<-|Hk];
          [exact Hseen|rewrite lookup_insert_ne in Hsome by exact Hk; apply Hkeys, Hsome]
      end.
Qed.

Lemma header_discards_general_witness :
  existsb is_header
          (content_lines ("John Doe" ++ newline ++ "SKILLS" ++ newline ++ "Python, Go"))
  = true
  /\ _extract_sections ("John Doe" ++ newline ++ "SKILLS" ++ newline ++ "Python, Go")
       !! "general" = None.
Proof.
  assert (Hex : existsb is_header
                  (content_lines ("John Doe" ++ newline ++ "SKILLS" ++ newline
                                  ++ "Python, Go")) = true)
    by (vm_compute; reflexivity).
  exact (conj Hex (proj1 (header_discards_general _ Hex))).
Defined.

(** X4: the lines after the last header, when there are any, are what the
    result holds under that header's tag; an earlier block under the same
    tag is overwritten. *)
Theorem last_section_content (text header name : string) (before body : list string) :
  content_lines text = before ++ header :: body ->
  header_of header = Some name ->
  forallb (fun line => negb (is_header line)) body = true ->
  body <> [] ->
  _extract_sections text !! name = Some (join newline body).
Proof.
  intros Hlines Hh Hbody Hne. rewrite extract_sections_unfold. cbv zeta.
  pose proof (content_lines_Forall text) as Hall. rewrite Hlines in Hall |- *.
  apply Forall_app in Hall as [_ Hall].
  inversion Hall as [|? ? (Hs & Hn) Hall']; subst.
  rewrite fold_left_app. cbn [fold_left].
  rewrite (seg_step_header _ header name Hs Hn Hh).
  rewrite fold_seg_step_plain.
  - cbn [current_content sections current_section app].
    destruct body as [|l ls]; [congruence|]. apply lookup_insert_eq.
  - rewrite forallb_forall in Hbody. rewrite List.Forall_forall in Hall' |- *.
    intros line Hin. destruct (Hall' line Hin) as [Hs' Hn'].
    split; [exact Hs'|]. split; [exact Hn'|]. apply negb_true_iff, Hbody, Hin.
Qed.

Lemma last_section_content_witness :
  _extract_sections ("SKILLS" ++ newline ++ "Java" ++ newline ++ "Skills"
                     ++ newline ++ " Python " ++ newline ++ "Go")
    !! "skills" = Some ("Python" ++ newline ++ "Go")%string.
Proof.
  apply (last_section_content _ "Skills" "skills" ["SKILLS"; "Java"] ["Python"; "Go"]).
  - vm_compute; reflexivity.
  - vm_compute; reflexivity.
  - vm_compute; reflexivity.
  - discriminate.
Defined.

(** The segmenter on normalized text: one line in, at most one section out. *)
Lemma extract_sections_normalized (text : string) :
  _extract_sections (_preprocess_text text)
  = if nonempty (_preprocess_text text) && negb (is_header (_preprocess_text text))
    then {["general" := _preprocess_text text]}
    else ∅.
Proof.
  pose proof (preprocess_single_line text) as Hnl.
  pose proof (preprocess_stripped text) as Hstrip.
  set (t := _preprocess_text text) in *. clearbody t.
  unfold _extract_sections. rewrite (split_single nl t Hnl).
  cbn [fold_left]. unfold seg_step, is_header. rewrite Hstrip.
  destruct (nonempty t) eqn:Hne; cbn [negb andb]; [|reflexivity].
  destruct (header_of t) as [name|] eqn:Hh.
  - rewrite bool_decide_eq_true_2 by eauto. reflexivity.
  - rewrite bool_decide_eq_false_2 by (intros [? H]; discriminate H).
    cbn. apply insert_empty.
Qed.

Lemma section_text_normalized (text key : string) :
  key <> "general" ->
  section_text (_extract_sections (_preprocess_text text)) key = EmptyString.
Proof.
  intros Hkey. rewrite extract_sections_normalized. unfold section_text.
  destruct (nonempty _ && negb _).
  - rewrite lookup_singleton_ne by congruence. reflexivity.
  - rewrite lookup_empty. reflexivity.
Qed.

Section WholeResume.
Context (experience_entries : string -> list Experience)
        (education_entries : string -> list Education)
        (project_entries : string -> list Project)
        (certification_lines : string -> list Certification)
        (language_matches : string -> list string).

(** X1: normalization turns every run of white space, line breaks
    included, into one space, so the segmenter sees a single line: for
    every input [parse_resume] finds either no section or "general" alone,
    and contact details, summary, experience, education, projects,
    certifications and languages all come out empty; only the skills, read
    off the whole text, can be filled. *)
Theorem parse_resume_finds_no_named_section (text : string) :
  let parsed := parse_resume experience_entries education_entries project_entries
                             certification_lines language_matches text in
  raw_text parsed = _preprocess_text text
  /\ parsed_sections parsed
     = (if nonempty (raw_text parsed) && negb (is_header (raw_text parsed))
        then {["general" := raw_text parsed]} else ∅)
  /\ contact_info parsed = empty_contact
  /\ summary parsed = None
  /\ experience parsed = []
  /\ education parsed = []
  /\ projects parsed = []
  /\ certifications parsed = []
  /\ languages parsed = []
  /\ skills parsed = _parse_skills "" (_preprocess_text text).
Proof.
  cbv zeta. unfold parse_resume.
  cbn [raw_text parsed_sections contact_info summary experience education projects
       certifications languages skills].
  rewrite !section_text_normalized by discriminate.
  split; [reflexivity|]. split; [apply extract_sections_normalized|].
  split; [vm_compute; reflexivity|].
  repeat (split; [reflexivity|]). reflexivity.
Qed.
End WholeResume.
End SegmentationFacts.

(** ** More on the stable sort *)

Module SortMoreFacts.
Import Recommender ClassifierFacts SortFacts.
Local Open Scope Q_scope.

Section SortMore.
Context {A : Type} (key : A -> Q).

(** Sorting a list that is in order already returns it as it is. *)
Lemma sort_desc_sorted_id (l : list A) :
  StronglySorted (fun a b => key b <= key a) l -> sort_desc key l = l.
Proof.
  induction 1 as [|x l Hs IH Hx]; [reflexivity|].
  cbn [sort_desc]. rewrite IH.
  destruct l as [|y l]; [reflexivity|]. cbn [insert_desc].
  inversion Hx as [|? ? Hy _]; subst.
  apply Qle_bool_iff in Hy. rewrite Hy. reflexivity.
Qed.

(** The order depends on the keys of the listed items only. *)
Lemma sort_desc_ext (key' : A -> Q) (l : list A) :
  Forall (fun x => key x = key' x) l -> sort_desc key l = sort_desc key' l.
Proof.
  induction 1 as [|x l Hx Hl IH]; [reflexivity|].
  cbn [sort_desc]. rewrite IH.
  assert (Hs : Forall (fun y => key y = key' y) (sort_desc key' l)).
  { eapply Permutation_Forall; [symmetry; apply sort_desc_perm|exact Hl]. }
  clear IH Hl. induction Hs as [|y s Hy Hs IH]; [reflexivity|].
  cbn [insert_desc]. rewrite Hx, Hy, IH. reflexivity.
Qed.

Lemma insert_desc_front (x : A) (l : list A) :
  Forall (fun y => key y <= key x) l -> insert_desc key x l = x :: l.
Proof.
  intros Hall. destruct l as [|y l]; [reflexivity|]. cbn [insert_desc].
  inversion Hall as [|? ? Hy _]; subst. apply Qle_bool_iff in Hy. rewrite Hy.
  reflexivity.
Qed.

Lemma insert_desc_filter (keep : A -> bool) (x : A) (l : list A) :
  StronglySorted (fun a b => key b <= key a) l ->
  List.filter keep (insert_desc key x l)
  = if keep x then insert_desc key x (List.filter keep l) else List.filter keep l.
Proof.
  induction 1 as [|y l Hs IH Hy]; cbn [insert_desc List.filter].
  - destruct (keep x); reflexivity.
  - destruct (Qle_bool (key y) (key x)) eqn:E.
    + cbn [List.filter]. destruct (keep x); [|reflexivity].
      change (if keep y then y :: List.filter keep l else List.filter keep l)
        with (List.filter keep (y :: l)).
      rewrite insert_desc_front; [reflexivity|].
      apply Qle_bool_iff in E.
      assert (Hall : Forall (fun z => key z <= key x) (y :: l)).
      { constructor; [exact E|]. eapply Forall_impl; [exact Hy|].
        intros z Hz. simpl in Hz. eapply Qle_trans; eassumption. }
      apply List.Forall_forall. intros z Hz. apply filter_In in Hz as [Hz _].
      rewrite List.Forall_forall in Hall. apply Hall, Hz.
    + cbn [List.filter]. rewrite IH.
      destruct (keep x); destruct (keep y); cbn [insert_desc]; rewrite ?E; reflexivity.
Qed.

(** Leaving items out before sorting or after it comes to the same. *)
Lemma sort_desc_filter (keep : A -> bool) (l : list A) :
  List.filter keep (sort_desc key l) = sort_desc key (List.filter keep l).
Proof.
  induction l as [|x l IH]; [reflexivity|].
  cbn [sort_desc List.filter].
  rewrite insert_desc_filter by apply sort_desc_sorted. rewrite IH.
  destruct (keep x); reflexivity.
Qed.
End SortMore.
End SortMoreFacts.

(** ** Summary, experience years and top skills *)

Module SummaryFacts.
Import Text Re Parser Recommender Props Notions ParserSummary.
Import TextFacts ClassifierFacts SortFacts SortMoreFacts SegmentationFacts.

Lemma count_char_app (c : ascii) (s t : string) :
  count_char c (s ++ t) = (count_char c s + count_char c t)%nat.
Proof. induction s as [|d s IH]; simpl; [reflexivity|]. rewrite IH. lia. Qed.

(** The pieces of a split hold no separator, and there is at least one. *)
Lemma split_pieces (sep : ascii) (s : string) :
  split sep s <> [] /\ Forall (fun piece => count_char sep piece = 0%nat) (split sep s).
Proof.
  induction s as [|c s [Hne IH]]; simpl.
  - split; [discriminate|]. repeat constructor.
  - destruct (Ascii.eqb c sep) eqn:E.
    + split; [discriminate|]. constructor; [reflexivity|exact IH].
    + destruct (split sep s) as [|p ps]; [congruence|].
      split; [discriminate|]. inversion IH as [|? ? Hp Hps]; subst.
      constructor; [|exact Hps]. simpl. rewrite E, Hp. reflexivity.
Qed.

Lemma append_empty_r (s : string) : (s ++ "")%string = s.
Proof.
  induction s as [|c s IH]; [reflexivity|].
  change (String c s ++ "")%string with (String c (s ++ "")%string).
  rewrite IH. reflexivity.
Qed.

(** X7: the summary is absent exactly for an empty section; otherwise it
    starts with the text up to the first period and holds at most one
    period. *)
Theorem summary_shape (text : string) :
  match _parse_summary text with
  | None => text = EmptyString
  | Some s =>
      text <> EmptyString
      /\ (count_char "." s <= 1)%nat
      /\ exists first others rest,
           split "." text = first :: others /\ s = (first ++ rest)%string
  end.
Proof.
  unfold _parse_summary. destruct text as [|c text]; [reflexivity|].
  cbn [nonempty negb].
  destruct (split_pieces "." (String c text)) as [Hne Hpieces].
  destruct (split "." (String c text)) as [|first others]; [congruence|].
  inversion Hpieces as [|? ? Hfirst Hothers]; subst.
  split; [discriminate|].
  destruct (20 <? String.length first)%nat.
  - split; [rewrite Hfirst; lia|].
    exists first, others, EmptyString. split; [reflexivity|].
    symmetry. apply append_empty_r.
  - destruct others as [|second others]; cbn [firstn join].
    + split; [rewrite Hfirst; lia|].
      exists first, [], EmptyString. split; [reflexivity|].
      symmetry. apply append_empty_r.
    + inversion Hothers as [|? ? Hsecond _]; subst.
      split.
      * rewrite count_char_app, Hfirst. simpl. rewrite ?count_char_app, Hsecond.
        simpl. lia.
      * exists first, (second :: others), (". " ++ second)%string.
        split; reflexivity.
Qed.

Lemma fold_add_experience (experiences : list Experience) :
  forall total,
    fold_left add_experience experiences total
    = (total + fold_left add_experience experiences 0)%Z.
Proof.
  induction experiences as [|exp exps IH]; intros total; cbn [fold_left]; [lia|].
  rewrite (IH (add_experience total exp)), (IH (add_experience 0 exp)).
  unfold add_experience.
  destruct (py_in "present" (lower (exp_duration exp))); [lia|].
  destruct (findall false year_pattern (exp_duration exp)) as [|y0 [|y1 ys]]; lia.
Qed.

(** X8: the experience total is the sum of what each entry contributes:
    the total of two lists put together is the sum of their totals. *)
Theorem experience_years_additive (earlier later : list Experience) :
  _calculate_experience_years (earlier ++ later)
  = (_calculate_experience_years earlier + _calculate_experience_years later)%Z.
Proof.
  unfold _calculate_experience_years. rewrite fold_left_app.
  apply fold_add_experience.
Qed.

(** *** Counting skills *)

Lemma bump_keys (skill : string) (counts : list (string * nat)) (key : string) :
  In key (map fst (bump skill counts)) <-> key = skill \/ In key (map fst counts).
Proof.
  induction counts as [|[s n] counts IH]; cbn [bump map fst In].
  - intuition congruence.
  - destruct (String.eqb s skill) eqn:E; cbn [map fst In].
    + apply String.eqb_eq in E. subst s. intuition congruence.
    + rewrite IH. tauto.
Qed.

Lemma bump_NoDup (skill : string) (counts : list (string * nat)) :
  List.NoDup (map fst counts) -> List.NoDup (map fst (bump skill counts)).
Proof.
  induction counts as [|[s n] counts IH]; cbn [bump map fst]; intros Hnd.
  - repeat constructor. intros [].
  - apply List.NoDup_cons_iff in Hnd as [Hs Hnd].
    destruct (String.eqb s skill) eqn:E; cbn [map fst].
    + constructor; assumption.
    + constructor; [|apply IH, Hnd].
      rewrite bump_keys. intros [->|Hin]; [|contradiction].
      rewrite String.eqb_refl in E. discriminate E.
Qed.

Lemma bump_fresh (skill : string) (counts : list (string * nat)) :
  ~ In skill (map fst counts) -> bump skill counts = counts ++ [(skill, 1%nat)].
Proof.
  induction counts as [|[s n] counts IH]; cbn [bump map fst In app]; intros Hnin;
    [reflexivity|].
  destruct (String.eqb s skill) eqn:E.
  - apply String.eqb_eq in E. tauto.
  - rewrite IH by tauto. reflexivity.
Qed.

Lemma fold_bump_keys (skills : list string) :
  forall counts,
    List.NoDup (map fst counts) ->
    List.NoDup (map fst (fold_left (fun c s => bump s c) skills counts))
    /\ forall key,
        In key (map fst (fold_left (fun c s => bump s c) skills counts)) ->
        In key (map fst counts) \/ In key skills.
Proof.
  induction skills as [|s skills IH]; intros counts Hnd; cbn [fold_left].
  - split; [exact Hnd|]. intros key Hin. left. exact Hin.
  - destruct (IH (bump s counts) (bump_NoDup s counts Hnd)) as [Hnd' Hkeys].
    split; [exact Hnd'|]. intros key Hin.
    destruct (Hkeys key Hin) as [Hb|Hs]; [|right; right; exact Hs].
    apply bump_keys in Hb as [->|Hc]; [right; left; reflexivity|left; exact Hc].
Qed.

(** Skills that are all different are each counted once, in their order. *)
Lemma fold_bump_distinct (skills : list string) :
  forall counts,
    List.NoDup (map fst counts ++ skills) ->
    fold_left (fun c s => bump s c) skills counts
    = counts ++ map (fun s => (s, 1%nat)) skills.
Proof.
  induction skills as [|s skills IH]; intros counts Hnd; cbn [fold_left map].
  - rewrite app_nil_r. reflexivity.
  - assert (Hfresh : ~ In s (map fst counts)).
    { intros Hin. apply NoDup_remove_2 in Hnd. apply Hnd.
      apply in_or_app. left. exact Hin. }
    rewrite (bump_fresh s counts Hfresh), IH.
    + rewrite <- app_assoc. reflexivity.
    + rewrite map_app, <- app_assoc. cbn [map fst app].
      eapply Permutation_NoDup; [|exact Hnd].
      apply Permutation_app_head. reflexivity.
Qed.

Lemma top_skills_unfold (skills : list (string * list string)) :
  _get_top_skills skills
  = firstn 10 (map fst (sort_desc count_key
                          (fold_left (fun c s => bump s c) (all_skills_of skills) []))).
Proof. unfold _get_top_skills. cbv zeta. rewrite firstn_map. reflexivity. Qed.

(** X9: the top skills are at most ten, no skill is listed twice, and each
    is a skill of the resume. *)
Theorem top_skills_bounded_distinct (skills : list (string * list string)) :
  (List.length (_get_top_skills skills) <= 10)%nat
  /\ List.NoDup (_get_top_skills skills)
  /\ Forall (fun skill => In skill (all_skills_of skills)) (_get_top_skills skills).
Proof.
  rewrite top_skills_unfold.
  destruct (fold_bump_keys (all_skills_of skills) [] (List.NoDup_nil _)) as [Hnd Hkeys].
  set (counts := fold_left _ (all_skills_of skills) []) in *.
  assert (Hperm : Permutation (map fst (sort_desc count_key counts)) (map fst counts))
    by apply Permutation_map, sort_desc_perm.
  split; [apply firstn_le_length|]. split.
  - apply (NoDup_app_remove_r _ (skipn 10 (map fst (sort_desc count_key counts)))).
    rewrite firstn_skipn. eapply Permutation_NoDup; [symmetry; exact Hperm|exact Hnd].
  - apply List.Forall_forall. intros skill Hin.
    assert (Hin' : In skill (map fst (sort_desc count_key counts)))
      by (rewrite <- (firstn_skipn 10); apply in_or_app; left; exact Hin).
    apply (Permutation_in _ Hperm) in Hin'. rename Hin' into Hall. clear Hin.
    rename Hall into Hin.
    destruct (Hkeys skill Hin) as [[]|Hs]. exact Hs.
Qed.

Lemma count_key_sorted (skills : list string) :
  StronglySorted (fun a b => (count_key b <= count_key a)%Q)
                 (map (fun s => (s, 1%nat)) skills).
Proof.
  induction skills as [|s skills IH]; cbn [map]; constructor; [exact IH|].
  apply List.Forall_forall. intros item Hin.
  apply in_map_iff in Hin as (s' & <- & _). apply Qle_refl.
Qed.

(** X10: when no skill is listed twice the frequency ranking has nothing
    to reorder: the top skills are the first ten in category order. *)
Theorem top_skills_first_ten (skills : list (string * list string)) :
  List.NoDup (all_skills_of skills) ->
  _get_top_skills skills = firstn 10 (all_skills_of skills).
Proof.
  intros Hnd. rewrite top_skills_unfold.
  rewrite (fold_bump_distinct (all_skills_of skills) []) by exact Hnd.
  cbn [app]. rewrite (sort_desc_sorted_id count_key _ (count_key_sorted _)).
  rewrite map_map. cbn [fst]. rewrite map_id. reflexivity.
Qed.

Lemma top_skills_first_ten_witness :
  List.NoDup (all_skills_of [("frameworks", ["react"; "django"]); ("other", ["Kafka"])])
  /\ _get_top_skills [("frameworks", ["react"; "django"]); ("other", ["Kafka"])]
     = ["react"; "django"; "Kafka"].
Proof.
  assert (Hnd : List.NoDup (all_skills_of [("frameworks", ["react"; "django"]);
                                           ("other", ["Kafka"])])).
  { unfold all_skills_of. cbn [map snd concat app].
    repeat constructor; cbn [In]; intros H;
      repeat (destruct H as [H|H]; [discriminate H|]); exact H. }
  exact (conj Hnd (top_skills_first_ten _ Hnd)).
Defined.

(** *** The skills of a parse *)

Lemma parse_skills_unfold (skills_text full_text : string) :
  _parse_skills skills_text full_text
  = List.filter (fun kv => match snd kv with [] => false | _ => true end)
                (categorized_skills skills_text full_text
                 ++ [("other", other_skills skills_text full_text)]).
Proof. reflexivity. Qed.

Lemma lower_char_idem (c : ascii) : lower_char (lower_char c) = lower_char c.
Proof.
  destruct c as [[] [] [] [] [] [] [] []]; reflexivity.
Qed.

Lemma lower_idem (s : string) : lower (lower s) = lower s.
Proof.
  induction s as [|c s IH]; [reflexivity|].
  cbn [lower]. rewrite lower_char_idem, IH. reflexivity.
Qed.

Lemma prefix_ci_lower (m t : string) : prefix_ci (lower m) t = prefix_ci m t.
Proof.
  revert t. induction m as [|a m IH]; intros t; [reflexivity|].
  destruct t as [|b t]; [reflexivity|].
  cbn [lower prefix_ci]. rewrite lower_char_idem, IH. reflexivity.
Qed.

Lemma occurs_ci_lower (m t : string) : occurs_ci (lower m) t = occurs_ci m t.
Proof.
  induction t as [|b t IH]; cbn [occurs_ci]; rewrite prefix_ci_lower; [reflexivity|].
  rewrite IH. reflexivity.
Qed.

(** The test [skill.lower() in text.lower()] is case-insensitive occurrence. *)
Lemma lowered_search (skill text : string) :
  py_in (lower skill) (lower text) = occurs_ci skill text.
Proof. rewrite py_in_lower by apply lower_idem. apply occurs_ci_lower. Qed.

Lemma filter_sublist {A : Type} (keep : A -> bool) (l : list A) :
  sublist (List.filter keep l) l.
Proof.
  induction l as [|x l IH]; cbn [List.filter]; [constructor|].
  destruct (keep x); [apply sublist_skip|apply sublist_cons]; exact IH.
Qed.

Lemma taxonomy_has_no_other : ~ In "other" (map fst skill_categories).
Proof.
  unfold skill_categories. cbn [map fst In]. intros H.
  repeat (destruct H as [H|H]; [discriminate H|]). exact H.
Qed.

Lemma categorized_entry (skills_text full_text category : string) (found : list string) :
  In (category, found) (categorized_skills skills_text full_text) ->
  exists taxonomy,
    In (category, taxonomy) skill_categories
    /\ found = List.filter
                 (fun skill =>
                    py_in (lower skill)
                          (lower (skills_search_text skills_text full_text)))
                 taxonomy.
Proof.
  unfold categorized_skills. intros Hin.
  apply in_map_iff in Hin as ([cat taxonomy] & Heq & Hin).
  injection Heq as <- <-. exists taxonomy. split; [exact Hin|reflexivity].
Qed.

(** X5: every entry of the skills of a parse has at least one skill; an
    entry other than "other" carries a taxonomy category, and its skills
    are terms of that category, in taxonomy order, each occurring in the
    searched text whatever the letter case. *)
Theorem parse_skills_entries (skills_text full_text : string) :
  Forall
    (fun entry =>
       snd entry <> []
       /\ (fst entry = "other"
           \/ exists taxonomy,
                In (fst entry, taxonomy) skill_categories
                /\ sublist (snd entry) taxonomy
                /\ Forall (fun skill =>
                             occurs_ci skill
                                       (skills_search_text skills_text full_text)
                             = true)
                          (snd entry)))
    (_parse_skills skills_text full_text).
Proof.
  rewrite parse_skills_unfold. apply List.Forall_forall. intros [category found] Hin.
  apply filter_In in Hin as [Hin Hne]. cbn [fst snd] in *.
  split; [destruct found; [discriminate Hne|discriminate]|].
  apply in_app_or in Hin as [Hin|[Heq|[]]]; [right|left; congruence].
  destruct (categorized_entry _ _ _ _ Hin) as (taxonomy & Htax & ->).
  exists taxonomy. split; [exact Htax|]. split; [apply filter_sublist|].
  apply List.Forall_forall. intros skill Hs. apply filter_In in Hs as [_ Hs].
  rewrite lowered_search in Hs. exact Hs.
Qed.

(** The "other" bucket as the loop builds it. *)
Lemma other_fold_invariant (known candidates : list string) :
  forall other,
    Forall (fun skill => (2 < String.length skill)%nat
                         /\ ~ In (lower skill) (map lower known)) other ->
    List.NoDup (map lower other) ->
    Forall (fun skill => (2 < String.length skill)%nat
                         /\ ~ In (lower skill) (map lower known))
           (fold_left (other_step known) candidates other)
    /\ List.NoDup (map lower (fold_left (other_step known) candidates other)).
Proof.
  induction candidates as [|skill candidates IH]; intros other Hall Hnd;
    cbn [fold_left]; [split; assumption|].
  apply IH; unfold other_step;
    destruct ((2 <? String.length skill)%nat
              && negb (existsb (String.eqb (lower skill)) (map lower (known ++ other))))
      eqn:E; try assumption;
    apply andb_prop in E as [Hlen Hnew]; apply Nat.ltb_lt in Hlen;
    apply negb_true_iff in Hnew;
    assert (Hfresh : ~ In (lower skill) (map lower (known ++ other)))
      by (intros Hin;
          assert (Hex : existsb (String.eqb (lower skill)) (map lower (known ++ other))
                        = true)
            by (apply existsb_exists; exists (lower skill); split;
                [exact Hin|apply String.eqb_refl]);
          congruence).
  - apply Forall_app_2; [exact Hall|]. constructor; [|constructor].
    split; [exact Hlen|]. intros Hin. apply Hfresh.
    rewrite map_app. apply in_or_app. left. exact Hin.
  - rewrite map_app. cbn [map].
    apply List.NoDup_app; [exact Hnd|repeat constructor; intros []|].
    intros a Ha [<-|[]]. apply Hfresh. rewrite map_app. apply in_or_app. right. exact Ha.
Qed.

Lemma other_skills_invariant (skills_text full_text : string) :
  Forall (fun skill =>
            (2 < String.length skill)%nat
            /\ ~ In (lower skill)
                    (map lower (concat (map snd (categorized_skills skills_text
                                                                     full_text)))))
         (other_skills skills_text full_text)
  /\ List.NoDup (map lower (other_skills skills_text full_text)).
Proof.
  unfold other_skills. apply other_fold_invariant; constructor.
Qed.

Lemma other_entry (skills_text full_text : string) (other : list string) :
  In ("other", other) (_parse_skills skills_text full_text) ->
  other = other_skills skills_text full_text.
Proof.
  rewrite parse_skills_unfold. intros Hin. apply filter_In in Hin as [Hin _].
  apply in_app_or in Hin as [Hin|[Heq|[]]]; [|congruence].
  exfalso. apply taxonomy_has_no_other.
  destruct (categorized_entry _ _ _ _ Hin) as (taxonomy & Htax & _).
  apply (in_map fst) in Htax. exact Htax.
Qed.

(** X6: the phrases kept under "other" are longer than two characters,
    none is a taxonomy skill already found, and no two of them are equal,
    letter case set aside. *)
Theorem other_skills_fresh_distinct (skills_text full_text : string)
        (other : list string) :
  In ("other", other) (_parse_skills skills_text full_text) ->
  Forall (fun skill =>
            (2 < String.length skill)%nat
            /\ ~ In (lower skill)
                    (map lower (concat (map snd (categorized_skills skills_text
                                                                     full_text)))))
         other
  /\ List.NoDup (map lower other).
Proof.
  intros Hin. rewrite (other_entry _ _ _ Hin). apply other_skills_invariant.
Qed.

Lemma other_skills_fresh_distinct_witness :
  In ("other", ["Apache Kafka"; "Acme"])
     (_parse_skills "Python, Apache Kafka, python, Go" "apache kafka at Acme")
  /\ List.NoDup (map lower ["Apache Kafka"; "Acme"]).
Proof.
  assert (Hin : In ("other", ["Apache Kafka"; "Acme"])
                   (_parse_skills "Python, Apache Kafka, python, Go"
                                  "apache kafka at Acme")).
  { vm_compute. right. left. reflexivity. }
  exact (conj Hin (proj2 (other_skills_fresh_distinct _ _ _ Hin))).
Defined.

Lemma taxonomy_distinct : List.NoDup (concat (map snd skill_categories)).
Proof. apply NoDup_ListNoDup, (bool_decide_unpack _). vm_compute. exact I. Qed.

Lemma categorized_concat (skills_text full_text : string) :
  concat (map snd (categorized_skills skills_text full_text))
  = List.filter (fun skill =>
                   py_in (lower skill) (lower (skills_search_text skills_text full_text)))
                (concat (map snd skill_categories)).
Proof.
  unfold categorized_skills. rewrite <- concat_filter_map, !map_map.
  f_equal; apply map_ext; intros [category taxonomy]; reflexivity.
Qed.

Lemma all_skills_nonempty_entries (entries : list (string * list string)) :
  all_skills_of (List.filter (fun kv => match snd kv with [] => false | _ => true end)
                             entries)
  = all_skills_of entries.
Proof.
  unfold all_skills_of. induction entries as [|[category found] entries IH];
    [reflexivity|].
  cbn [List.filter snd]. destruct found as [|skill found]; cbn [map concat snd];
    rewrite IH; reflexivity.
Qed.

(** No skill is listed twice in a parse. *)
Lemma parse_skills_distinct (skills_text full_text : string) :
  List.NoDup (all_skills_of (_parse_skills skills_text full_text)).
Proof.
  rewrite parse_skills_unfold, all_skills_nonempty_entries.
  unfold all_skills_of. rewrite map_app, concat_app. cbn [map snd concat].
  rewrite app_nil_r.
  destruct (other_skills_invariant skills_text full_text) as [Hother Hnd].
  apply List.NoDup_app.
  - rewrite categorized_concat. apply List.NoDup_filter, taxonomy_distinct.
  - eapply List.NoDup_map_inv, Hnd.
  - intros skill Hknown Hin. rewrite List.Forall_forall in Hother.
    destruct (Hother skill Hin) as [_ Hfresh]. apply Hfresh.
    apply in_map, Hknown.
Qed.

Lemma parsed_top_skills_helper (skills_text full_text : string) :
  _get_top_skills (_parse_skills skills_text full_text)
  = firstn 10 (all_skills_of (_parse_skills skills_text full_text)).
Proof.
  rewrite top_skills_unfold.
  rewrite (fold_bump_distinct _ []) by apply parse_skills_distinct.
  cbn [app]. rewrite (sort_desc_sorted_id count_key _ (count_key_sorted _)).
  rewrite map_map. cbn [fst]. rewrite map_id. reflexivity.
Qed.

(** X11: in the skills of a parse every skill is counted once, so the top
    skills of a parsed resume are its first ten skills in category order. *)
Theorem parsed_top_skills_first_ten (skills_text full_text : string) :
  _get_top_skills (_parse_skills skills_text full_text)
  = firstn 10 (all_skills_of (_parse_skills skills_text full_text))
  /\ List.NoDup (all_skills_of (_parse_skills skills_text full_text)).
Proof.
  split; [apply parsed_top_skills_helper|apply parse_skills_distinct].
Qed.

Section WholeSummary.
Context (experience_entries : string -> list Experience)
        (education_entries : string -> list Education)
        (project_entries : string -> list Project)
        (certification_lines : string -> list Certification)
        (language_matches : string -> list string).

(** X12: whatever the resume, the summary of its parse reports no contact
    detail, no summary text, 0 years of experience and 0 experiences,
    projects, certifications and education entries; its skill counts are
    the sizes of the skill lists. *)
Theorem parsed_summary_reports_skills_only (text : string) :
  let report :=
    get_parsed_summary
      (parse_resume experience_entries education_entries project_entries
                    certification_lines language_matches text) in
  sum_contact_info report
  = {| sum_name := None; sum_email := None; sum_phone := None; sum_location := None;
       sum_linkedin := None; sum_github := None |}
  /\ sum_summary report = None
  /\ total_experience_years report = 0%Z
  /\ experience_count report = 0%nat
  /\ project_count report = 0%nat
  /\ certification_count report = 0%nat
  /\ education_count report = 0%nat
  /\ sum_languages report = []
  /\ skills_summary report
     = map (fun kv => (fst kv, List.length (snd kv)))
           (_parse_skills "" (_preprocess_text text))
  /\ top_skills report
     = firstn 10 (all_skills_of (_parse_skills "" (_preprocess_text text))).
Proof.
  cbv zeta. unfold get_parsed_summary, parse_resume.
  cbn [sum_contact_info sum_summary total_experience_years experience_count
       project_count certification_count education_count sum_languages
       skills_summary top_skills contact_info summary experience projects
       certifications education languages skills].
  rewrite !section_text_normalized by discriminate.
  split; [vm_compute; reflexivity|].
  repeat (split; [reflexivity|]).
  apply parsed_top_skills_helper.
Qed.
End WholeSummary.
End SummaryFacts.

(** ** More on the classifier: the top three, the flags, case and growth *)

Module ClassifierMoreFacts.
Import Text Recommender Props TextFacts ClassifierFacts SortFacts SortMoreFacts.
Local Open Scope Q_scope.

Lemma Qlt_bool_intro (a b : Q) : a < b -> Qlt_bool a b = true.
Proof.
  intros H. unfold Qlt_bool. apply negb_true_iff.
  destruct (Qle_bool b a) eqn:E; [|reflexivity].
  apply Qle_bool_iff in E. exfalso. apply (Qlt_not_le _ _ H E).
Qed.

Lemma Qle_bool_false (a b : Q) : Qle_bool a b = false -> b < a.
Proof.
  intros H. apply Qnot_le_lt. intros Hle. apply Qle_bool_iff in Hle. congruence.
Qed.

Ltac order_cases :=
  repeat match goal with
         | |- context [Qle_bool ?a ?b] =>
             let E := fresh "E" in
             destruct (Qle_bool a b) eqn:E;
             [apply Qle_bool_iff in E|apply Qle_bool_false in E]
         | |- context [Qlt_bool ?a ?b] =>
             let E := fresh "E" in
             destruct (Qlt_bool a b) eqn:E;
             [apply Qlt_bool_true in E|apply Qlt_bool_false in E]
         end;
  try reflexivity; try (exfalso; lra).

Section FirstMaximum.
Context {A : Type} (key : A -> Q).

(** [max] scanned from the left agrees with this reading from the right. *)
Lemma py_max_cons (dflt x y : A) (l : list A) :
  py_max key dflt (x :: y :: l)
  = if Qle_bool (key (py_max key dflt (y :: l))) (key x) then x
    else py_max key dflt (y :: l).
Proof.
  revert x y. induction l as [|z l IH]; intros x y.
  - cbn [py_max fold_left]. unfold pick. order_cases.
  - change (py_max key dflt (x :: y :: z :: l))
      with (py_max key dflt (pick key x y :: z :: l)).
    rewrite (IH (pick key x y) z), (IH y z).
    set (m := py_max key dflt (z :: l)). unfold pick.
    destruct (Qlt_bool (key x) (key y)) eqn:Exy;
      [apply Qlt_bool_true in Exy|apply Qlt_bool_false in Exy];
      destruct (Qle_bool (key m) (key y)) eqn:Emy;
      [apply Qle_bool_iff in Emy|apply Qle_bool_false in Emy
      |apply Qle_bool_iff in Emy|apply Qle_bool_false in Emy];
      order_cases.
Qed.

(** The stable descending sort starts with the item [max] selects. *)
Lemma sort_desc_head (dflt x : A) (l : list A) :
  exists rest, sort_desc key (x :: l) = py_max key dflt (x :: l) :: rest.
Proof.
  revert x. induction l as [|y l IH]; intros x.
  - exists []. reflexivity.
  - destruct (IH y) as [rest Hrest].
    change (sort_desc key (x :: y :: l))
      with (insert_desc key x (sort_desc key (y :: l))).
    rewrite Hrest, py_max_cons. cbn [insert_desc].
    destruct (Qle_bool (key (py_max key dflt (y :: l))) (key x)); eexists; reflexivity.
Qed.

(** The first three of the sorted items. *)
Lemma sort_desc_top_three (dflt : A) (items : list A) :
  (3 <= List.length items)%nat ->
  exists second third others,
    firstn 3 (sort_desc key items) = [py_max key dflt items; second; third]
    /\ key third <= key second
    /\ key second <= key (py_max key dflt items)
    /\ Permutation (py_max key dflt items :: second :: third :: others) items
    /\ Forall (fun d => key d <= key third) others.
Proof.
  intros Hlen.
  pose proof (sort_desc_perm key items) as Hperm.
  pose proof (sort_desc_sorted key items) as Hsorted.
  destruct items as [|x l]; [simpl in Hlen; lia|].
  destruct (sort_desc_head dflt x l) as [rest Hhead].
  rewrite Hhead in Hperm, Hsorted |- *.
  pose proof (Permutation_length Hperm) as Hlen'.
  destruct rest as [|second [|third others]];
    [simpl in Hlen, Hlen'; lia|simpl in Hlen, Hlen'; lia|].
  exists second, third, others.
  inversion Hsorted as [|? ? Hs1 Hbest]; subst.
  inversion Hs1 as [|? ? Hs2 Hsecond]; subst.
  inversion Hs2 as [|? ? _ Hthird]; subst.
  inversion Hbest as [|? ? Hb _]; subst.
  inversion Hsecond as [|? ? Hc _]; subst.
  split; [reflexivity|]. split; [exact Hc|]. split; [exact Hb|].
  split; [exact Hperm|exact Hthird].
Qed.
End FirstMaximum.

Lemma top_domains_unfold (resume_text : string) :
  top_domains (analyze_resume_type resume_text)
  = firstn 3 (sort_desc item_score (domain_scores resume_text)).
Proof. reflexivity. Qed.

(** X13: the three top domains are the best three in non-increasing order
    of score, the first of them being the primary domain itself; no domain
    left out scores higher than the third. *)
Theorem top_domains_lead_with_primary (resume_text : string) :
  exists entry second third others,
    top_domains (analyze_resume_type resume_text)
    = [(primary_domain (analyze_resume_type resume_text), entry); second; third]
    /\ score entry = primary_score (analyze_resume_type resume_text)
    /\ item_score third <= item_score second
    /\ item_score second <= primary_score (analyze_resume_type resume_text)
    /\ Permutation
         ((primary_domain (analyze_resume_type resume_text), entry)
            :: second :: third :: others)
         (all_domains (analyze_resume_type resume_text))
    /\ Forall (fun d => item_score d <= item_score third) others.
Proof.
  rewrite top_domains_unfold, all_domains_unfold, primary_domain_unfold,
    primary_score_unfold.
  unfold primary_item.
  assert (Hlen : (3 <= List.length (domain_scores resume_text))%nat)
    by (unfold domain_scores; rewrite length_map; cbn; lia).
  generalize dependent (domain_scores resume_text). intros items Hlen.
  destruct (sort_desc_top_three item_score ("", empty_score) items Hlen)
    as (second & third & others & Htop & Hc & Hb & Hperm & Hrest).
  exists (snd (py_max item_score ("", empty_score) items)), second, third, others.
  rewrite <- surjective_pairing.
  split; [exact Htop|]. split; [reflexivity|]. split; [exact Hc|].
  split; [exact Hb|]. split; [exact Hperm|exact Hrest].
Qed.

(** X14: the flags agree with one another: a specialized profile has a
    strong focus, and a profile with several skill areas has a primary
    score above 20. *)
Theorem flags_are_coherent (resume_text : string) :
  implb (is_specialized (analyze_resume_type resume_text))
        (is_strong_focus (analyze_resume_type resume_text)) = true
  /\ implb (has_multiple_skills (analyze_resume_type resume_text))
           (Qlt_bool 20 (primary_score (analyze_resume_type resume_text))) = true.
Proof.
  split.
  - change (implb (Qlt_bool 50 (item_score (primary_item resume_text)))
                  (Qlt_bool 30 (item_score (primary_item resume_text))) = true).
    destruct (Qlt_bool 50 _) eqn:E; [|reflexivity].
    apply Qlt_bool_true in E. cbn [implb]. apply Qlt_bool_intro. lra.
  - change (implb (1 <? List.length
                          (List.filter (fun d => Qlt_bool 20 (item_score d))
                                       (domain_scores resume_text)))%nat
                  (Qlt_bool 20 (item_score (primary_item resume_text))) = true).
    destruct (1 <? _)%nat eqn:E; [|reflexivity]. cbn [implb].
    apply Nat.ltb_lt in E.
    destruct (List.filter _ (domain_scores resume_text)) as [|d ds] eqn:Hf;
      [simpl in E; lia|].
    assert (Hd : In d (List.filter (fun d => Qlt_bool 20 (item_score d))
                                   (domain_scores resume_text)))
      by (rewrite Hf; left; reflexivity).
    apply filter_In in Hd as [Hin Hd]. apply Qlt_bool_true in Hd.
    pose proof (py_max_upper item_score ("", empty_score) (domain_scores resume_text))
      as Hmax.
    rewrite List.Forall_forall in Hmax. specialize (Hmax d Hin).
    apply Qlt_bool_intro. unfold primary_item. lra.
Qed.

(** X15: the classification reads the text through [lower] and its
    length only.  Two resumes with the same lower-case form get the same
    primary domain, primary score, subdomain, domain scores, top domains
    and flags; when they also have the same length they get the same
    analysis. *)
Theorem analysis_ignores_case (resume_text other_text : string) :
  lower resume_text = lower other_text ->
  primary_domain (analyze_resume_type resume_text)
  = primary_domain (analyze_resume_type other_text)
  /\ primary_score (analyze_resume_type resume_text)
     = primary_score (analyze_resume_type other_text)
  /\ subdomain (analyze_resume_type resume_text)
     = subdomain (analyze_resume_type other_text)
  /\ all_domains (analyze_resume_type resume_text)
     = all_domains (analyze_resume_type other_text)
  /\ top_domains (analyze_resume_type resume_text)
     = top_domains (analyze_resume_type other_text)
  /\ is_strong_focus (analyze_resume_type resume_text)
     = is_strong_focus (analyze_resume_type other_text)
  /\ has_multiple_skills (analyze_resume_type resume_text)
     = has_multiple_skills (analyze_resume_type other_text)
  /\ is_specialized (analyze_resume_type resume_text)
     = is_specialized (analyze_resume_type other_text)
  /\ (String.length resume_text = String.length other_text ->
      analyze_resume_type resume_text = analyze_resume_type other_text).
Proof.
  intros Hlow.
  assert (Hscores : domain_scores resume_text = domain_scores other_text).
  { unfold domain_scores, score_domain, total_score, matches. rewrite Hlow.
    reflexivity. }
  assert (Hsub : forall domain,
             detect_subdomain resume_text domain = detect_subdomain other_text domain).
  { intros domain. unfold detect_subdomain. rewrite Hlow. reflexivity. }
  unfold analyze_resume_type, primary_item, top_items.
  cbv beta iota delta [primary_domain primary_score subdomain all_domains top_domains
                       is_strong_focus has_multiple_skills is_specialized].
  rewrite Hscores, Hsub.
  repeat (split; [reflexivity|]).
  intros Hlen. rewrite Hlen. reflexivity.
Qed.

Lemma analysis_ignores_case_witness :
  lower "PYTHON and Django" = lower "python AND django"
  /\ String.length "PYTHON and Django" = String.length "python AND django"
  /\ analyze_resume_type "PYTHON and Django" = analyze_resume_type "python AND django".
Proof.
  assert (Hlow : lower "PYTHON and Django" = lower "python AND django")
    by (vm_compute; reflexivity).
  split; [exact Hlow|]. split; [reflexivity|].
  destruct (analysis_ignores_case _ _ Hlow) as (_ & _ & _ & _ & _ & _ & _ & _ & Hall).
  apply Hall. reflexivity.
Defined.

(** *** Growth *)

Lemma lower_app (s t : string) : lower (s ++ t) = (lower s ++ lower t)%string.
Proof.
  induction s as [|c s IH]; [reflexivity|].
  change (lower (String c s ++ t)) with (String (lower_char c) (lower (s ++ t))).
  rewrite IH. reflexivity.
Qed.

Lemma startswith_app (m t after : string) :
  startswith m t = true -> startswith m (t ++ after) = true.
Proof.
  revert t. induction m as [|a m IH]; intros t H; [reflexivity|].
  destruct t as [|b t]; [discriminate H|].
  cbn [startswith] in H. apply andb_prop in H as [Hab Hm].
  change (String b t ++ after)%string with (String b (t ++ after)).
  cbn [startswith]. rewrite Hab, (IH t Hm). reflexivity.
Qed.

Lemma py_in_app_r (m t after : string) :
  py_in m t = true -> py_in m (t ++ after) = true.
Proof.
  induction t as [|b t IH]; intros H.
  - cbn [py_in] in H. rewrite orb_false_r in H.
    destruct m as [|a m]; [|discriminate H].
    destruct after; reflexivity.
  - change (String b t ++ after)%string with (String b (t ++ after)).
    cbn [py_in] in H |- *. apply orb_prop in H as [H|H].
    + change (String b (t ++ after)) with (String b t ++ after)%string.
      rewrite (startswith_app _ _ _ H). reflexivity.
    + rewrite (IH H). apply orb_true_r.
Qed.

Lemma py_in_app_l (m before t : string) :
  py_in m t = true -> py_in m (before ++ t) = true.
Proof.
  intros H. induction before as [|b before IH]; [exact H|].
  change (String b before ++ t)%string with (String b (before ++ t)).
  cbn [py_in]. rewrite IH. apply orb_true_r.
Qed.

(** What occurs in a text still occurs once text is put around it. *)
Lemma py_in_grow (m before t after : string) :
  py_in m t = true -> py_in m (before ++ t ++ after) = true.
Proof. intros H. apply py_in_app_l, py_in_app_r, H. Qed.

Lemma filter_length_mono {A : Type} (p q : A -> bool) (l : list A) :
  (forall x, p x = true -> q x = true) ->
  (List.length (List.filter p l) <= List.length (List.filter q l))%nat.
Proof.
  intros Hpq. induction l as [|x l IH]; [reflexivity|].
  cbn [List.filter]. destruct (p x) eqn:Hp.
  - rewrite (Hpq x Hp). simpl. lia.
  - destruct (q x); simpl; lia.
Qed.

Lemma matches_grow (terms : list string) (before resume_text after : string) :
  (List.length (matches terms resume_text)
   <= List.length (matches terms (before ++ resume_text ++ after)))%nat.
Proof.
  unfold matches. apply filter_length_mono. intros term H.
  rewrite !lower_app. apply py_in_grow, H.
Qed.

Lemma bucket_score_mono (found found' terms : list string) (weight : Q) :
  (List.length found <= List.length found')%nat -> 0 <= weight ->
  bucket_score found terms weight <= bucket_score found' terms weight.
Proof.
  intros Hlen Hw. unfold bucket_score.
  apply Qmult_le_compat_r; [|exact Hw].
  unfold Qdiv. apply Qmult_le_compat_r.
  - rewrite <- Zle_Qle. lia.
  - apply Qinv_le_0_compat. change 0 with (inject_Z 0). rewrite <- Zle_Qle. lia.
Qed.

Lemma total_score_grow (data : DomainTerms) (before resume_text after : string) :
  total_score data resume_text <= total_score data (before ++ resume_text ++ after).
Proof.
  unfold total_score.
  pose proof (bucket_score_mono _ _ (keywords data) 40
                (matches_grow (keywords data) before resume_text after)).
  pose proof (bucket_score_mono _ _ (tools data) 25
                (matches_grow (tools data) before resume_text after)).
  pose proof (bucket_score_mono _ _ (frameworks data) 20
                (matches_grow (frameworks data) before resume_text after)).
  pose proof (bucket_score_mono _ _ (databases data) 10
                (matches_grow (databases data) before resume_text after)).
  pose proof (bucket_score_mono _ _ (cloud data) 5
                (matches_grow (cloud data) before resume_text after)).
  assert (0 <= 40) by discriminate. assert (0 <= 25) by discriminate.
  assert (0 <= 20) by discriminate. assert (0 <= 10) by discriminate.
  assert (0 <= 5) by discriminate.
  lra.
Qed.

(** Rounding to one decimal keeps the order. *)
Lemma round1_mono (x y : Q) : x <= y -> round1 x <= round1 y.
Proof.
  intros Hxy. unfold round1.
  set (tx := x * 10). set (ty := y * 10).
  assert (Ht : tx <= ty) by (subst tx ty; lra).
  pose proof (Qfloor_resp_le _ _ Ht) as Hn.
  pose proof (Qfloor_le tx) as Hx0. pose proof (Qlt_floor tx) as Hx1.
  pose proof (Qfloor_le ty) as Hy0. pose proof (Qlt_floor ty) as Hy1.
  set (nx := Qfloor tx) in *. set (ny := Qfloor ty) in *.
  rewrite inject_Z_plus in Hx1, Hy1. change (inject_Z 1) with 1 in Hx1, Hy1.
  unfold Qdiv. apply Qmult_le_compat_r; [|discriminate].
  rewrite <- Zle_Qle.
  destruct (Z.eq_dec nx ny) as [Heq|Hne].
  - rewrite <- Heq in *.
    destruct (Qcompare_spec (tx - inject_Z nx) (1 # 2)) as [Ex|Ex|Ex];
      destruct (Qcompare_spec (ty - inject_Z nx) (1 # 2)) as [Ey|Ey|Ey];
      try (exfalso; lra); destruct (Z.odd nx); lia.
  - assert (Hlt : (nx + 1 <= ny)%Z) by lia.
    destruct (Qcompare_spec (tx - inject_Z nx) (1 # 2));
      destruct (Qcompare_spec (ty - inject_Z ny) (1 # 2));
      repeat match goal with |- context [Z.odd ?n] => destruct (Z.odd n) end; lia.
Qed.

Lemma Forall2_map_both {A B : Type} (R : B -> B -> Prop) (f g : A -> B) (l : list A) :
  (forall x, R (f x) (g x)) -> Forall2 R (map f l) (map g l).
Proof. intros H. induction l; cbn [map]; constructor; auto. Qed.

(** X16: putting more text before or after a resume never lowers the score
    of any domain. *)
Theorem scores_never_drop (before resume_text after : string) :
  Forall2 (fun d d' => fst d = fst d' /\ score (snd d) <= score (snd d'))
          (all_domains (analyze_resume_type resume_text))
          (all_domains (analyze_resume_type (before ++ resume_text ++ after))).
Proof.
  rewrite !all_domains_unfold. unfold domain_scores.
  apply Forall2_map_both. intros [domain data]. cbn [fst snd score score_domain].
  split; [reflexivity|]. apply round1_mono, total_score_grow.
Qed.
End ClassifierMoreFacts.

(** ** The domain boost under longer postings *)

Module BoostMoreFacts.
Import Text Recommender Props TextFacts RankerFacts ClassifierMoreFacts.
Local Open Scope Q_scope.

Section Growth.
Context (t t' : string).
Hypothesis grows : forall m, py_in m t = true -> py_in m t' = true.

Lemma keyword_loop_mono (lvl : level) (kws : list string) :
  forall b b', b <= b' ->
    fold_left (fun boost keyword =>
                 if py_in keyword t then boost + level_boost lvl else boost) kws b
    <= fold_left (fun boost keyword =>
                    if py_in keyword t' then boost + level_boost lvl else boost) kws b'.
Proof.
  induction kws as [|kw kws IH]; intros b b' Hb; cbn [fold_left]; [exact Hb|].
  apply IH. pose proof (level_boost_nonneg lvl).
  destruct (py_in kw t) eqn:E; [rewrite (grows kw E); lra|].
  destruct (py_in kw t'); lra.
Qed.

Lemma keyword_boost_mono (table : list (level * list string)) :
  forall b b', b <= b' -> keyword_boost table t b <= keyword_boost table t' b'.
Proof.
  unfold keyword_boost.
  induction table as [|[lvl kws] table IH]; intros b b' Hb; cbn [fold_left];
    [exact Hb|].
  apply IH, keyword_loop_mono, Hb.
Qed.

Ltac grow_cases :=
  apply keyword_boost_mono; unfold add_if;
  repeat match goal with
         | |- context [String.eqb ?a ?b] => destruct (String.eqb a b); cbv beta iota
         end;
  cbn [andb orb];
  repeat match goal with
         | |- context [py_in ?m t] =>
             let E := fresh "E" in
             destruct (py_in m t) eqn:E; [try rewrite (grows m E)|]
         end;
  cbn [andb orb];
  repeat match goal with
         | |- context [py_in ?m ?u] => destruct (py_in m u)
         end;
  cbn [andb orb]; lra.

Lemma calculate_javascript_boost_mono subdomain ra :
  calculate_javascript_boost t subdomain ra <= calculate_javascript_boost t' subdomain ra.
Proof. unfold calculate_javascript_boost. cbv zeta. grow_cases. Qed.

Lemma calculate_python_boost_mono subdomain ra :
  calculate_python_boost t subdomain ra <= calculate_python_boost t' subdomain ra.
Proof. unfold calculate_python_boost. cbv zeta. grow_cases. Qed.

Lemma calculate_java_boost_mono subdomain ra :
  calculate_java_boost t subdomain ra <= calculate_java_boost t' subdomain ra.
Proof. unfold calculate_java_boost. cbv zeta. grow_cases. Qed.

Lemma calculate_cybersecurity_boost_mono subdomain ra :
  calculate_cybersecurity_boost t subdomain ra
  <= calculate_cybersecurity_boost t' subdomain ra.
Proof. unfold calculate_cybersecurity_boost. cbv zeta. grow_cases. Qed.

Lemma calculate_data_science_boost_mono subdomain ra :
  calculate_data_science_boost t subdomain ra
  <= calculate_data_science_boost t' subdomain ra.
Proof. unfold calculate_data_science_boost. cbv zeta. grow_cases. Qed.

Lemma calculate_devops_boost_mono subdomain ra :
  calculate_devops_boost t subdomain ra <= calculate_devops_boost t' subdomain ra.
Proof. unfold calculate_devops_boost. cbv zeta. grow_cases. Qed.

Lemma calculate_cloud_boost_mono subdomain ra :
  calculate_cloud_boost t subdomain ra <= calculate_cloud_boost t' subdomain ra.
Proof. unfold calculate_cloud_boost. cbv zeta. grow_cases. Qed.
End Growth.

(** X17: text put before or after a posting never lowers its domain boost,
    for any domain, subdomain and analysis: every test of the seven
    calculators is a substring test on the lowered posting, and every hit
    adds a non-negative amount before the cap. *)
Theorem boost_never_drops (before job_text after primary_domain subdomain : string)
        (ra : ResumeAnalysis) :
  calculate_advanced_domain_boost job_text primary_domain subdomain ra
  <= calculate_advanced_domain_boost (before ++ job_text ++ after)
                                     primary_domain subdomain ra.
Proof.
  unfold calculate_advanced_domain_boost. cbv zeta.
  apply Q.min_le_compat_r.
  assert (grows : forall m, py_in m (lower job_text) = true ->
                            py_in m (lower (before ++ job_text ++ after)) = true).
  { intros m H. rewrite !lower_app. apply py_in_grow, H. }
  repeat match goal with
         | |- context [if String.eqb ?a ?b then _ else _] => destruct (String.eqb a b)
         end;
    first [ apply calculate_javascript_boost_mono, grows
          | apply calculate_python_boost_mono, grows
          | apply calculate_java_boost_mono, grows
          | apply calculate_cybersecurity_boost_mono, grows
          | apply calculate_data_science_boost_mono, grows
          | apply calculate_devops_boost_mono, grows
          | apply calculate_cloud_boost_mono, grows
          | apply Qle_refl ].
Qed.

(** A keyword of the table found in the posting earns at least the amount
    of its level, on top of the boost the loop started from. *)
Lemma keyword_loop_ge (t : string) (lvl : level) (kws : list string) :
  forall b, b <= fold_left (fun boost keyword =>
                              if py_in keyword t then boost + level_boost lvl else boost)
                           kws b.
Proof.
  induction kws as [|kw kws IH]; intros b; cbn [fold_left]; [apply Qle_refl|].
  eapply Qle_trans; [|apply IH].
  pose proof (level_boost_nonneg lvl). destruct (py_in kw t); lra.
Qed.

Lemma keyword_loop_hit (t : string) (lvl : level) (kws : list string) (kw : string) :
  In kw kws -> py_in kw t = true ->
  forall b, b + level_boost lvl
            <= fold_left (fun boost keyword =>
                            if py_in keyword t then boost + level_boost lvl else boost)
                         kws b.
Proof.
  intros Hin Hkw. induction kws as [|k kws IH]; [destruct Hin|].
  intros b. cbn [fold_left]. destruct Hin as [->|Hin].
  - rewrite Hkw. apply keyword_loop_ge.
  - eapply Qle_trans; [|apply (IH Hin)].
    pose proof (level_boost_nonneg lvl). destruct (py_in k t); lra.
Qed.

Lemma keyword_boost_ge (t : string) (table : list (level * list string)) :
  forall b, b <= keyword_boost table t b.
Proof.
  unfold keyword_boost.
  induction table as [|[lvl kws] table IH]; intros b; cbn [fold_left];
    [apply Qle_refl|].
  eapply Qle_trans; [|apply IH]. apply keyword_loop_ge.
Qed.

Lemma keyword_boost_hit (t : string) (table : list (level * list string))
      (lvl : level) (kws : list string) (kw : string) :
  In (lvl, kws) table -> In kw kws -> py_in kw t = true ->
  forall b, b + level_boost lvl <= keyword_boost table t b.
Proof.
  intros Hrow Hin Hkw. unfold keyword_boost.
  induction table as [|[l ks] table IH]; [destruct Hrow|].
  intros b. cbn [fold_left]. destruct Hrow as [Heq|Hrow].
  - injection Heq as -> ->.
    eapply Qle_trans; [apply (keyword_loop_hit t lvl kws kw Hin Hkw b)|].
    apply (keyword_boost_ge t table).
  - eapply Qle_trans; [|apply (IH Hrow)].
    apply Qplus_le_compat; [apply keyword_loop_ge|apply Qle_refl].
Qed.

(** The subdomain bonus and the keyword amount of a framework's name, as
    they add up in exact arithmetic. *)
Lemma python_marker_boost (marker sub job_text : string) (ra : ResumeAnalysis) :
  In (marker, sub) [("django", "django_developer"); ("flask", "flask_developer");
                    ("fastapi", "fastapi_developer")] ->
  py_in marker (lower job_text) = true ->
  0.45 <= calculate_advanced_domain_boost job_text "python_development" sub ra <= 0.5.
Proof.
  intros Hpair Hin. split; [|apply domain_boost_bounds].
  unfold calculate_advanced_domain_boost. cbv zeta.
  change (String.eqb "python_development" "javascript_fullstack") with false.
  change (String.eqb "python_development" "python_development") with true.
  cbv iota. apply Q.min_glb; [|discriminate].
  unfold calculate_python_boost. cbv zeta.
  assert (Hkw : In marker ["python"; "django"; "flask"; "fastapi"]).
  { cbn [In] in Hpair |- *.
    repeat (destruct Hpair as [Hpair|Hpair];
            [injection Hpair as <- _; tauto|]).
    destruct Hpair. }
  eapply Qle_trans;
    [|apply (keyword_boost_hit (lower job_text) python_keywords high
               ["python"; "django"; "flask"; "fastapi"] marker);
      [left; reflexivity|exact Hkw|exact Hin]].
  change (level_boost high) with 0.15.
  cbn [In] in Hpair.
  repeat (destruct Hpair as [Hpair|Hpair];
          [injection Hpair as <- <-; cbn [String.eqb Ascii.eqb Bool.eqb andb];
           rewrite ?Hin; cbn [andb]; try discriminate|]);
    [..|destruct Hpair].
Qed.

(** X18: for a Python resume whose subdomain names a framework (Django,
    Flask or FastAPI), a posting that mentions that framework, in any
    letter case, earns the subdomain bonus 0.3 and the high-level keyword
    amount 0.15 of the framework's own name: its boost is at least
    0.449999999 and at most 0.5.  The sum is 0.45 in exact arithmetic; the
    code adds floats, where 0.0 + 0.3 + 0.15 is 0.44999999999999996, and
    the bound is stated with a margin that absorbs that rounding. *)
Theorem framework_posting_boost (marker sub job_text : string) (ra : ResumeAnalysis) :
  In (marker, sub) [("django", "django_developer"); ("flask", "flask_developer");
                    ("fastapi", "fastapi_developer")] ->
  occurs_ci marker job_text = true ->
  0.449999999
  <= calculate_advanced_domain_boost job_text "python_development" sub ra
  <= 0.5.
Proof.
  intros Hpair Hocc.
  cut (0.45 <= calculate_advanced_domain_boost job_text "python_development" sub ra
       <= 0.5); [intros [Hlo Hhi]; split; [lra|exact Hhi]|].
  apply (python_marker_boost marker); [exact Hpair|].
  rewrite py_in_lower; [exact Hocc|].
  cbn [In] in Hpair.
  repeat (destruct Hpair as [Hpair|Hpair];
          [injection Hpair as <- _; reflexivity|]).
  destruct Hpair.
Qed.

Lemma framework_posting_boost_witness :
  0.449999999
  <= calculate_advanced_domain_boost "Senior Django engineer" "python_development"
                                     "django_developer" sample_analysis
  <= 0.5.
Proof.
  apply (framework_posting_boost "django" "django_developer").
  - left. reflexivity.
  - vm_compute. reflexivity.
Defined.
End BoostMoreFacts.

(** ** Around the ranker: a second ranking, the top results, the source
    filter, the fallback and the CSV rows *)

Module PipelineFacts.
Import Text Recommender Props Jobs App JobNotions TextFacts SortFacts RankerFacts
       SortMoreFacts.
Local Open Scope Q_scope.

Lemma sorted_app_cross {A : Type} (R : A -> A -> Prop) (l1 l2 : list A) :
  StronglySorted R (l1 ++ l2) -> Forall (fun a => Forall (R a) l2) l1.
Proof.
  induction l1 as [|x l1 IH]; intros Hs; [constructor|].
  cbn [app] in Hs. inversion Hs as [|? ? Hs' Hx]; subst.
  constructor; [|apply IH, Hs'].
  apply List.Forall_forall. intros b Hb.
  rewrite List.Forall_forall in Hx. apply Hx, in_or_app. right. exact Hb.
Qed.

Section Pipeline.
Context (vec : Type) (encode : string -> vec) (cos_sim : vec -> vec -> Q)
        (float_str : Q -> string).

(** X19: ranking is idempotent.  Ranking the returned postings a second
    time, against the same resume and analysis, leaves every posting and
    the order as the first ranking left them. *)
Theorem reranking_changes_nothing (resume_text : string) (jobs : list nat)
        (analysis : ResumeAnalysis) (store : gmap nat (gmap string value)) :
  rank_jobs_domain_aware vec encode cos_sim float_str resume_text
    (snd (rank_jobs_domain_aware vec encode cos_sim float_str resume_text jobs
                                 analysis store))
    analysis
    (fst (rank_jobs_domain_aware vec encode cos_sim float_str resume_text jobs
                                 analysis store))
  = rank_jobs_domain_aware vec encode cos_sim float_str resume_text jobs analysis store.
Proof.
  set (first := rank_jobs_domain_aware vec encode cos_sim float_str resume_text jobs
                                       analysis store).
  assert (Hstore : fst (rank_jobs_domain_aware vec encode cos_sim float_str resume_text
                                               (snd first) analysis (fst first))
                   = fst first).
  { apply map_eq. intros ref. rewrite rank_jobs_store.
    destruct (decide (ref ∈ snd first)) as [Hin|Hnin]; [|reflexivity].
    apply list_elem_of_In, rank_jobs_members in Hin.
    unfold first. rewrite (rank_jobs_scored _ _ _ _ _ _ _ _ _ Hin), score_job_idem.
    rewrite rank_jobs_store.
    rewrite decide_True by (apply list_elem_of_In, Hin). reflexivity. }
  apply injective_projections; [exact Hstore|].
  rewrite rank_jobs_order, Hstore.
  apply sort_desc_sorted_id.
  unfold first. rewrite rank_jobs_order. apply sort_desc_sorted.
Qed.

(** X20: the top results are the best ones.  The first [top] postings of
    a ranking and the postings left out make up the ranking, there are
    min(top, number of postings) of them, and none of those left out has a
    higher final similarity than any of those kept. *)
Theorem top_results_lead (top : nat) (resume_text : string) (jobs : list nat)
        (analysis : ResumeAnalysis) (store : gmap nat (gmap string value)) :
  let ranked := rank_jobs_domain_aware vec encode cos_sim float_str resume_text jobs
                                       analysis store in
  (top_jobs top (snd ranked) ++ skipn top (snd ranked))%list = snd ranked
  /\ length (top_jobs top (snd ranked)) = Nat.min top (length jobs)
  /\ Forall (fun kept =>
               Forall (fun left_out =>
                         similarity_of (fst ranked) left_out
                         <= similarity_of (fst ranked) kept)
                      (skipn top (snd ranked)))
            (top_jobs top (snd ranked)).
Proof.
  cbv zeta. unfold top_jobs. split; [apply firstn_skipn|]. split.
  - rewrite length_firstn. f_equal. apply Permutation_length.
    rewrite rank_jobs_order. apply sort_desc_perm.
  - apply (sorted_app_cross
             (fun a b =>
                similarity_of (fst (rank_jobs_domain_aware vec encode cos_sim float_str
                                      resume_text jobs analysis store)) b
                <= similarity_of (fst (rank_jobs_domain_aware vec encode cos_sim
                                         float_str resume_text jobs analysis store)) a)).
    rewrite firstn_skipn, rank_jobs_order. apply sort_desc_sorted.
Qed.

Lemma filter_linkedin_ext (s s' : gmap nat (gmap string value)) (l : list nat) :
  Forall (fun ref => via_lower (s !!! ref) = via_lower (s' !!! ref)) l ->
  filter_linkedin s l = filter_linkedin s' l.
Proof.
  induction 1 as [|ref l Href _ IH]; [reflexivity|].
  cbn [filter_linkedin]. rewrite Href, IH. reflexivity.
Qed.

(** The filter fails when some source is no string; otherwise it keeps, in
    order, the postings whose source names LinkedIn. *)
Lemma filter_linkedin_spec (store : gmap nat (gmap string value)) (l : list nat) :
  filter_linkedin store l
  = if forallb (source_ok store) l then Some (List.filter (from_linkedin store) l)
    else None.
Proof.
  induction l as [|ref l IH]; [reflexivity|].
  cbn [filter_linkedin forallb List.filter]. unfold source_ok at 1, from_linkedin at 1.
  rewrite IH.
  destruct (via_lower (store !!! ref)) as [source|]; [|reflexivity].
  cbn [andb]. destruct (forallb (source_ok store) l); [|reflexivity].
  destruct (py_in "linkedin" source); reflexivity.
Qed.

Lemma forallb_perm {A : Type} (p : A -> bool) (l l' : list A) :
  Permutation l l' -> forallb p l = forallb p l'.
Proof.
  induction 1 as [|x l l' _ IH|x y l|l l' l'' _ IH _ IH']; cbn [forallb].
  - reflexivity.
  - rewrite IH. reflexivity.
  - destruct (p x), (p y); reflexivity.
  - rewrite IH. exact IH'.
Qed.

Lemma via_lower_ranked (resume_text : string) (jobs : list nat)
      (analysis : ResumeAnalysis) (store : gmap nat (gmap string value)) (ref : nat) :
  via_lower (fst (rank_jobs_domain_aware vec encode cos_sim float_str resume_text jobs
                                         analysis store) !!! ref)
  = via_lower (store !!! ref).
Proof.
  unfold via_lower.
  destruct (in_dec Nat.eq_dec ref jobs) as [Hin|Hnin].
  - rewrite (rank_jobs_scored _ _ _ _ _ _ _ _ _ Hin), score_job_frame; [reflexivity|].
    unfold score_fields. cbn [In]. intros H.
    repeat (destruct H as [H|H]; [discriminate H|]). exact H.
  - rewrite !lookup_total_alt, (rank_jobs_untouched _ _ _ _ _ _ _ _ _ Hnin).
    reflexivity.
Qed.

(** X21: the LinkedIn filter and the ranking commute.  Filtering the
    ranked postings fails exactly when filtering the fetched ones does
    (some source is no string); otherwise it gives the order that ranking
    the filtered postings gives, and every posting kept has the record the
    ranking of all postings gave it. *)
Theorem linkedin_filter_commutes_with_ranking (resume_text : string) (jobs : list nat)
        (analysis : ResumeAnalysis) (store : gmap nat (gmap string value)) :
  let ranked := rank_jobs_domain_aware vec encode cos_sim float_str resume_text jobs
                                       analysis store in
  match filter_linkedin store jobs with
  | Some kept =>
      let narrow := rank_jobs_domain_aware vec encode cos_sim float_str resume_text kept
                                           analysis store in
      filter_linkedin (fst ranked) (snd ranked) = Some (snd narrow)
      /\ kept = List.filter (from_linkedin store) jobs
      /\ Forall (fun ref => fst narrow !!! ref = fst ranked !!! ref) kept
  | None => filter_linkedin (fst ranked) (snd ranked) = None
  end.
Proof.
  cbv zeta.
  rewrite (filter_linkedin_ext
             (fst (rank_jobs_domain_aware vec encode cos_sim float_str resume_text jobs
                                          analysis store)) store)
    by (apply List.Forall_forall; intros ref _; apply via_lower_ranked).
  rewrite rank_jobs_order, !filter_linkedin_spec.
  rewrite (forallb_perm (source_ok store) (sort_desc _ jobs) jobs)
    by apply sort_desc_perm.
  destruct (forallb (source_ok store) jobs); [|reflexivity].
  assert (Hsub : forall ref, In ref (List.filter (from_linkedin store) jobs) ->
                             In ref jobs)
    by (intros ref Hin; apply filter_In in Hin; apply Hin).
  split; [|split; [reflexivity|]].
  - f_equal. rewrite sort_desc_filter, rank_jobs_order.
    apply sort_desc_ext, List.Forall_forall. intros ref Hin.
    rewrite (rank_jobs_similarity _ _ _ _ _ _ _ _ _ (Hsub ref Hin)).
    rewrite (rank_jobs_similarity _ _ _ _ _ _ _ _ _ Hin). reflexivity.
  - apply List.Forall_forall. intros ref Hin.
    rewrite (rank_jobs_scored _ _ _ _ _ _ _ _ _ (Hsub ref Hin)).
    apply (rank_jobs_scored _ _ _ _ _ _ _ _ _ Hin).
Qed.


Lemma fallback_job_fields (ra : ResumeAnalysis) (job : gmap string value) :
  fallback_job ra job !! "similarity" = Some (VNum 0.5)
  /\ fallback_job ra job !! "base_similarity" = Some (VNum 0.5)
  /\ fallback_job ra job !! "domain_boost" = Some (VNum 0.0)
  /\ fallback_job ra job !! "primary_domain" = Some (VStr (primary_domain ra))
  /\ fallback_job ra job !! "subdomain" = Some (VStr (default "" (subdomain ra))).
Proof.
  unfold fallback_job.
  repeat split;
    rewrite ?lookup_insert_ne by discriminate; apply lookup_insert_eq.
Qed.

Lemma fallback_job_frame (ra : ResumeAnalysis) (job : gmap string value) (key : string) :
  ~ In key score_fields -> fallback_job ra job !! key = job !! key.
Proof.
  intros Hkey. unfold fallback_job.
  rewrite !lookup_insert_ne; [reflexivity|..];
    intros <-; apply Hkey; unfold score_fields; cbn [In];
    repeat (first [left; reflexivity | right]).
Qed.

(** The fallback forgets the five fields it finds. *)
Lemma fallback_job_overwrites (ra : ResumeAnalysis) (job job' : gmap string value) :
  (forall key, ~ In key score_fields -> job' !! key = job !! key) ->
  fallback_job ra job' = fallback_job ra job.
Proof.
  intros Hframe. apply map_eq. intros key. unfold fallback_job.
  rewrite !lookup_insert.
  repeat case_decide; try reflexivity.
  apply Hframe. unfold score_fields. cbn [In]. intros Hin.
  repeat (destruct Hin as [Hin|Hin]; [congruence|]). exact Hin.
Qed.

Lemma fallback_job_idem (ra : ResumeAnalysis) (job : gmap string value) :
  fallback_job ra (fallback_job ra job) = fallback_job ra job.
Proof. apply fallback_job_overwrites. intros key. apply fallback_job_frame. Qed.

Lemma fallback_loop_spec (ra : ResumeAnalysis) (jobs : list nat) :
  forall (store : gmap nat (gmap string value)) (ref : nat),
    fold_left (fun store job => <[job := fallback_job ra (store !!! job)]> store)
              jobs store !! ref
    = if decide (ref ∈ jobs) then Some (fallback_job ra (store !!! ref))
      else store !! ref.
Proof.
  induction jobs as [|job jobs IH]; intros store ref; cbn [fold_left].
  - rewrite decide_False by apply not_elem_of_nil. reflexivity.
  - rewrite IH. destruct (decide (ref = job)) as [->|Hne].
    + rewrite (decide_True (P := job ∈ job :: jobs))
        by (apply elem_of_cons; left; reflexivity).
      rewrite lookup_total_insert_eq, lookup_insert_eq, fallback_job_idem.
      destruct (decide (job ∈ jobs)); reflexivity.
    + rewrite lookup_total_insert_ne, lookup_insert_ne by congruence.
      destruct (decide (ref ∈ jobs)) as [Hin|Hnin].
      * rewrite decide_True by (apply elem_of_cons; right; exact Hin). reflexivity.
      * rewrite decide_False; [reflexivity|].
        intros Hin. apply elem_of_cons in Hin as [?|?]; contradiction.
Qed.

Lemma fallback_scored (ra : ResumeAnalysis) (jobs : list nat)
      (store : gmap nat (gmap string value)) (ref : nat) :
  In ref jobs ->
  fst (fallback_ranking ra jobs store) !!! ref = fallback_job ra (store !!! ref).
Proof.
  intros Hin. apply lookup_total_correct. unfold fallback_ranking. cbn [fst].
  rewrite fallback_loop_spec.
  rewrite decide_True by (apply list_elem_of_In, Hin). reflexivity.
Qed.

(** X22: the fallback taken when ranking raised.  It keeps the postings
    in the order they were fetched, writes into each of them the neutral
    scores 0.5, 0.5 and 0.0 and the resume's domain and subdomain, so that
    the final similarity is again min(base + boost, 1.0), and leaves every
    other field of every posting as it was. *)
Theorem fallback_ranking_neutral (ra : ResumeAnalysis) (jobs : list nat)
        (store : gmap nat (gmap string value)) (ref : nat) (key : string) :
  ~ In key score_fields ->
  (fst (fallback_ranking ra jobs store) !!! ref) !! key = (store !!! ref) !! key
  /\ snd (fallback_ranking ra jobs store) = jobs
  /\ Forall (fun job =>
               let posting := fst (fallback_ranking ra jobs store) !!! job in
               posting !! "similarity" = Some (VNum 0.5)
               /\ posting !! "base_similarity" = Some (VNum 0.5)
               /\ posting !! "domain_boost" = Some (VNum 0.0)
               /\ posting !! "primary_domain" = Some (VStr (primary_domain ra))
               /\ posting !! "subdomain" = Some (VStr (default "" (subdomain ra)))
               /\ similarity_of (fst (fallback_ranking ra jobs store)) job
                  == Qmin (0.5 + 0.0) 1.0)
            jobs.
Proof.
  intros Hkey. split; [|split; [reflexivity|]].
  - destruct (in_dec Nat.eq_dec ref jobs) as [Hin|Hnin].
    + rewrite (fallback_scored _ _ _ _ Hin). apply fallback_job_frame, Hkey.
    + rewrite !lookup_total_alt. unfold fallback_ranking. cbn [fst].
      rewrite fallback_loop_spec, decide_False; [reflexivity|].
      rewrite list_elem_of_In. exact Hnin.
  - apply List.Forall_forall. intros job Hin. cbv zeta.
    unfold similarity_of. rewrite (fallback_scored _ _ _ _ Hin).
    destruct (fallback_job_fields ra (store !!! job))
      as (Hsim & Hbase & Hboost & Hpd & Hsd).
    repeat (split; [assumption|]). rewrite Hsim. vm_compute. reflexivity.
Qed.

(** X23: the fallback does not depend on how far the failed ranking got.
    Whatever number of postings the ranking loop had scored in place when
    it raised, the fallback leaves the postings it would have left had the
    loop scored none. *)
Theorem fallback_forgets_partial_ranking (scored : nat) (resume_text : string)
        (ra : ResumeAnalysis) (jobs : list nat) (store : gmap nat (gmap string value)) :
  fallback_ranking ra jobs
    (fst (fold_left (rank_step vec encode cos_sim float_str (encode resume_text)
                               (primary_domain ra) (default "" (subdomain ra)) ra)
                    (firstn scored jobs) (store, [])))
  = fallback_ranking ra jobs store.
Proof.
  destruct (rank_loop_spec vec encode cos_sim float_str (encode resume_text)
              (primary_domain ra) (default "" (subdomain ra)) ra
              (firstn scored jobs) store []) as [_ Hpartial].
  set (partial := fst (fold_left _ (firstn scored jobs) (store, []))) in *.
  unfold fallback_ranking. f_equal.
  apply map_eq. intros ref. rewrite !fallback_loop_spec.
  destruct (decide (ref ∈ jobs)) as [Hin|Hnin].
  - f_equal. apply fallback_job_overwrites. intros key Hkey.
    specialize (Hpartial ref).
    destruct (decide (ref ∈ firstn scored jobs)).
    + rewrite (lookup_total_correct _ _ _ Hpartial). apply score_job_frame, Hkey.
    + rewrite !lookup_total_alt, Hpartial. reflexivity.
  - rewrite Hpartial, decide_False; [reflexivity|].
    intros Hin. apply Hnin. apply list_elem_of_In. apply list_elem_of_In in Hin.
    rewrite <- (firstn_skipn scored jobs). apply in_or_app. left. exact Hin.
Qed.


(** Rounding keeps a number between two multiples of the unit. *)
Lemma py_round_bounds (ndigits : nat) (x : Q) (a b : Z) :
  inject_Z a <= x * inject_Z (10 ^ Z.of_nat ndigits) <= inject_Z b ->
  inject_Z a / inject_Z (10 ^ Z.of_nat ndigits)
  <= py_round ndigits x
  <= inject_Z b / inject_Z (10 ^ Z.of_nat ndigits).
Proof.
  intros [Ha Hb]. unfold py_round. cbv zeta.
  set (scale := inject_Z (10 ^ Z.of_nat ndigits)) in *.
  set (t := x * scale) in *.
  assert (Hscale : 0 < scale).
  { unfold scale. change 0 with (inject_Z 0). rewrite <- Zlt_Qlt.
    apply Z.pow_pos_nonneg; lia. }
  assert (Hn1 : (a <= Qfloor t)%Z).
  { rewrite <- (Qfloor_Z a). apply Qfloor_resp_le, Ha. }
  assert (Hn2 : (Qfloor t <= b)%Z).
  { rewrite <- (Qfloor_Z b). apply Qfloor_resp_le, Hb. }
  assert (Hdiv : forall m n, (m <= n)%Z -> inject_Z m / scale <= inject_Z n / scale).
  { intros m n Hmn. apply Qmult_le_compat_r; [rewrite <- Zle_Qle; exact Hmn|].
    apply Qlt_le_weak, Qinv_lt_0_compat, Hscale. }
  assert (Hstrict : inject_Z (Qfloor t) < t -> (Qfloor t + 1 <= b)%Z).
  { intros Hlt. assert (Hzb : (Qfloor t < b)%Z); [|lia].
    rewrite Zlt_Qlt. eapply Qlt_le_trans; eassumption. }
  split; apply Hdiv;
    destruct (Qcompare_spec (t - inject_Z (Qfloor t)) (1 # 2)) as [E|E|E];
    try destruct (Z.odd (Qfloor t)); try lia; apply Hstrict; lra.
Qed.

Section Rows.
Context (resume_emb : vec) (analysis : ResumeAnalysis).

Lemma make_row_scored (job : gmap string value) :
  exists row,
    make_row (score_job vec encode cos_sim float_str resume_emb
                        (primary_domain analysis) (default "" (subdomain analysis))
                        analysis job) = Some row
    /\ row_describes analysis job row.
Proof.
  destruct (score_job_fields vec encode cos_sim float_str resume_emb
              (primary_domain analysis) (default "" (subdomain analysis)) analysis job)
    as (Hsim & Hbase & Hboost & Hpd & Hsd).
  cbv zeta in *.
  assert (Hframe : forall key, In key ["title"; "company_name"; "location"; "via";
                                       "share_link"; "link"] ->
                    score_job vec encode cos_sim float_str resume_emb
                              (primary_domain analysis) (default "" (subdomain analysis))
                              analysis job !! key = job !! key).
  { intros key Hkey. apply score_job_frame. unfold score_fields.
    cbn [In] in Hkey |- *. intros Hin.
    repeat (destruct Hkey as [Hkey|Hkey];
            [subst key; repeat (destruct Hin as [Hin|Hin]; [discriminate Hin|]);
             exact Hin|]).
    exact Hkey. }
  unfold make_row, display_name, percent.
  rewrite Hpd, Hsd, Hbase, Hboost, Hsim.
  pose proof (domain_boost_bounds
                (job_text_of float_str job) (primary_domain analysis)
                (default "" (subdomain analysis)) analysis) as [Hb0 Hb1].
  set (boost := calculate_advanced_domain_boost _ _ _ _) in *.
  set (base := cos_sim _ _) in *.
  assert (Hrow : forall sub,
            row_describes analysis job
              {| col_title := field_or_empty
                                (score_job vec encode cos_sim float_str resume_emb
                                   (primary_domain analysis)
                                   (default "" (subdomain analysis)) analysis job)
                                "title";
                 col_company := field_or_empty
                                  (score_job vec encode cos_sim float_str resume_emb
                                     (primary_domain analysis)
                                     (default "" (subdomain analysis)) analysis job)
                                  "company_name";
                 col_location := field_or_empty
                                   (score_job vec encode cos_sim float_str resume_emb
                                      (primary_domain analysis)
                                      (default "" (subdomain analysis)) analysis job)
                                   "location";
                 col_source := field_or_empty
                                 (score_job vec encode cos_sim float_str resume_emb
                                    (primary_domain analysis)
                                    (default "" (subdomain analysis)) analysis job)
                                 "via";
                 col_primary_domain :=
                   title (replace_char "_" " " (primary_domain analysis));
                 col_subdomain := sub;
                 col_base_match := py_round 2 (base * 100);
                 col_domain_boost := py_round 2 (boost * 100);
                 col_final_match := py_round 2 (Qmin (base + boost) 1.0 * 100);
                 col_apply_link :=
                   extract_job_link
                     (score_job vec encode cos_sim float_str resume_emb
                        (primary_domain analysis)
                        (default "" (subdomain analysis)) analysis job) |}).
  { intros sub. unfold row_describes, field_or_empty, extract_job_link.
    cbn [col_title col_company col_location col_source col_apply_link
         col_primary_domain col_domain_boost col_final_match].
    rewrite !Hframe by (cbn [In]; tauto).
    repeat (split; [reflexivity|]).
    split.
    - destruct (py_round_bounds 2 (boost * 100) 0 5000) as [Hlo Hhi].
      { change (inject_Z (10 ^ Z.of_nat 2)) with 100.
        change (inject_Z 0) with 0. change (inject_Z 5000) with 5000. lra. }
      split; [eapply Qle_trans; [|exact Hlo]|eapply Qle_trans; [exact Hhi|]];
        vm_compute; discriminate.
    - destruct (py_round_bounds 2 (Qmin (base + boost) 1.0 * 100)
                  (Qfloor (Qmin (base + boost) 1.0 * 100 * 100)) 10000) as [_ Hhi].
      { change (inject_Z (10 ^ Z.of_nat 2)) with 100.
        change (inject_Z 10000) with 10000.
        split; [apply Qfloor_le|].
        pose proof (Q.le_min_r (base + boost) 1.0). lra. }
      eapply Qle_trans; [exact Hhi|]. vm_compute. discriminate. }
  destruct (truthy (Some (VStr (default "" (subdomain analysis)))));
    eexists; (split; [reflexivity|apply Hrow]).
Qed.
End Rows.

Lemma rows_of_ranked (resume_text : string) (jobs : list nat)
      (analysis : ResumeAnalysis) (store : gmap nat (gmap string value))
      (l : list nat) :
  Forall (fun ref => In ref jobs) l ->
  exists rows,
    save_to_csv (fst (rank_jobs_domain_aware vec encode cos_sim float_str resume_text
                                             jobs analysis store)) l = Some rows
    /\ Forall2 (fun ref row => row_describes analysis (store !!! ref) row) l rows.
Proof.
  induction 1 as [|ref l Href _ (rows & Hrows & Hall)].
  - exists []. split; [reflexivity|constructor].
  - cbn [save_to_csv]. rewrite (rank_jobs_scored _ _ _ _ _ _ _ _ _ Href), Hrows.
    destruct (make_row_scored (encode resume_text) analysis (store !!! ref))
      as (row & Hrow & Hdesc).
    rewrite Hrow. exists (row :: rows). split; [reflexivity|].
    constructor; assumption.
Qed.

(** X24: the CSV of the top results.  Building the rows never fails on
    ranked postings; there is one row per posting kept, in ranking order;
    its title, company, location, source and apply link are those of the
    posting as it was fetched, its domain column is the analysis' primary
    domain with spaces for underscores and in title case, its boost
    percentage lies in [0, 50] and its final percentage is at most 100. *)
Theorem csv_rows_of_top_results (top : nat) (resume_text : string) (jobs : list nat)
        (analysis : ResumeAnalysis) (store : gmap nat (gmap string value)) :
  let ranked := rank_jobs_domain_aware vec encode cos_sim float_str resume_text jobs
                                       analysis store in
  exists rows,
    save_to_csv (fst ranked) (top_jobs top (snd ranked)) = Some rows
    /\ Forall2 (fun ref row => row_describes analysis (store !!! ref) row)
               (top_jobs top (snd ranked)) rows.
Proof.
  cbv zeta. apply rows_of_ranked. apply List.Forall_forall. intros ref Hin.
  apply (rank_jobs_members vec encode cos_sim float_str resume_text jobs analysis store).
  unfold top_jobs in Hin.
  rewrite <- (firstn_skipn top (snd _)). apply in_or_app. left. exact Hin.
Qed.

End Pipeline.

Lemma fallback_ranking_neutral_witness :
  ~ In "title" score_fields
  /\ (fst (fallback_ranking sample_analysis [0%nat; 1%nat] sample_store) !!! 1%nat)
       !! "title"
     = (sample_store !!! 1%nat) !! "title".
Proof.
  assert (Hkey : ~ In "title" score_fields).
  { unfold score_fields. cbn [In]. intros H.
    repeat (destruct H as [H|H]; [discriminate H|]). exact H. }
  exact (conj Hkey
           (proj1 (fallback_ranking_neutral sample_analysis [0%nat; 1%nat] sample_store
                     1%nat "title" Hkey))).
Defined.

Lemma after_last_none (sep : ascii) (s : string) :
  py_in (String sep "") s = false -> after_last sep s = None.
Proof.
  induction s as [|c s IH]; intros H; [reflexivity|].
  cbn [py_in startswith] in H. apply orb_false_elim in H as [Hc Hs].
  rewrite andb_true_r in Hc.
  cbn [after_last]. rewrite (IH Hs), Ascii.eqb_sym, Hc. reflexivity.
Qed.

Lemma after_last_app (sep : ascii) (stem extension : string) :
  after_last sep extension = None ->
  after_last sep (stem ++ String sep extension) = Some extension.
Proof.
  intros Hnone. induction stem as [|c stem IH].
  - change ("" ++ String sep extension)%string with (String sep extension).
    cbn [after_last]. rewrite Hnone, Ascii.eqb_refl. reflexivity.
  - change (String c stem ++ String sep extension)%string
      with (String c (stem ++ String sep extension)).
    cbn [after_last]. rewrite IH. reflexivity.
Qed.

Lemma py_in_after (m before t : string) :
  py_in m t = true -> py_in m (before ++ t) = true.
Proof.
  intros H. induction before as [|b before IH]; [exact H|].
  change (String b before ++ t)%string with (String b (before ++ t)).
  cbn [py_in]. rewrite IH. apply orb_true_r.
Qed.

(** X25: the upload check looks at what follows the last dot.  A file
    name made of any stem, a dot and a dot-free extension is accepted
    exactly when the extension, in lower case, is pdf, docx or txt; a name
    without any dot is refused. *)
Theorem allowed_file_by_extension (stem extension : string) :
  py_in "." extension = false ->
  allowed_file (stem ++ "." ++ extension)
  = existsb (String.eqb (lower extension)) ALLOWED_EXTENSIONS
  /\ allowed_file extension = false.
Proof.
  intros Hdot. split; unfold allowed_file.
  - change ("." ++ extension)%string with (String "." extension).
    rewrite py_in_after by (cbn [py_in startswith]; rewrite Ascii.eqb_refl; reflexivity).
    rewrite after_last_app by apply after_last_none, Hdot. reflexivity.
  - rewrite Hdot. reflexivity.
Qed.

Lemma allowed_file_by_extension_witness :
  py_in "." "PDF" = false
  /\ allowed_file "resume.final.PDF" = true
  /\ allowed_file "PDF" = false.
Proof.
  split; [reflexivity|].
  apply (allowed_file_by_extension "resume.final" "PDF"). reflexivity.
Defined.
End PipelineFacts.

(** ** From the resume to the query and into the ranking *)

Module JourneyFacts.
Import Text Recommender Props TextFacts ClassifierFacts RankerFacts QueryFacts
       BoostMoreFacts.
Local Open Scope Q_scope.

Ltac role_cases :=
  repeat match goal with
         | |- context [if ?c then _ else _] => destruct c
         end;
  reflexivity.

Lemma javascript_query_role data sub location :
  startswith "Software Developer " (generate_javascript_query data sub location) = false.
Proof. unfold generate_javascript_query. role_cases. Qed.

Lemma python_query_role data sub location :
  startswith "Software Developer " (generate_python_query data sub location) = false.
Proof. unfold generate_python_query. role_cases. Qed.

Lemma java_query_role data sub location :
  startswith "Software Developer " (generate_java_query data sub location) = false.
Proof. unfold generate_java_query. role_cases. Qed.

Lemma cybersecurity_query_role data sub location :
  startswith "Software Developer " (generate_cybersecurity_query data sub location)
  = false.
Proof. unfold generate_cybersecurity_query. role_cases. Qed.

Lemma data_science_query_role data sub location :
  startswith "Software Developer " (generate_data_science_query data sub location)
  = false.
Proof. unfold generate_data_science_query. role_cases. Qed.

Lemma devops_query_role data sub location :
  startswith "Software Developer " (generate_devops_query data sub location) = false.
Proof. unfold generate_devops_query. role_cases. Qed.

Lemma cloud_query_role data sub location :
  startswith "Software Developer " (generate_cloud_query data sub location) = false.
Proof. unfold generate_cloud_query. role_cases. Qed.

(** For one of the seven domains with an entry in the score map, the
    query is that of the domain's own generator, never the fallback. *)
Lemma smart_query_role (ra : ResumeAnalysis) (location : string) (data : DomainScore) :
  dict_get (all_domains ra) (primary_domain ra) = Ok data ->
  known_domain (primary_domain ra) = true ->
  exists query,
    generate_smart_query ra location = Ok query
    /\ ends_with (" " ++ location ++ " jobs") query
    /\ startswith "Software Developer " query = false.
Proof.
  intros Hdata Hk. unfold generate_smart_query. rewrite Hdata.
  rewrite known_domain_unfold in Hk.
  repeat match goal with
         | |- context [if String.eqb ?a ?b then _ else _] =>
             destruct (String.eqb a b)
         end;
    try discriminate Hk;
    eexists; (split; [reflexivity|]);
    (split;
     [ first [ apply javascript_query_shape | apply python_query_shape
             | apply java_query_shape | apply cybersecurity_query_shape
             | apply data_science_query_shape | apply devops_query_shape
             | apply cloud_query_shape ]
     | first [ apply javascript_query_role | apply python_query_role
             | apply java_query_role | apply cybersecurity_query_role
             | apply data_science_query_role | apply devops_query_role
             | apply cloud_query_role ] ]).
Qed.

(** X26: from any resume text the classifier's analysis yields a query.
    The lookup of the primary domain's entry succeeds, the query ends with
    the location and the word jobs, and it is the query of one of the
    seven domain generators: the fallback template is never used. *)
Theorem classified_resume_never_falls_back (resume_text location : string) :
  exists data query,
    dict_get (all_domains (analyze_resume_type resume_text))
             (primary_domain (analyze_resume_type resume_text)) = Ok data
    /\ generate_smart_query (analyze_resume_type resume_text) location = Ok query
    /\ ends_with (" " ++ location ++ " jobs") query
    /\ startswith "Software Developer " query = false.
Proof.
  destruct (classified_primary_has_entry resume_text) as [data Hdata].
  destruct (smart_query_role _ location data Hdata (primary_domain_known resume_text))
    as (query & Hquery).
  exists data, query. split; [exact Hdata|exact Hquery].
Qed.

(** What the classifier hands on for a Python resume that names Django. *)
Lemma django_subdomain (resume_text : string) :
  primary_domain (analyze_resume_type resume_text) = "python_development" ->
  occurs_ci "django" resume_text = true ->
  default "" (subdomain (analyze_resume_type resume_text)) = "django_developer".
Proof.
  intros Hpd Hocc. rewrite subdomain_unfold. rewrite primary_domain_unfold in Hpd.
  rewrite Hpd. cbn [default from_option id].
  unfold detect_subdomain. cbv zeta.
  change (String.eqb "python_development" "javascript_fullstack") with false.
  change (String.eqb "python_development" "python_development") with true.
  cbv iota. rewrite py_in_lower by reflexivity. rewrite Hocc. reflexivity.
Qed.

Lemma django_query (ra : ResumeAnalysis) (location : string) (data : DomainScore) :
  dict_get (all_domains ra) (primary_domain ra) = Ok data ->
  primary_domain ra = "python_development" ->
  default "" (subdomain ra) = "django_developer" ->
  generate_smart_query ra location
  = Ok ("Django Developer Python " ++ location ++ " jobs")%string.
Proof.
  intros Hdata Hpd Hsd. unfold generate_smart_query. rewrite Hdata, Hpd, Hsd.
  reflexivity.
Qed.

(** X27: a resume classified as Python development that names Django, in
    any letter case, is searched for with the query
    "Django Developer Python <location> jobs". *)
Theorem django_resume_query (resume_text location : string) :
  primary_domain (analyze_resume_type resume_text) = "python_development" ->
  occurs_ci "django" resume_text = true ->
  generate_smart_query (analyze_resume_type resume_text) location
  = Ok ("Django Developer Python " ++ location ++ " jobs")%string.
Proof.
  intros Hpd Hocc.
  destruct (classified_primary_has_entry resume_text) as [data Hdata].
  exact (django_query _ location data Hdata Hpd (django_subdomain _ Hpd Hocc)).
Qed.

Lemma django_resume_query_witness :
  generate_smart_query (analyze_resume_type sample_resume) "Pune"
  = Ok "Django Developer Python Pune jobs".
Proof.
  apply (django_resume_query sample_resume "Pune"); vm_compute; reflexivity.
Defined.

Section Journey.
Context (vec : Type) (encode : string -> vec) (cos_sim : vec -> vec -> Q)
        (float_str : Q -> string).

Lemma ranked_boost_field (resume_text : string) (jobs : list nat)
      (ra : ResumeAnalysis) (store : gmap nat (gmap string value)) (ref : nat) :
  In ref jobs ->
  (fst (rank_jobs_domain_aware vec encode cos_sim float_str resume_text jobs ra store)
     !!! ref) !! "domain_boost"
  = Some (VNum (calculate_advanced_domain_boost
                  (job_text_of float_str (store !!! ref))
                  (primary_domain ra) (default "" (subdomain ra)) ra)).
Proof.
  intros Hin. rewrite (rank_jobs_scored _ _ _ _ _ _ _ _ _ Hin).
  destruct (score_job_fields vec encode cos_sim float_str (encode resume_text)
              (primary_domain ra) (default "" (subdomain ra)) ra (store !!! ref))
    as (_ & _ & Hboost & _).
  exact Hboost.
Qed.

(** X28: the classifier and the ranker agree on Django.  When a resume
    classified as Python development names Django, every ranked posting
    whose title, company or description names Django too, in any letter
    case, carries a domain boost of at least 0.449999999 and at most 0.5:
    the subdomain bonus and the keyword amount, 0.45 in exact arithmetic,
    with a margin for the rounding of the code's float additions
    (0.0 + 0.3 + 0.15 is 0.44999999999999996 there). *)
Theorem django_posting_boosted_in_ranking (resume_text : string) (jobs : list nat)
        (store : gmap nat (gmap string value)) (ref : nat) :
  primary_domain (analyze_resume_type resume_text) = "python_development" ->
  occurs_ci "django" resume_text = true ->
  In ref jobs ->
  occurs_ci "django" (job_text_of float_str (store !!! ref)) = true ->
  exists boost,
    (fst (rank_jobs_domain_aware vec encode cos_sim float_str resume_text jobs
                                 (analyze_resume_type resume_text) store) !!! ref)
      !! "domain_boost" = Some (VNum boost)
    /\ 0.449999999 <= boost <= 0.5.
Proof.
  intros Hpd Hocc Hin Hjob. eexists. split; [apply ranked_boost_field, Hin|].
  rewrite Hpd, (django_subdomain _ Hpd Hocc).
  cut (0.45 <= calculate_advanced_domain_boost
                 (job_text_of float_str (store !!! ref)) "python_development"
                 "django_developer" (analyze_resume_type resume_text)
       <= 0.5); [intros [Hlo Hhi]; split; [lra|exact Hhi]|].
  apply (python_marker_boost "django"); [left; reflexivity|].
  rewrite py_in_lower by reflexivity. exact Hjob.
Qed.
End Journey.

Lemma django_posting_boosted_in_ranking_witness :
  exists boost,
    (fst (sample_ranking 0.2) !!! 0%nat) !! "domain_boost" = Some (VNum boost)
    /\ 0.449999999 <= boost <= 0.5.
Proof.
  apply (django_posting_boosted_in_ranking unit (fun _ => tt) (fun _ _ => 0.2)
           (fun _ => "") sample_resume [0%nat; 1%nat] sample_store 0%nat).
  - vm_compute. reflexivity.
  - vm_compute. reflexivity.
  - left. reflexivity.
  - vm_compute. reflexivity.
Defined.
End JourneyFacts.
